(** * BackgroundMonitor: a shallow embedding of [QR_alert/lib/backgroundMonitor.js]

    The factory monitor polls simulated robot telemetry, classifies every
    part, keeps a short history per part and writes incident reports, with a
    per-robot, per-day dedup map that suppresses reports for five minutes.

    Modelling conventions.
    - A JavaScript number is an exact rational ([Q]); the rounding of double
      arithmetic is not represented.  The remainders of the simulator are
      exact in the source as well; its sums and quotients are rounded to the
      nearest double there and exact here, so a value of the model may differ
      from the one computed by the last bits.  A property that a part object
      may lack ([undefined]) is an [option]; a comparison with [undefined] is
      false.
    - An instant ([Date]) is its time value in milliseconds ([Z]).  A field
      that holds [toISOString()] of an instant is represented by that time
      value: [new Date(s).getTime()] gives it back.
    - Plain objects used as dictionaries are [gmap]s keyed by strings, except
      the per-robot history, whose keys are enumerated ([Object.keys]) and
      which therefore is an association list in insertion order.  Keys that
      name properties of [Object.prototype] are outside the model.
    - The host (reports directory, interval timers, console) is an explicit
      record threaded through every method.  What the code reads from its
      environment (random draws, the clock, whether a file operation throws)
      is an explicit argument.
    - [async] methods run to completion without interleaving. *)

From Stdlib Require Import ZArith QArith Qround String Ascii List Lia Lqa
  Bool.
From stdpp Require Import gmap strings list fin_maps pretty.

Set Default Proof Using "Type".

(** ** JavaScript numbers *)

Module Js.

(** Truncation towards zero, as used by the [%] operator. *)
Definition Qtrunc (q : Q) : Z :=
  if Qle_bool 0 q then Qfloor q else Qceiling q.

(** [x % m]: the remainder has the sign of the dividend. *)
Definition rem (x m : Q) : Q :=
  (x - m * inject_Z (Qtrunc (x / m)))%Q.

(** [x === c] on numbers. *)
Definition eqb (x c : Q) : bool := Qeq_bool x c.

(** [x > c] and [x < c] on numbers. *)
Definition gtb (x c : Q) : bool := negb (Qle_bool x c).
Definition ltb (x c : Q) : bool := negb (Qle_bool c x).

(** [x > c] and [x < c] where [x] may be [undefined] (then [NaN], false). *)
Definition gt (x : option Q) (c : Q) : bool :=
  match x with Some v => gtb v c | None => false end.
Definition lt (x : option Q) (c : Q) : bool :=
  match x with Some v => ltb v c | None => false end.

(** Truthiness of a possibly missing boolean property. *)
Definition truthy (b : option bool) : bool :=
  match b with Some v => v | None => false end.

(** [Array.prototype.slice(-n)]: the last [n] elements, all of them when the
    array is shorter. *)
Definition slice_last {A} (n : nat) (l : list A) : list A :=
  drop (length l - n) l.

(** [String.prototype.repeat]. *)
Fixpoint repeat (s : string) (n : nat) : string :=
  match n with
  | O => EmptyString
  | S k => s +:+ repeat s k
  end.

(** [Array.prototype.join]. *)
Fixpoint join (sep : string) (l : list string) : string :=
  match l with
  | [] => EmptyString
  | [x] => x
  | x :: rest => x +:+ sep +:+ join sep rest
  end.

(** [String.prototype.toUpperCase] on the ASCII letters. *)
Definition upper_ascii (c : ascii) : ascii :=
  let n := nat_of_ascii c in
  if (97 <=? n)%nat && (n <=? 122)%nat then ascii_of_nat (n - 32) else c.

Fixpoint toUpperCase (s : string) : string :=
  match s with
  | EmptyString => EmptyString
  | String c rest => String (upper_ascii c) (toUpperCase rest)
  end.

(** [s.replace(/[:.]/g, '-')]. *)
Fixpoint dashify (s : string) : string :=
  match s with
  | EmptyString => EmptyString
  | String c rest =>
      String (if Ascii.eqb c ":" || Ascii.eqb c "." then "-"%char else c)
             (dashify rest)
  end.

(** [s.startsWith(p)]. *)
Definition startsWith (p s : string) : bool := String.prefix p s.

(** [s.split(sep)] for a one-character separator. *)
Fixpoint split_on (sep : ascii) (s : string) : list string :=
  match s with
  | EmptyString => [EmptyString]
  | String c rest =>
      if Ascii.eqb c sep then EmptyString :: split_on sep rest
      else match split_on sep rest with
           | [] => [String c EmptyString]
           | w :: ws => String c w :: ws
           end
  end.

End Js.

(** ** Calendar rendering of instants

    [Date.prototype.toISOString] (UTC) and the two [Intl.DateTimeFormat]
    uses of the monitor, both with [timeZone: 'Asia/Tokyo'], taken as the
    fixed +09:00 offset that the zone has had since September 1951 (the
    summers of 1948 to 1951 were at +10:00).  The renderings are those of
    dates with a year between 0 and 9999. *)

Module Clock.

Definition msPerDay : Z := 86400000.
Definition tokyoOffset : Z := 9 * 3600000.

(** Proleptic Gregorian date of a day number counted from 1970-01-01. *)
Definition civil (day : Z) : Z * Z * Z :=
  let z := (day + 719468)%Z in
  let era := (z / 146097)%Z in
  let doe := (z - era * 146097)%Z in
  let yoe := ((doe - doe / 1460 + doe / 36524 - doe / 146096) / 365)%Z in
  let doy := (doe - (365 * yoe + yoe / 4 - yoe / 100))%Z in
  let mp := ((5 * doy + 2) / 153)%Z in
  let d := (doy - (153 * mp + 2) / 5 + 1)%Z in
  let m := (if (mp <? 10)%Z then mp + 3 else mp - 9)%Z in
  let y := (yoe + era * 400 + (if (m <=? 2)%Z then 1 else 0))%Z in
  (y, m, d).

(** Decimal rendering padded with zeros to [width] digits. *)
Definition pad (width : nat) (n : Z) : string :=
  let s := pretty n in
  Js.repeat "0" (width - String.length s) +:+ s.

Definition ymd (sep : string) (day : Z) : string :=
  let '(y, m, d) := civil day in
  pad 4 y +:+ sep +:+ pad 2 m +:+ sep +:+ pad 2 d.

Definition hms (msOfDay : Z) : string :=
  pad 2 (msOfDay / 3600000) +:+ ":" +:+
  pad 2 (msOfDay / 60000 mod 60) +:+ ":" +:+
  pad 2 (msOfDay / 1000 mod 60).

(** [t.toISOString()]. *)
Definition toISOString (t : Z) : string :=
  ymd "-" (t / msPerDay) +:+ "T" +:+ hms (t mod msPerDay) +:+ "." +:+
  pad 3 (t mod 1000) +:+ "Z".

(** [new Intl.DateTimeFormat('en-CA', {timeZone: 'Asia/Tokyo', year, month,
    day}).format(t)]: the Tokyo calendar date as YYYY-MM-DD. *)
Definition jpDateKey (t : Z) : string :=
  ymd "-" ((t + tokyoOffset) / msPerDay).

(** [new Intl.DateTimeFormat('ja-JP', {timeZone: 'Asia/Tokyo', ...,
    second}).format(t)]: YYYY/MM/DD HH:MM:SS in Tokyo. *)
Definition containerTime (t : Z) : string :=
  let l := (t + tokyoOffset)%Z in
  ymd "/" (l / msPerDay) +:+ " " +:+ hms (l mod msPerDay).

End Clock.

(** ** Data model *)

(** A part object.  The simulator fills every property; the stand-in object
    [{ id, name }] of the fallback path has the metrics missing. *)
Module Part.
Record t := mk {
  id : string;
  name : string;
  temperature : option Q;
  vibration : option Q;
  humidity : option Q;
  operatingHours : option Q;
  status : string;
  lastUpdate : option Z;
  voltage : option Q;
  cpuLoad : option Q;
  abnormalNoise : option bool
}.

(** [{ ...p, status: s }]. *)
Definition with_status (s : string) (p : t) : t :=
  mk (id p) (name p) (temperature p) (vibration p) (humidity p)
     (operatingHours p) s (lastUpdate p) (voltage p) (cpuLoad p)
     (abnormalNoise p).

(** [{ id: partId, name: partId }], before a status is spread into it. *)
Definition stub (partId : string) : t :=
  mk partId partId None None None None EmptyString None None None None.
End Part.

(** One entry of the history buffer. *)
Module HistoryEntry.
Record t := mk {
  temperature : option Q;
  vibration : option Q;
  humidity : option Q;
  operatingHours : option Q;
  timestamp : option Z
}.
End HistoryEntry.

(** The snapshot returned by [getRobotData]. *)
Module RobotData.
Record t := mk {
  robotId : string;
  robotName : string;
  parts : list Part.t;
  lastCheck : Z
}.
End RobotData.

(** A JavaScript object whose string keys are enumerated in insertion
    order. *)
Module Obj.
Section Obj.
Context {A : Type}.

Fixpoint get (k : string) (o : list (string * A)) : option A :=
  match o with
  | [] => None
  | (k', v) :: rest => if String.eqb k k' then Some v else get k rest
  end.

(** [o[k] = v]: an existing key keeps its place, a new one goes last. *)
Fixpoint set (k : string) (v : A) (o : list (string * A)) : list (string * A) :=
  match o with
  | [] => [(k, v)]
  | (k', v') :: rest =>
      if String.eqb k k' then (k, v) :: rest else (k', v') :: set k v rest
  end.

(** [Object.keys(o)]. *)
Definition keys (o : list (string * A)) : list string := map fst o.
End Obj.
End Obj.

(** The history of one robot: part id to readings, oldest first. *)
Abbreviation PartHistory := (list (string * list HistoryEntry.t)).

(** ** The monitor object and its host *)

Inductive FsNode :=
| File (content : string)
| Directory.

(** What lives outside the monitor object: whether the [fs] module was
    loaded, the entries of the reports directory ([None] when the directory
    does not exist), the interval timers in force and the console. *)
Record Host := mkHost {
  fsLoaded : bool;
  reports : option (gmap string FsNode);
  timers : list nat;
  nextTimer : nat;
  console : list string
}.

(** The fields of [BackgroundMonitor] (the analysis agent is a parameter of
    the methods that use it). *)
Record Monitor := mkMonitor {
  isRunning : bool;
  monitoringInterval : option nat;
  reportsDir : string;
  lastReportTimes : gmap string Z;
  historyBuffer : gmap string PartHistory
}.

Record System := mkSystem {
  monitor : Monitor;
  host : Host
}.

Definition set_isRunning (b : bool) (m : Monitor) : Monitor :=
  mkMonitor b (monitoringInterval m) (reportsDir m) (lastReportTimes m)
            (historyBuffer m).
Definition set_monitoringInterval (i : option nat) (m : Monitor) : Monitor :=
  mkMonitor (isRunning m) i (reportsDir m) (lastReportTimes m)
            (historyBuffer m).
Definition set_lastReportTimes (l : gmap string Z) (m : Monitor) : Monitor :=
  mkMonitor (isRunning m) (monitoringInterval m) (reportsDir m) l
            (historyBuffer m).
Definition set_historyBuffer (h : gmap string PartHistory) (m : Monitor)
  : Monitor :=
  mkMonitor (isRunning m) (monitoringInterval m) (reportsDir m)
            (lastReportTimes m) h.

Definition set_reports (r : option (gmap string FsNode)) (h : Host) : Host :=
  mkHost (fsLoaded h) r (timers h) (nextTimer h) (console h).
Definition set_timers (t : list nat) (n : nat) (h : Host) : Host :=
  mkHost (fsLoaded h) (reports h) t n (console h).

(** [console.log] and [console.error]: one line, the newest last. *)
Definition say (line : string) (h : Host) : Host :=
  mkHost (fsLoaded h) (reports h) (timers h) (nextTimer h)
         (console h ++ [line]).

Definition on_host (f : Host → Host) (s : System) : System :=
  mkSystem (monitor s) (f (host s)).
Definition on_monitor (f : Monitor → Monitor) (s : System) : System :=
  mkSystem (f (monitor s)) (host s).

(** ** Telemetry simulator ([getRobotData]) *)

Module Simulator.

Definition robotParts : list (string * string) :=
  [ ("head", "頭部"); ("left_arm", "左腕"); ("right_arm", "右腕");
    ("torso", "胴体"); ("left_leg", "左脚"); ("right_leg", "右脚");
    ("base", "ベース") ].

(** What one iteration of the [map] callback reads from its environment:
    [Math.random() * 1000] and the instant of [new Date()]. *)
Record Draw := mkDraw { seed : Q; clock : Z }.

Definition tempSpike (seed : Q) : bool := Js.eqb (Js.rem seed 10) 0.
Definition temperature (seed : Q) : Q :=
  ((35 + Js.rem seed 20) + (if tempSpike seed then 20 else 0))%Q.

Definition vibration (seed : Q) : Q := (0.1 + Js.rem seed 30 / 200)%Q.
Definition vibSpike (seed : Q) : bool := Js.eqb (Js.rem seed 13) 0.

Definition humidity (seed : Q) : Q := (40 + Js.rem seed 30)%Q.
Definition humidSpike (seed : Q) : bool := Js.eqb (Js.rem seed 17) 0.

Definition operatingHours (seed : Q) : Q := (1 + Js.rem seed 48)%Q.

Definition voltage (seed : Q) : Q := (24 - Js.rem seed 8 / 10)%Q.
Definition cpuLoad (seed : Q) : Q := (30 + Js.rem seed 70)%Q.
Definition abnormalNoise (seed : Q) : bool := Js.eqb (Js.rem seed 19) 0.

(** The [if / else if] that derives [status] from the values above. *)
Definition classify (temperature vibration humidity operatingHours
                     voltage cpuLoad : Q)
                    (abnormalNoise vibSpike humidSpike tempSpike : bool)
  : string :=
  let longRun := Js.gtb operatingHours 40 in
  let lowVoltage := Js.ltb voltage 22.5 in
  let highCpu := Js.gtb cpuLoad 85 in
  if Js.gtb temperature 60 || Js.gtb vibration 0.4 || Js.gtb humidity 80
     || longRun || lowVoltage || highCpu || abnormalNoise || vibSpike
     || humidSpike || tempSpike
  then "critical"
  else if Js.gtb temperature 50 || Js.gtb vibration 0.3
          || Js.gtb humidity 70 || Js.gtb operatingHours 30
          || Js.ltb voltage 23.0 || Js.gtb cpuLoad 75
  then "warning"
  else "normal".

(** The body of the [robotParts.map] callback. *)
Definition simulatePart (part : string * string) (d : Draw) : Part.t :=
  let s := seed d in
  {| Part.id := fst part;
     Part.name := snd part;
     Part.temperature := Some (temperature s);
     Part.vibration := Some (vibration s);
     Part.humidity := Some (humidity s);
     Part.operatingHours := Some (operatingHours s);
     Part.status :=
       classify (temperature s) (vibration s) (humidity s)
                (operatingHours s) (voltage s) (cpuLoad s)
                (abnormalNoise s) (vibSpike s) (humidSpike s) (tempSpike s);
     Part.lastUpdate := Some (clock d);
     Part.voltage := Some (voltage s);
     Part.cpuLoad := Some (cpuLoad s);
     Part.abnormalNoise := Some (abnormalNoise s) |}.

(** [robotParts.map(...)]: one reading per part of the roster. *)
Definition simulateParts (draws : nat → Draw) : list Part.t :=
  imap (λ index part, simulatePart part (draws index)) robotParts.

End Simulator.

(** The entry pushed for a part. *)
Definition historyEntryOf (p : Part.t) : HistoryEntry.t :=
  {| HistoryEntry.temperature := Part.temperature p;
     HistoryEntry.vibration := Part.vibration p;
     HistoryEntry.humidity := Part.humidity p;
     HistoryEntry.operatingHours := Part.operatingHours p;
     HistoryEntry.timestamp := Part.lastUpdate p |}.

(** The body of [parts.forEach] in [getRobotData]: create the array when
    missing, push, keep the last ten. *)
Definition appendHistory (h : PartHistory) (p : Part.t) : PartHistory :=
  let h1 := match Obj.get (Part.id p) h with
            | Some _ => h
            | None => Obj.set (Part.id p) [] h
            end in
  let pushed := default [] (Obj.get (Part.id p) h1) ++ [historyEntryOf p] in
  let h2 := Obj.set (Part.id p) pushed h1 in
  if (10 <? length pushed)%nat
  then Obj.set (Part.id p) (Js.slice_last 10 pushed) h2
  else h2.

Definition getRobotData (m : Monitor) (robotId : string)
                        (draws : nat → Simulator.Draw) (lastCheck : Z)
  : Monitor * RobotData.t :=
  let parts := Simulator.simulateParts draws in
  let buffer := match historyBuffer m !! robotId with
                | Some _ => historyBuffer m
                | None => <[robotId := []]> (historyBuffer m)
                end in
  let history := foldl appendHistory (default [] (buffer !! robotId)) parts in
  (set_historyBuffer (<[robotId := history]> buffer) m,
   {| RobotData.robotId := robotId;
      RobotData.robotName := "Robot " +:+ robotId;
      RobotData.parts := parts;
      RobotData.lastCheck := lastCheck |}).

(** ** The analysis agent

    [RobotDiagnosticAI] comes from [./aiAgent]; the monitor uses its name,
    its version and two methods, taken here as pure functions. *)

Module PartData.
Record t := mk {
  partId : string;
  partName : string;
  temperature : option Q;
  vibration : option Q;
  status : string
}.
End PartData.

Module Analysis.
Record t := mk {
  aiSummary : string;
  confidence : Q;
  aiRecommendations : list string
}.
End Analysis.

Record RobotDiagnosticAI := mkAgent {
  agentName : string;
  agentVersion : string;
  generateComprehensiveAnalysis :
    PartData.t → list HistoryEntry.t → Analysis.t;
  generateMaintenanceRecommendations : list Part.t → list string
}.

(** Entries of [global.temperatureHistory] and [global.alertHistory], as
    they are interpolated into the report. *)
Module Spike.
Record t := mk { partName : string; temperature : string;
                 containerTime : string }.
End Spike.

Module Alert.
Record t := mk { message : string; timestamp : string }.
End Alert.

(** What one call of [generateEmergencyReport] reads from its environment:
    the instant of [new Date()], the header drawn by
    [Math.floor(Math.random() * 3)], the two global histories of the robot,
    whether [writeFileSync] throws, and for [logToSystemLog] the instant of
    its own [new Date()] and whether [appendFileSync] throws. *)
Record ReportEnv := mkReportEnv {
  now : Z;
  headerChoice : nat;
  temperatureSpikes : list Spike.t;
  alertHistory : list Alert.t;
  writeThrows : bool;
  logNow : Z;
  appendThrows : bool
}.

Definition nl : string := String "010"%char EmptyString.

(** Concatenation of pieces, any of which may have thrown ([None]). *)
Definition pieces (l : list (option string)) : option string :=
  foldr (λ piece rest, s ← piece; r ← rest; Some (s +:+ r))
        (Some EmptyString) l.

Definition lines (l : list string) : string :=
  foldr (λ line rest, line +:+ nl +:+ rest) EmptyString l.

(** [part.status === 'critical' || part.status === 'emergency']. *)
Definition isCriticalStatus (part : Part.t) : bool :=
  String.eqb (Part.status part) "critical"
  || String.eqb (Part.status part) "emergency".

(** The numbered action procedure, lines 490 to 503 of the source. *)
Definition actionSteps (isCritical : bool) : list string :=
  if isCritical then
    [ "1. 即座にロボットの緊急停止を実行してください";
      "2. 工場責任者に緊急連絡してください";
      "3. 安全エリアから全員を避難させてください";
      "4. メンテナンスチームに緊急対応を要請してください";
      "5. 詳細な点検と修理を実施してください";
      "6. 再開前に完全な安全確認を完了してください" ]
  else
    [ "1. 即座にロボットの運転を停止してください";
      "2. 安全確認を実施してください";
      "3. メンテナンスチームに連絡してください";
      "4. 詳細な点検を実施してください";
      "5. 再開前に安全確認を完了してください" ].

Definition actionProcedure (isCritical : bool) : string :=
  lines (actionSteps isCritical) +:+ nl.

Section Reporting.

(** The agent held in [this.aiAgent], and the two number renderings of the
    runtime: [Number.prototype.toFixed] and the conversion of a number
    inside a template literal. *)
Variable aiAgent : RobotDiagnosticAI.
Variable toFixed : Q → nat → string.
Variable numberToString : Q → string.

Definition performAIAnalysis (m : Monitor) (robotData : RobotData.t)
                             (criticalParts : list Part.t)
  : list Analysis.t :=
  map (λ part,
         let partData :=
           {| PartData.partId := Part.id part;
              PartData.partName := Part.name part;
              PartData.temperature := Part.temperature part;
              PartData.vibration := Part.vibration part;
              PartData.status := Part.status part |} in
         let historicalData :=
           default []
             (history ← historyBuffer m !! RobotData.robotId robotData;
              Obj.get (Part.id part) history) in
         generateComprehensiveAnalysis aiAgent partData historicalData)
      criticalParts.

Definition headersCritical : list string :=
  [ "🚨 CRITICAL レポート - 緊急停止要請";
    "🚨 臨界異常レポート - 直ちに対応が必要";
    "🚨 重大障害レポート - 緊急対応指示" ].

Definition headersEmergency : list string :=
  [ "🚨 工場自動監視システム - 緊急レポート";
    "🚨 異常検知レポート - 早急な点検を推奨";
    "🚨 注意レポート - 予防保全の実施を推奨" ].

Definition rule (c : string) (n : nat) : string := Js.repeat c n +:+ nl.

(** [x.toFixed(d)] where [x] may be [undefined]: then a [TypeError]. *)
Definition fixed (x : option Q) (d : nat) : option string :=
  v ← x; Some (toFixed v d).

(** The error details of a critical report (source lines 370 to 406). *)
Definition errorDetails (robotData : RobotData.t)
                        (criticalParts : list Part.t) (env : ReportEnv)
  : option string :=
  dangerousParts ←
    mapM (λ part,
            t ← fixed (Part.temperature part) 1;
            v ← fixed (Part.vibration part) 3;
            Some (Part.name part,
                  "温度: " +:+ t +:+ "°C, 振動: " +:+ v +:+ ", 状態: "
                  +:+ Part.status part))
         criticalParts;
  Some (
    rule "-" 60 +:+ "🚨 CRITICAL エラー詳細" +:+ nl +:+ rule "-" 60 +:+ nl
    +:+ "連続危険検知回数: " +:+ pretty (length criticalParts) +:+ "回" +:+ nl
    +:+ "危険部位数: " +:+ pretty (length dangerousParts) +:+ "個" +:+ nl
    +:+ lines (imap (λ index part,
                       "  " +:+ pretty (index + 1)%nat +:+ ". " +:+ fst part
                       +:+ ": " +:+ snd part) dangerousParts)
    +:+ (if (0 <? length (temperatureSpikes env))%nat then
           nl +:+ "温度スパイク履歴: "
           +:+ pretty (length (temperatureSpikes env)) +:+ "件" +:+ nl
           +:+ lines (imap (λ index spike,
                              "  " +:+ pretty (index + 1)%nat +:+ ". "
                              +:+ Spike.partName spike +:+ ": "
                              +:+ Spike.temperature spike +:+ "°C ("
                              +:+ Spike.containerTime spike +:+ ")")
                           (Js.slice_last 5 (temperatureSpikes env)))
         else EmptyString)
    +:+ (if (0 <? length (alertHistory env))%nat then
           nl +:+ "アラート履歴: "
           +:+ pretty (length (alertHistory env)) +:+ "件" +:+ nl
           +:+ lines (imap (λ index alert,
                              "  " +:+ pretty (index + 1)%nat +:+ ". "
                              +:+ Alert.message alert +:+ " ("
                              +:+ Alert.timestamp alert +:+ ")")
                           (Js.slice_last 3 (alertHistory env)))
         else EmptyString)
    +:+ nl).

(** A metric above its tier-1 threshold, else above its tier-2 threshold. *)
Definition tiered (x : option Q) (above : Q → Q → bool) (hi lo : Q)
                  (whenHi whenLo : Q → string) : list string :=
  match x with
  | Some v => if above v hi then [whenHi v]
              else if above v lo then [whenLo v] else []
  | None => []
  end.

(** The [events] array built for a part (source lines 415 to 442). *)
Definition events (part : Part.t) : list string :=
  tiered (Part.temperature part) Js.gtb 60 50
         (λ v, "高温(" +:+ toFixed v 1 +:+ "°C)")
         (λ v, "温度上昇(" +:+ toFixed v 1 +:+ "°C)")
  ++ tiered (Part.vibration part) Js.gtb 0.4 0.3
         (λ v, "高振動(" +:+ toFixed v 3 +:+ ")")
         (λ v, "振動上昇(" +:+ toFixed v 3 +:+ ")")
  ++ tiered (Part.humidity part) Js.gtb 80 70
         (λ v, "高湿度(" +:+ toFixed v 1 +:+ "%)")
         (λ v, "湿度上昇(" +:+ toFixed v 1 +:+ "%)")
  ++ tiered (Part.operatingHours part) Js.gtb 40 30
         (λ v, "長時間稼働(" +:+ numberToString v +:+ "h)")
         (λ v, "稼働時間増加(" +:+ numberToString v +:+ "h)")
  ++ tiered (Part.voltage part) Js.ltb 22.5 23.0
         (λ v, "電圧低下(" +:+ toFixed v 1 +:+ "V)")
         (λ v, "電圧降下兆候(" +:+ toFixed v 1 +:+ "V)")
  ++ tiered (Part.cpuLoad part) Js.gtb 85 75
         (λ v, "CPU過負荷(" +:+ toFixed v 0 +:+ "%)")
         (λ v, "CPU負荷上昇(" +:+ toFixed v 0 +:+ "%)")
  ++ (if Js.truthy (Part.abnormalNoise part) then ["異音検知"] else []).

(** A line that is written only when the property is defined. *)
Definition whenDefined {A} (x : option A) (line : A → string) : string :=
  match x with Some v => line v +:+ nl | None => EmptyString end.

(** The first lines of a part detail: the name and the readings (source
    lines 413 and 443 to 451). *)
Definition detailReadings (index : nat) (part : Part.t) (t v : string)
  : string :=
  pretty (index + 1)%nat +:+ ". " +:+ Part.name part +:+ nl
  +:+ "   温度: " +:+ t +:+ "°C" +:+ nl
  +:+ "   振動: " +:+ v +:+ nl
  +:+ "   状態: " +:+ Js.toUpperCase (Part.status part) +:+ nl
  +:+ whenDefined (Part.humidity part)
        (λ x, "   湿度: " +:+ toFixed x 1 +:+ "%")
  +:+ whenDefined (Part.operatingHours part)
        (λ x, "   稼働時間: " +:+ numberToString x +:+ "h")
  +:+ whenDefined (Part.voltage part)
        (λ x, "   電圧: " +:+ toFixed x 1 +:+ "V")
  +:+ whenDefined (Part.cpuLoad part)
        (λ x, "   CPU負荷: " +:+ toFixed x 0 +:+ "%")
  +:+ whenDefined (Part.abnormalNoise part)
        (λ x, "   異音: " +:+ (if x then "あり" else "なし")).

(** The events line, written when there is an event (source lines 452 and
    453). *)
Definition eventsLine (evs : list string) : string :=
  if (0 <? length evs)%nat
  then "   事象: " +:+ Js.join ", " evs +:+ nl else EmptyString.

(** The last lines of a part detail: what the agent said of the part (source
    lines 454 to 460). *)
Definition detailAnalysis (analysis : Analysis.t) : string :=
  "   AI分析: " +:+ Analysis.aiSummary analysis +:+ nl
  +:+ "   信頼度: " +:+ toFixed (Analysis.confidence analysis * 100)%Q 1
  +:+ "%" +:+ nl
  +:+ "   推奨事項:" +:+ nl
  +:+ lines (map (λ rec, "     - " +:+ rec)
                 (Analysis.aiRecommendations analysis))
  +:+ nl.

(** One iteration of the part detail loop (source lines 412 to 461);
    [aiAnalysis[index]] may be missing, which throws at [analysis.aiSummary]. *)
Definition partDetail (aiAnalysis : list Analysis.t) (index : nat)
                      (part : Part.t) : option string :=
  let evs := events part in
  t ← fixed (Part.temperature part) 1;
  v ← fixed (Part.vibration part) 3;
  analysis ← aiAnalysis !! index;
  Some (detailReadings index part t v +:+ eventsLine evs
        +:+ detailAnalysis analysis).

(** The report up to the action procedure. *)
Definition reportHead (robotData : RobotData.t) (criticalParts : list Part.t)
                      (aiAnalysis : list Analysis.t) (timestamp : Z)
                      (isCritical : bool) (env : ReportEnv)
  : option string :=
  let containerTime := Clock.containerTime timestamp in
  let isoTime := Clock.toISOString timestamp in
  let header :=
    nth (headerChoice env)
        (if isCritical then headersCritical else headersEmergency)
        "undefined" in
  let hasVoltage :=
    existsb (λ p, Js.lt (Part.voltage p) 23.0) criticalParts in
  let hasCpu := existsb (λ p, Js.gt (Part.cpuLoad p) 75) criticalParts in
  let hasNoise :=
    existsb (λ p, Js.truthy (Part.abnormalNoise p)) criticalParts in
  pieces [
    Some (rule "=" 80 +:+ header +:+ nl);
    Some (if isCritical then "⚠️  IMMEDIATE ACTION REQUIRED ⚠️" +:+ nl
          else EmptyString);
    Some (rule "=" 80 +:+ nl);
    Some ("ロボットID: " +:+ RobotData.robotId robotData +:+ nl
          +:+ "ロボット名: " +:+ RobotData.robotName robotData +:+ nl
          +:+ "レポート生成時刻: " +:+ containerTime +:+ nl
          +:+ "ISO時刻: " +:+ isoTime +:+ nl
          +:+ "状況レベル: " +:+ (if isCritical then "CRITICAL" else "warning")
          +:+ nl
          +:+ "異常検知部位数: " +:+ pretty (length criticalParts) +:+ nl
          +:+ nl);
    (if isCritical then errorDetails robotData criticalParts env
     else Some EmptyString);
    Some (rule "-" 60 +:+ "🔥 異常検知部位詳細" +:+ nl +:+ rule "-" 60 +:+ nl);
    pieces (imap (partDetail aiAnalysis) criticalParts);
    Some (rule "-" 60 +:+ "🤖 AIエージェント総合分析" +:+ nl +:+ rule "-" 60
          +:+ nl
          +:+ "エージェント名: " +:+ agentName aiAgent +:+ nl
          +:+ "バージョン: " +:+ agentVersion aiAgent +:+ nl
          +:+ "分析時刻: " +:+ isoTime +:+ nl
          +:+ "分析部位数: " +:+ pretty (length criticalParts) +:+ nl +:+ nl);
    Some ("総合推奨事項:" +:+ nl
          +:+ lines (map (λ rec, "- " +:+ rec)
                         (generateMaintenanceRecommendations aiAgent
                            criticalParts)));
    Some (if hasVoltage
          then "- 電源品質(電圧降下/リップル)の測定と配線・コネクタ点検" +:+ nl
          else EmptyString);
    Some (if hasCpu
          then "- コントローラ負荷の平準化、不要プロセスの停止、放熱改善" +:+ nl
          else EmptyString);
    Some (if hasNoise
          then "- ベアリング/ギア/ファンの健全性診断(振動解析/音響診断)" +:+ nl
          else EmptyString);
    Some nl;
    Some (rule "-" 60
          +:+ (if isCritical then "🚨 CRITICAL 対応手順" else "⚠️ 推奨対応")
          +:+ nl +:+ rule "-" 60 +:+ nl) ].

(** The report after the action procedure. *)
Definition reportTail (isCritical : bool) : string :=
  rule "-" 60 +:+ "📊 工場監視システム情報" +:+ nl +:+ rule "-" 60 +:+ nl
  +:+ "監視システム: バックグラウンド自動監視" +:+ nl
  +:+ "監視間隔: 5秒" +:+ nl
  +:+ "レポート生成: 自動（温度上昇検知時）" +:+ nl
  +:+ "QRコード読み取り: 不要（自動監視）" +:+ nl
  +:+ "工場環境: 本番稼働中" +:+ nl +:+ nl
  +:+ rule "=" 80
  +:+ (if isCritical then "End of CRITICAL Report"
       else "End of Emergency Report")
  +:+ nl +:+ rule "=" 80.

(** [generateReportContent]; [None] when rendering throws. *)
Definition generateReportContent (robotData : RobotData.t)
                                 (criticalParts : list Part.t)
                                 (aiAnalysis : list Analysis.t)
                                 (timestamp : Z) (isCritical : bool)
                                 (env : ReportEnv) : option string :=
  head ← reportHead robotData criticalParts aiAnalysis timestamp isCritical
                    env;
  Some (head +:+ actionProcedure isCritical +:+ reportTail isCritical).

(** *** File operations on the reports directory *)

(** [fs.writeFileSync(path.join(reportsDir, name), content)]: [None] when it
    throws, because the environment says so, the directory is gone or the
    name is that of a subdirectory. *)
Definition writeFileSync (name content : string) (throws : bool) (h : Host)
  : option Host :=
  if throws then None
  else match reports h with
       | None => None
       | Some dir =>
           match dir !! name with
           | Some Directory => None
           | _ => Some (set_reports (Some (<[name := File content]> dir)) h)
           end
       end.

(** [fs.appendFileSync(path.join(reportsDir, name), data)]. *)
Definition appendFileSync (name data : string) (throws : bool) (h : Host)
  : option Host :=
  if throws then None
  else match reports h with
       | None => None
       | Some dir =>
           match dir !! name with
           | Some Directory => None
           | Some (File old) =>
               Some (set_reports (Some (<[name := File (old +:+ data)]> dir)) h)
           | None => Some (set_reports (Some (<[name := File data]> dir)) h)
           end
       end.

(** [path.join(dir, name)] for a plain file name. *)
Definition path_join (dir name : string) : string := dir +:+ "/" +:+ name.

(** [logToSystemLog]. *)
Definition logToSystemLog (s : System) (robotId : string)
                          (criticalParts : list Part.t) (filename : string)
                          (isCritical : bool) (env : ReportEnv) : System :=
  if negb (fsLoaded (host s)) then s
  else
    let timestamp := Clock.toISOString (logNow env) in
    let logType := if isCritical then "CRITICAL" else "EMERGENCY" in
    let logEntry :=
      "[" +:+ timestamp +:+ "] " +:+ logType +:+ ": " +:+ robotId +:+ " - "
      +:+ pretty (length criticalParts) +:+ " critical parts - Report: "
      +:+ filename +:+ nl in
    match appendFileSync "system_monitor.log" logEntry (appendThrows env)
                         (host s) with
    | Some h => mkSystem (monitor s) h
    | None => on_host (say "システムログ書き込みエラー:") s
    end.

(** *** Report emission *)

(** How a call of [generateEmergencyReport] ended: by the early return of
    the suppression window, by an exception (of [path.join] when the [path]
    module was not loaded, or while rendering), by one of the two returns of
    the write step, or after the report was written. *)
Inductive Outcome :=
| Suppressed
| Threw
| FsMissing
| WriteFailed
| Emitted (filename content : string).

Definition reportKeyOf (robotId : string) (t : Z) : string :=
  robotId +:+ "_" +:+ Clock.jpDateKey t.

(** The guard of the early return: a time is recorded for the key and the
    difference to it is below 300000 ms. *)
Definition withinWindow (m : Monitor) (reportKey : string) (timestamp : Z)
  : bool :=
  match lastReportTimes m !! reportKey with
  | Some lastTime => (timestamp - lastTime <? 300000)%Z
  | None => false
  end.

Definition reportFilename (isCritical : bool) (robotId : string)
                          (timestamp : Z) : string :=
  let reportType := if isCritical then "CRITICAL" else "emergency" in
  let isoForFilename := Js.dashify (Clock.toISOString timestamp) in
  reportType +:+ "_report_" +:+ robotId +:+ "_" +:+ isoForFilename +:+ ".txt".

(** [generateEmergencyReport].  [path.join] (source line 282) comes before
    the [if (fs)] of the write step: without the [fs] and [path] modules the
    call throws there. *)
Definition generateEmergencyReport (s : System) (robotId : string)
                                   (robotData : RobotData.t)
                                   (criticalParts : list Part.t)
                                   (env : ReportEnv) : System * Outcome :=
  let timestamp := now env in
  let reportKey := reportKeyOf robotId timestamp in
  if withinWindow (monitor s) reportKey timestamp then (s, Suppressed)
  else
    let isCritical := existsb isCriticalStatus criticalParts in
    let s1 :=
      on_host (say (if isCritical
                    then "🚨 CRITICAL レポート生成: " +:+ robotId +:+ " - "
                         +:+ pretty (length criticalParts)
                         +:+ "個の部位でCRITICAL状況検知"
                    else "🚨 緊急レポート生成: " +:+ robotId +:+ " - "
                         +:+ pretty (length criticalParts)
                         +:+ "個の部位で異常検知")) s in
    let aiAnalysis := performAIAnalysis (monitor s1) robotData criticalParts in
    let filename := reportFilename isCritical robotId timestamp in
    if negb (fsLoaded (host s1)) then (s1, Threw)
    else
    let filePath := path_join (reportsDir (monitor s1)) filename in
    match generateReportContent robotData criticalParts aiAnalysis timestamp
                                isCritical env with
    | None => (s1, Threw)
    | Some reportContent =>
        if fsLoaded (host s1) then
          match writeFileSync filename reportContent (writeThrows env)
                              (host s1) with
          | None =>
              (on_host (say "❌ ファイル書き込みエラー:") s1, WriteFailed)
          | Some written =>
              let s2 :=
                mkSystem (monitor s1)
                         (say ("✅ ファイル書き込み成功: " +:+ filePath) written) in
              let s3 :=
                on_monitor
                  (λ m, set_lastReportTimes
                          (<[reportKey := timestamp]> (lastReportTimes m)) m)
                  s2 in
              let s4 :=
                on_host (say ("📄 緊急レポート生成完了: " +:+ filename)) s3 in
              (logToSystemLog s4 robotId criticalParts filename isCritical env,
               Emitted filename reportContent)
          end
        else
          (on_host (say "❌ fsモジュールが利用できません") s1, FsMissing)
    end.

(** The older entry point. *)
Definition generateCriticalReport := generateEmergencyReport.

(** ** Status evaluation ([checkRobotStatus]) *)

Definition criticalPartsOf (robotData : RobotData.t) : list Part.t :=
  List.filter isCriticalStatus (RobotData.parts robotData).

Definition warningPartsOf (robotData : RobotData.t) : list Part.t :=
  List.filter (λ part, Js.gt (Part.temperature part) 50
                       || String.eqb (Part.status part) "warning")
              (RobotData.parts robotData).

(** The test applied to each of the last three history entries. *)
Definition abnormalEntry (h : HistoryEntry.t) : bool :=
  Js.gt (HistoryEntry.temperature h) 60
  || Js.gt (HistoryEntry.vibration h) 0.4
  || Js.gt (HistoryEntry.humidity h) 80
  || Js.gt (HistoryEntry.operatingHours h) 40.

(** Whether the fallback loop pushes an entry for [partId]. *)
Definition sustained (history : PartHistory) (partId : string) : bool :=
  let recent := Js.slice_last 3 (default [] (Obj.get partId history)) in
  (length recent =? 3)%nat && forallb abnormalEntry recent.

(** What the fallback loop pushes for [partId]. *)
Definition synthesize (robotData : RobotData.t) (partId : string) : Part.t :=
  let partInfo :=
    default (Part.stub partId)
            (List.find (λ p, String.eqb (Part.id p) partId)
                       (RobotData.parts robotData)) in
  Part.with_status "critical" partInfo.

(** [suspiciousParts] after [Object.keys(history).forEach]. *)
Definition suspiciousPartsOf (history : PartHistory)
                             (robotData : RobotData.t) : list Part.t :=
  foldl (λ suspiciousParts partId,
           if sustained history partId
           then suspiciousParts ++ [synthesize robotData partId]
           else suspiciousParts)
        [] (Obj.keys history).

Definition historyOf (m : Monitor) (robotId : string) : PartHistory :=
  default [] (historyBuffer m !! robotId).

Definition fallbackMessage : string :=
  "📝 停止中フォールバック: 連続異常を検知したため緊急レポートを強制生成".

(** The first report of a check: the critical parts if there are any, else
    the warning parts if there are any (source lines 96 to 117). *)
Definition primaryReport (s : System) (robotId : string)
                         (robotData : RobotData.t) (env : ReportEnv)
  : System * option Outcome :=
  let criticalParts := criticalPartsOf robotData in
  let warningParts := warningPartsOf robotData in
  let s1 :=
    on_host (say ("🔍 " +:+ robotId +:+ " チェック: "
                  +:+ pretty (length criticalParts)
                  +:+ "個のCritical部位、"
                  +:+ pretty (length warningParts)
                  +:+ "個の異常部位を検知")) s in
  if (0 <? length criticalParts)%nat then
    let s2 :=
      on_host (say ("🚨 " +:+ robotId
                    +:+ " でCRITICAL状況検知! 緊急レポート生成開始...")) s1 in
    let '(s3, o) :=
      generateEmergencyReport s2 robotId robotData criticalParts env in
    (s3, Some o)
  else if (0 <? length warningParts)%nat then
    let s2 :=
      on_host (say ("🚨 " +:+ robotId
                    +:+ " で異常検知! レポート生成開始...")) s1 in
    let '(s3, o) :=
      generateEmergencyReport s2 robotId robotData warningParts env in
    (s3, Some o)
  else (s1, None).

(** The guard of the fallback block (source line 121 and line 137). *)
Definition fallbackFires (s : System) (robotData : RobotData.t) : bool :=
  negb (isRunning (monitor s))
  && (length (criticalPartsOf robotData) =? 0)%nat
  && (0 <? length (suspiciousPartsOf
                     (historyOf (monitor s) (RobotData.robotId robotData))
                     robotData))%nat.

(** The fallback block (source lines 121 to 141). *)
Definition fallbackReport (s : System) (robotData : RobotData.t)
                          (env : ReportEnv) : System * option Outcome :=
  if fallbackFires s robotData then
    let suspiciousParts :=
      suspiciousPartsOf (historyOf (monitor s) (RobotData.robotId robotData))
                        robotData in
    let s1 := on_host (say fallbackMessage) s in
    let '(s2, o) :=
      generateEmergencyReport s1 (RobotData.robotId robotData) robotData
                              suspiciousParts env in
    (s2, Some o)
  else (s, None).

Definition caught (robotId : string) (s : System) : System :=
  on_host (say ("ロボット " +:+ robotId +:+ " のデータ取得エラー:")) s.

(** The body of [checkRobotStatus] once the snapshot is there; an exception
    of a report call ends the [try] block in the [catch].  The result lists
    how the report calls that were made ended, in order. *)
Definition evaluateSnapshot (s : System) (robotId : string)
                            (robotData : RobotData.t)
                            (primaryEnv fallbackEnv : ReportEnv)
  : System * list Outcome :=
  let '(s1, first) := primaryReport s robotId robotData primaryEnv in
  match first with
  | Some Threw => (caught robotId s1, [Threw])
  | _ =>
      let '(s2, second) := fallbackReport s1 robotData fallbackEnv in
      let outcomes := option_list first ++ option_list second in
      match second with
      | Some Threw => (caught robotId s2, outcomes)
      | _ => (s2, outcomes)
      end
  end.

(** What one call of [checkRobotStatus] reads from its environment. *)
Record CheckEnv := mkCheckEnv {
  draws : nat → Simulator.Draw;
  lastCheckNow : Z;
  primaryEnv : ReportEnv;
  fallbackEnv : ReportEnv
}.

Definition checkRobotStatus (s : System) (robotId : string) (env : CheckEnv)
  : System * list Outcome :=
  let '(m, robotData) :=
    getRobotData (monitor s) robotId (draws env) (lastCheckNow env) in
  evaluateSnapshot (mkSystem m (host s)) robotId robotData
                   (primaryEnv env) (fallbackEnv env).

(** [checkAllRobots]: the three robots in turn. *)
Definition robotIds : list string := ["ROBOT_001"; "ROBOT_002"; "ROBOT_003"].

Definition checkAllRobots (s : System) (envs : string → CheckEnv) : System :=
  foldl (λ acc robotId, fst (checkRobotStatus acc robotId (envs robotId)))
        s robotIds.

End Reporting.

(** ** Lifecycle *)

(** The constructor: [path.join] is reached unguarded, so construction
    throws when the [fs] and [path] modules were not loaded; otherwise the
    reports directory is created when missing. *)
Definition new_BackgroundMonitor (cwd : string) (h : Host) : option System :=
  if fsLoaded h then
    Some (mkSystem
            (mkMonitor false None (path_join cwd "reports") ∅ ∅)
            (match reports h with
             | None => set_reports (Some ∅) h
             | Some _ => h
             end))
  else None.

(** What [startMonitoring] reads from its environment: whether
    [readdirSync] throws and which entries cannot be removed. *)
Record StartEnv := mkStartEnv {
  readdirThrows : bool;
  removeThrows : string → bool
}.

(** The cleanup of the reports directory at start. *)
Definition purge (env : StartEnv) (h : Host) : Host :=
  if fsLoaded h then
    match reports h with
    | Some dir =>
        if readdirThrows env
        then say "reports ディレクトリのクリーンアップに失敗:" h
        else
          let h1 :=
            foldl (λ acc entry,
                     if removeThrows env entry
                     then say "reports フォルダ内ファイル削除中にエラー:" acc
                     else set_reports (delete entry <$> reports acc) acc)
                  h (fst <$> map_to_list dir) in
          say "🧹 reports ディレクトリをクリーンアップしました" h1
    | None => h
    end
  else h.

Definition startMonitoring (s : System) (env : StartEnv) : System :=
  if isRunning (monitor s) then s
  else
    let s1 := on_monitor (set_isRunning true) s in
    let s2 :=
      on_host (say "🏭 工場監視システム: バックグラウンド監視を開始しました") s1 in
    let s3 := on_host (purge env) s2 in
    let timer := nextTimer (host s3) in
    mkSystem (set_monitoringInterval (Some timer) (monitor s3))
             (set_timers (timers (host s3) ++ [timer]) (S timer) (host s3)).

Definition stopMonitoring (s : System) : System :=
  if negb (isRunning (monitor s)) then s
  else
    let s1 := on_monitor (set_isRunning false) s in
    let s2 :=
      match monitoringInterval (monitor s1) with
      | Some timer =>
          mkSystem (set_monitoringInterval None (monitor s1))
                   (set_timers (List.filter (λ t, negb (t =? timer)%nat)
                                            (timers (host s1)))
                               (nextTimer (host s1)) (host s1))
      | None => s1
      end in
    on_host (say "🏭 工場監視システム: バックグラウンド監視を停止しました") s2.

(** The object returned by [getStatus]. *)
Module Status.
Record t := mk {
  isRunning : bool;
  monitoringInterval : string;
  reportsGenerated : nat;
  lastReportTimes : gmap string Z
}.
End Status.

Definition getStatus (m : Monitor) : Status.t :=
  {| Status.isRunning := isRunning m;
     Status.monitoringInterval :=
       match monitoringInterval m with
       | Some _ => "5 seconds"
       | None => "stopped"
       end;
     Status.reportsGenerated := size (lastReportTimes m);
     Status.lastReportTimes := lastReportTimes m |}.

(** ** The module-level instance and the automatic start

    [getBackgroundMonitor] keeps one monitor in the module variable
    [backgroundMonitor]; the callback that [autoStart.js] schedules on the
    server fetches it, starts it and logs.  A process is that variable
    together with the host; [None] is an exception of the constructor. *)

Record Process := mkProcess {
  backgroundMonitor : option Monitor;
  processHost : Host
}.

Definition getBackgroundMonitor (cwd : string) (p : Process)
  : option Process :=
  match backgroundMonitor p with
  | Some _ => Some p
  | None =>
      s ← new_BackgroundMonitor cwd (processHost p);
      Some (mkProcess (Some (monitor s)) (host s))
  end.

(** The body of the [setTimeout] callback of [autoStart.js]. *)
Definition autoStart (cwd : string) (p : Process) (env : StartEnv)
  : option Process :=
  p1 ← getBackgroundMonitor cwd p;
  m ← backgroundMonitor p1;
  let s := startMonitoring (mkSystem m (processHost p1)) env in
  Some (mkProcess (Some (monitor s))
                  (say "🏭 工場監視システム: 自動起動完了" (host s))).

(** ** Vocabulary of the properties *)

(** [x > c] and [x < c] as propositions on a property that may be missing. *)
Definition above (x : option Q) (c : Q) : Prop :=
  match x with Some v => (c < v)%Q | None => False end.
Definition below (x : option Q) (c : Q) : Prop :=
  match x with Some v => (v < c)%Q | None => False end.

(** The tier-1 conditions of a reading drawn with [seed]. *)
Definition tier1 (p : Part.t) (seed : Q) : Prop :=
  above (Part.temperature p) 60 ∨ above (Part.vibration p) 0.4
  ∨ above (Part.humidity p) 80 ∨ above (Part.operatingHours p) 40
  ∨ below (Part.voltage p) 22.5 ∨ above (Part.cpuLoad p) 85
  ∨ Part.abnormalNoise p = Some true
  ∨ Simulator.vibSpike seed = true ∨ Simulator.humidSpike seed = true
  ∨ Simulator.tempSpike seed = true.

(** The tier-2 conditions of a reading. *)
Definition tier2 (p : Part.t) : Prop :=
  above (Part.temperature p) 50 ∨ above (Part.vibration p) 0.3
  ∨ above (Part.humidity p) 70 ∨ above (Part.operatingHours p) 30
  ∨ below (Part.voltage p) 23.0 ∨ above (Part.cpuLoad p) 75.

(** The anomaly test of the fallback rule on one history entry. *)
Definition Abnormal (h : HistoryEntry.t) : Prop :=
  above (HistoryEntry.temperature h) 60
  ∨ above (HistoryEntry.vibration h) 0.4
  ∨ above (HistoryEntry.humidity h) 80
  ∨ above (HistoryEntry.operatingHours h) 40.

(** A part with at least three history entries, the last three abnormal. *)
Definition SustainedAnomaly (history : PartHistory) (partId : string)
  : Prop :=
  ∃ entries, Obj.get partId history = Some entries
             ∧ 3 ≤ length entries
             ∧ Forall Abnormal (Js.slice_last 3 entries).

(** [p] has every field of [q] but, possibly, the status. *)
Definition sameButStatus (p q : Part.t) : Prop :=
  Part.id p = Part.id q ∧ Part.name p = Part.name q
  ∧ Part.temperature p = Part.temperature q
  ∧ Part.vibration p = Part.vibration q
  ∧ Part.humidity p = Part.humidity q
  ∧ Part.operatingHours p = Part.operatingHours q
  ∧ Part.lastUpdate p = Part.lastUpdate q
  ∧ Part.voltage p = Part.voltage q
  ∧ Part.cpuLoad p = Part.cpuLoad q
  ∧ Part.abnormalNoise p = Part.abnormalNoise q.

(** [p] has its id for a name and no reading at all. *)
Definition bare (p : Part.t) : Prop :=
  Part.name p = Part.id p
  ∧ Part.temperature p = None ∧ Part.vibration p = None
  ∧ Part.humidity p = None ∧ Part.operatingHours p = None
  ∧ Part.lastUpdate p = None ∧ Part.voltage p = None
  ∧ Part.cpuLoad p = None ∧ Part.abnormalNoise p = None.

(** A part whose rendering does not throw. *)
Definition metricsDefined (p : Part.t) : Prop :=
  is_Some (Part.temperature p) ∧ is_Some (Part.vibration p).

(** The buffer of a (robotId, partId) key; a missing one is empty. *)
Definition bufferOf (m : Monitor) (robotId partId : string)
  : list HistoryEntry.t :=
  default [] (Obj.get partId (historyOf m robotId)).

(** A sequence of [getRobotData] calls and the monitor it leads to. *)
Record Call := mkCall {
  callRobot : string;
  callDraws : nat → Simulator.Draw;
  callTime : Z
}.

Definition runCalls (m : Monitor) (calls : list Call) : Monitor :=
  foldl (λ acc c,
           fst (getRobotData acc (callRobot c) (callDraws c) (callTime c)))
        m calls.

(** The readings a call appends for a key. *)
Definition appendedBy (c : Call) (robotId partId : string)
  : list HistoryEntry.t :=
  if String.eqb (callRobot c) robotId
  then historyEntryOf
         <$> List.filter (λ p, String.eqb (Part.id p) partId)
                         (Simulator.simulateParts (callDraws c))
  else [].

(** Every reading appended for a key by a sequence of calls, in order. *)
Definition appended (calls : list Call) (robotId partId : string)
  : list HistoryEntry.t :=
  concat ((λ c, appendedBy c robotId partId) <$> calls).

(** The lines of a block that are not empty. *)
Definition nonEmptyLines (block : string) : list string :=
  List.filter (λ l, negb (String.eqb l EmptyString))
              (Js.split_on "010"%char block).

(** The number of steps of a block whose lines are numbered 1., 2., ... in
    order; [None] when some line is not so numbered. *)
Definition numberedSteps (block : string) : option nat :=
  let ls := nonEmptyLines block in
  if forallb (λ il, Js.startsWith (pretty (fst il + 1)%nat +:+ ". ") (snd il))
             (imap pair ls)
  then Some (length ls) else None.

(** The number of report files in the reports directory. *)
Definition reportFiles (h : Host) : list string :=
  List.filter (λ f, negb (String.eqb f "system_monitor.log"))
              (fst <$> map_to_list (default ∅ (reports h))).

(** The part ids of the roster, in order. *)
Definition rosterIds : list string := fst <$> Simulator.robotParts.

(** ** Runs of the monitor *)

Section Runs.

Variable aiAgent : RobotDiagnosticAI.
Variable toFixed : Q → nat → string.
Variable numberToString : Q → string.

(** One call of a method of the monitor, with whatever it reads from its
    environment. *)
Inductive Step : System → System → Prop :=
| step_start s env : Step s (startMonitoring s env)
| step_stop s : Step s (stopMonitoring s)
| step_fetch s robotId draws lastCheck :
    Step s (mkSystem (fst (getRobotData (monitor s) robotId draws lastCheck))
                     (host s))
| step_report s robotId robotData criticalParts env :
    Step s (fst (generateEmergencyReport aiAgent toFixed numberToString s
                   robotId robotData criticalParts env))
| step_check s robotId env :
    Step s (fst (checkRobotStatus aiAgent toFixed numberToString s robotId
                   env))
| step_tick s envs :
    Step s (checkAllRobots aiAgent toFixed numberToString s envs).

(** The states a monitor can be in: those that method calls lead to from
    the state the constructor leaves. *)
Definition Reachable (s : System) : Prop :=
  ∃ cwd h s0, new_BackgroundMonitor cwd h = Some s0 ∧ rtc Step s0 s.

End Runs.

(** *** Sample inputs *)

Module Sample.

Definition agent : RobotDiagnosticAI :=
  {| agentName := "RobotDiagnosticAI";
     agentVersion := "1.0";
     generateComprehensiveAnalysis :=
       λ _ _, {| Analysis.aiSummary := "summary";
                 Analysis.confidence := 0.9;
                 Analysis.aiRecommendations := ["inspect"] |};
     generateMaintenanceRecommendations := λ _, ["maintain"] |}.

(** Stand-ins for the number renderings: numerator and denominator. *)
Definition numberToString (x : Q) : string :=
  pretty (Qnum (Qred x)) +:+ "/" +:+ pretty (Z.pos (Qden (Qred x))).
Definition toFixed (x : Q) (d : nat) : string := numberToString x.

Definition host : Host :=
  {| fsLoaded := true; reports := Some ∅; timers := []; nextTimer := 0;
     console := [] |}.

Definition fresh : System :=
  mkSystem (mkMonitor false None "/app/reports" ∅ ∅) host.

(** 23:58:00 in Tokyo on 2024-01-01, then 00:01:00 and 00:04:00 on
    2024-01-02. *)
Definition t2358 : Z := 1704121080000.
Definition t0004 : Z := 1704121440000.

(** 23:50:00 in Tokyo on 2024-01-01. *)
Definition t2350 : Z := 1704120600000.

Definition env (t : Z) (writeThrows : bool) : ReportEnv :=
  {| now := t; headerChoice := 0; temperatureSpikes := [];
     alertHistory := []; writeThrows := writeThrows; logNow := t;
     appendThrows := false |}.

(** Seed 130: a temperature spike on the head, reading 65. *)
Definition draws (index : nat) : Simulator.Draw :=
  Simulator.mkDraw (130 + inject_Z (Z.of_nat index))%Q t2358.

Definition snapshot : RobotData.t :=
  snd (getRobotData (monitor fresh) "ROBOT_001" draws t2358).

Definition hot : Part.t :=
  Simulator.simulatePart ("head", "頭部") (draws 0).

(** Report emission with the sample agent and number renderings. *)
Definition emit : System → string → RobotData.t → list Part.t → ReportEnv
                  → System * Outcome :=
  generateEmergencyReport agent toFixed numberToString.

(** Three readings of the head with vibration 0.5 and nothing else high. *)
Definition shaking : HistoryEntry.t :=
  {| HistoryEntry.temperature := Some 40%Q;
     HistoryEntry.vibration := Some 0.5%Q;
     HistoryEntry.humidity := Some 50%Q;
     HistoryEntry.operatingHours := Some 5%Q;
     HistoryEntry.timestamp := Some t2358 |}.

Definition calm : Part.t :=
  {| Part.id := "head"; Part.name := "頭部";
     Part.temperature := Some 40%Q; Part.vibration := Some 0.2%Q;
     Part.humidity := Some 50%Q; Part.operatingHours := Some 5%Q;
     Part.status := "normal"; Part.lastUpdate := Some t2358;
     Part.voltage := Some 24%Q; Part.cpuLoad := Some 40%Q;
     Part.abnormalNoise := Some false |}.

Definition stopped : System :=
  mkSystem (mkMonitor false None "/app/reports" ∅
                      {[ "ROBOT_001" := [("head", [shaking; shaking; shaking])] ]})
           host.

Definition calmSnapshot : RobotData.t :=
  {| RobotData.robotId := "ROBOT_001"; RobotData.robotName := "Robot ROBOT_001";
     RobotData.parts := [calm]; RobotData.lastCheck := t2358 |}.

(** Twelve polls of the same robot. *)
Definition calls12 : list Call :=
  replicate 12 (mkCall "ROBOT_001" draws t2358).

Definition startEnv : StartEnv :=
  {| readdirThrows := false; removeThrows := λ _, false |}.

End Sample.

(** What report emission and status evaluation leave alone: the running
    flag, the timer handle, the history and the timers of the host. *)
Definition sameCore (s s' : System) : Prop :=
  isRunning (monitor s') = isRunning (monitor s)
  ∧ monitoringInterval (monitor s') = monitoringInterval (monitor s)
  ∧ reportsDir (monitor s') = reportsDir (monitor s)
  ∧ historyBuffer (monitor s') = historyBuffer (monitor s)
  ∧ fsLoaded (host s') = fsLoaded (host s)
  ∧ timers (host s') = timers (host s)
  ∧ nextTimer (host s') = nextTimer (host s).

(** The invariant of the reachable states. *)
Definition Consistent (s : System) : Prop :=
  (isRunning (monitor s) = true ↔ is_Some (monitoringInterval (monitor s)))
  ∧ fsLoaded (host s) = true
  ∧ (∀ robotId history,
       historyBuffer (monitor s) !! robotId = Some history →
       Forall (λ k, k ∈ rosterIds) (Obj.keys history))
  ∧ (∀ robotId partId, length (bufferOf (monitor s) robotId partId) ≤ 10).

(** One check of the sample robot. *)
Definition sampleCheckEnv : CheckEnv :=
  mkCheckEnv Sample.draws Sample.t2358 (Sample.env Sample.t2358 false)
             (Sample.env Sample.t2358 false).

(** A head at 55 degrees, status warning, and the snapshot made of it. *)
Definition sampleWarm : Part.t :=
  {| Part.id := "head"; Part.name := "頭部";
     Part.temperature := Some 55%Q; Part.vibration := Some 0.2%Q;
     Part.humidity := Some 50%Q; Part.operatingHours := Some 5%Q;
     Part.status := "warning"; Part.lastUpdate := Some Sample.t2358;
     Part.voltage := Some 24%Q; Part.cpuLoad := Some 40%Q;
     Part.abnormalNoise := Some false |}.

Definition sampleWarmSnapshot : RobotData.t :=
  {| RobotData.robotId := "ROBOT_001";
     RobotData.robotName := "Robot ROBOT_001";
     RobotData.parts := [sampleWarm];
     RobotData.lastCheck := Sample.t2358 |}.

(** A second check of the sample robot, five seconds after the first. *)
Definition sampleNextCheckEnv : CheckEnv :=
  mkCheckEnv Sample.draws (Sample.t2358 + 5000)
             (Sample.env (Sample.t2358 + 5000) false)
             (Sample.env (Sample.t2358 + 5000) false).





(** The monitor after the twelve polls of [Sample.calls12]. *)
Definition samplePolled : System :=
  mkSystem (runCalls (monitor Sample.fresh) Sample.calls12)
           (host Sample.fresh).

(** The monitor started, stopped and started again. *)
Definition sampleRestarted : System :=
  startMonitoring
    (stopMonitoring (startMonitoring Sample.fresh Sample.startEnv))
    Sample.startEnv.

(** * Properties *)

(** ** Comparisons *)

Lemma gtb_true x c : Js.gtb x c = true ↔ (c < x)%Q.
Proof.
  unfold Js.gtb. rewrite negb_true_iff, <- not_true_iff_false, Qle_bool_iff.
  split; [apply Qnot_le_lt | apply Qlt_not_le].
Qed.

Lemma ltb_true x c : Js.ltb x c = true ↔ (x < c)%Q.
Proof.
  unfold Js.ltb. rewrite negb_true_iff, <- not_true_iff_false, Qle_bool_iff.
  split; [apply Qnot_le_lt | apply Qlt_not_le].
Qed.

Lemma gt_above x c : Js.gt x c = true ↔ above x c.
Proof. destruct x; simpl; [apply gtb_true | split; [discriminate | tauto]]. Qed.

Lemma lt_below x c : Js.lt x c = true ↔ below x c.
Proof. destruct x; simpl; [apply ltb_true | split; [discriminate | tauto]]. Qed.

Lemma abnormalEntry_true h : abnormalEntry h = true ↔ Abnormal h.
Proof.
  unfold abnormalEntry, Abnormal. rewrite !orb_true_iff, !gt_above. tauto.
Qed.

Lemma classify_critical t v h o vo c n vs hs ts :
  Simulator.classify t v h o vo c n vs hs ts = "critical" ↔
  ((60 < t)%Q ∨ (0.4 < v)%Q ∨ (80 < h)%Q ∨ (40 < o)%Q ∨ (vo < 22.5)%Q
   ∨ (85 < c)%Q ∨ n = true ∨ vs = true ∨ hs = true ∨ ts = true).
Proof.
  unfold Simulator.classify.
  match goal with |- context [if ?b then "critical" else _] =>
    destruct b eqn:E end.
  - rewrite !orb_true_iff, !gtb_true, ?ltb_true in E. tauto.
  - rewrite <- not_true_iff_false in E.
    rewrite !orb_true_iff, !gtb_true, ?ltb_true in E.
    split; [|tauto]. intros H. exfalso.
    match type of H with (if ?b then _ else _) = _ =>
      destruct b; discriminate H end.
Qed.

Lemma classify_warning t v h o vo c n vs hs ts :
  Simulator.classify t v h o vo c n vs hs ts = "warning" ↔
  ¬ ((60 < t)%Q ∨ (0.4 < v)%Q ∨ (80 < h)%Q ∨ (40 < o)%Q ∨ (vo < 22.5)%Q
     ∨ (85 < c)%Q ∨ n = true ∨ vs = true ∨ hs = true ∨ ts = true)
  ∧ ((50 < t)%Q ∨ (0.3 < v)%Q ∨ (70 < h)%Q ∨ (30 < o)%Q ∨ (vo < 23.0)%Q
     ∨ (75 < c)%Q).
Proof.
  rewrite <- classify_critical.
  unfold Simulator.classify.
  match goal with |- context [if ?b then "critical" else _] =>
    destruct b eqn:E end.
  - split; [discriminate | intros [H _]; exfalso; apply H; reflexivity].
  - clear E.
    match goal with |- context [if ?b then "warning" else _] =>
      destruct b eqn:E2 end.
    + rewrite !orb_true_iff, !gtb_true, ?ltb_true in E2.
      split; [intros _ | reflexivity]. split; [discriminate | tauto].
    + rewrite <- not_true_iff_false in E2.
      rewrite !orb_true_iff, !gtb_true, ?ltb_true in E2.
      split; [discriminate | tauto].
Qed.

Lemma classify_cases t v h o vo c n vs hs ts :
  let s := Simulator.classify t v h o vo c n vs hs ts in
  s = "critical" ∨ s = "warning" ∨ s = "normal".
Proof.
  unfold Simulator.classify. simpl.
  match goal with |- context [if ?b then "critical" else _] =>
    destruct b end; [tauto|].
  match goal with |- context [if ?b then "warning" else _] =>
    destruct b end; tauto.
Qed.

(** ** Telemetry simulator *)

Lemma simulateParts_lookup draws index p :
  Simulator.simulateParts draws !! index = Some p →
  ∃ part, Simulator.robotParts !! index = Some part
          ∧ p = Simulator.simulatePart part (draws index).
Proof.
  unfold Simulator.simulateParts. rewrite list_lookup_imap.
  destruct (Simulator.robotParts !! index) as [part|]; simpl; [|discriminate].
  intros [= <-]. eauto.
Qed.

(** C1: for every reading that [getRobotData] produces, the status is
    critical exactly when a tier-1 condition holds, warning exactly when no
    tier-1 condition but a tier-2 condition holds, and normal otherwise. *)
Theorem status_follows_tiers m robotId draws lastCheck index p :
  RobotData.parts (snd (getRobotData m robotId draws lastCheck)) !! index
    = Some p →
  let seed := Simulator.seed (draws index) in
  (Part.status p = "critical" ↔ tier1 p seed)
  ∧ (Part.status p = "warning" ↔ ¬ tier1 p seed ∧ tier2 p)
  ∧ (Part.status p = "normal" ↔ ¬ tier1 p seed ∧ ¬ tier2 p).
Proof.
  simpl. intros (part & _ & ->)%simulateParts_lookup.
  unfold tier1, tier2. simpl.
  set (s := Simulator.seed (draws index)).
  pose proof (classify_critical (Simulator.temperature s)
    (Simulator.vibration s) (Simulator.humidity s)
    (Simulator.operatingHours s) (Simulator.voltage s) (Simulator.cpuLoad s)
    (Simulator.abnormalNoise s) (Simulator.vibSpike s)
    (Simulator.humidSpike s) (Simulator.tempSpike s)) as Hc.
  pose proof (classify_warning (Simulator.temperature s)
    (Simulator.vibration s) (Simulator.humidity s)
    (Simulator.operatingHours s) (Simulator.voltage s) (Simulator.cpuLoad s)
    (Simulator.abnormalNoise s) (Simulator.vibSpike s)
    (Simulator.humidSpike s) (Simulator.tempSpike s)) as Hw.
  pose proof (classify_cases (Simulator.temperature s)
    (Simulator.vibration s) (Simulator.humidity s)
    (Simulator.operatingHours s) (Simulator.voltage s) (Simulator.cpuLoad s)
    (Simulator.abnormalNoise s) (Simulator.vibSpike s)
    (Simulator.humidSpike s) (Simulator.tempSpike s)) as Hcases.
  simpl in Hcases.
  set (st := Simulator.classify _ _ _ _ _ _ _ _ _ _) in *.
  assert (Hn : (Simulator.abnormalNoise s = true)
               ↔ Some (Simulator.abnormalNoise s) = Some true).
  { split; [intros ->; reflexivity | intros [= ->]; reflexivity]. }
  rewrite <- Hn.
  split; [exact Hc|]. split; [exact Hw|].
  rewrite <- Hc.
  split.
  - intros Hst. split; [rewrite Hst; discriminate|].
    intros Ht2. assert (st = "warning") as Hst'.
    { apply Hw. split; [|exact Ht2]. rewrite <- Hc, Hst. discriminate. }
    rewrite Hst in Hst'. discriminate.
  - intros [H1 H2]. destruct Hcases as [?|[Hst|?]]; [tauto| |assumption].
    apply Hw in Hst. tauto.
Qed.

Lemma status_follows_tiers_witness :
  Part.status Sample.hot = "critical"
  ∧ tier1 Sample.hot 130.
Proof.
  pose proof (status_follows_tiers (monitor Sample.fresh) "ROBOT_001"
                Sample.draws Sample.t2358 0 Sample.hot eq_refl) as [H _].
  split; [reflexivity|]. apply H. reflexivity.
Defined.

(** ** Objects with ordered keys *)

Section ObjFacts.
Context {A : Type}.
Implicit Types (o : list (string * A)) (k : string) (v : A).

Lemma get_set_eq k v o : Obj.get k (Obj.set k v o) = Some v.
Proof.
  induction o as [|[k' v'] o IH]; simpl.
  - by rewrite String.eqb_refl.
  - destruct (String.eqb k k') eqn:E; simpl; rewrite ?String.eqb_refl, ?E; done.
Qed.

Lemma get_set_ne k k' v o : k ≠ k' → Obj.get k' (Obj.set k v o) = Obj.get k' o.
Proof.
  intros Hne. induction o as [|[k0 v0] o IH]; simpl.
  - apply String.eqb_neq in Hne. rewrite String.eqb_sym in Hne. by rewrite Hne.
  - destruct (String.eqb k k0) eqn:E; simpl.
    + apply String.eqb_eq in E as <-.
      assert (String.eqb k' k = false) as ->; [|done].
      apply String.eqb_neq. congruence.
    + by rewrite IH.
Qed.

Lemma get_Some_keys k o : is_Some (Obj.get k o) ↔ k ∈ Obj.keys o.
Proof.
  unfold Obj.keys. induction o as [|[k' v'] o IH]; simpl.
  - split; [intros [? [=]] | intros []%elem_of_nil].
  - rewrite elem_of_cons. destruct (String.eqb k k') eqn:E.
    + apply String.eqb_eq in E. split; eauto.
    + apply String.eqb_neq in E. rewrite IH. tauto.
Qed.

Lemma keys_set k v o :
  Obj.keys (Obj.set k v o)
  = match Obj.get k o with
    | Some _ => Obj.keys o
    | None => Obj.keys o ++ [k]
    end.
Proof.
  unfold Obj.keys. induction o as [|[k' v'] o IH]; simpl; [done|].
  destruct (String.eqb k k') eqn:E; simpl.
  - apply String.eqb_eq in E as ->. done.
  - rewrite IH. by destruct (Obj.get k o).
Qed.
End ObjFacts.

(** ** [slice(-n)] *)

Section Slice.
Context {A : Type}.
Implicit Types (l es : list A) (n : nat).

Lemma slice_last_short n l : length l ≤ n → Js.slice_last n l = l.
Proof.
  intros H. unfold Js.slice_last.
  replace (length l - n) with 0 by lia. done.
Qed.

Lemma slice_last_length n l : length (Js.slice_last n l) = length l `min` n.
Proof. unfold Js.slice_last. rewrite length_drop. lia. Qed.

Lemma slice_last_app n l es :
  Js.slice_last n (Js.slice_last n l ++ es) = Js.slice_last n (l ++ es).
Proof.
  destruct (decide (length l ≤ n)) as [Hle|Hgt].
  - by rewrite (slice_last_short n l).
  - unfold Js.slice_last. rewrite !length_app, length_drop.
    replace (length l - (length l - n) + length es - n) with (length es)
      by lia.
    replace (length l + length es - n) with ((length l - n) + length es)
      by lia.
    rewrite <- drop_drop. by rewrite (drop_app_le l es) by lia.
Qed.

(** Pushing one by one with the cap is pushing all at once. *)
Lemma push_capped n l es :
  foldl (λ buf e, Js.slice_last n (buf ++ [e])) (Js.slice_last n l) es
  = Js.slice_last n (l ++ es).
Proof.
  revert l. induction es as [|e es IH]; intros l; simpl.
  - by rewrite app_nil_r.
  - rewrite slice_last_app, IH, <- app_assoc. done.
Qed.
End Slice.

(** ** The history buffer *)

Lemma appendHistory_get h p k :
  default [] (Obj.get k (appendHistory h p))
  = if String.eqb (Part.id p) k
    then Js.slice_last 10 (default [] (Obj.get k h) ++ [historyEntryOf p])
    else default [] (Obj.get k h).
Proof.
  unfold appendHistory.
  set (h1 := match Obj.get (Part.id p) h with
             | Some _ => h | None => Obj.set (Part.id p) [] h end).
  assert (Hh1 : ∀ k', default [] (Obj.get k' h1) = default [] (Obj.get k' h)).
  { intros k'. subst h1. destruct (Obj.get (Part.id p) h) eqn:E; [done|].
    destruct (decide (Part.id p = k')) as [<-|Hne].
    - by rewrite get_set_eq, E.
    - by rewrite get_set_ne. }
  set (pushed := default [] (Obj.get (Part.id p) h1) ++ [historyEntryOf p]).
  destruct (String.eqb (Part.id p) k) eqn:Ek.
  - apply String.eqb_eq in Ek as <-.
    destruct (10 <? length pushed) eqn:El.
    + rewrite get_set_eq. simpl. subst pushed. by rewrite Hh1.
    + rewrite get_set_eq. simpl. apply Nat.ltb_ge in El.
      rewrite <- Hh1. fold pushed. by rewrite slice_last_short.
  - apply String.eqb_neq in Ek.
    destruct (10 <? length pushed); rewrite ?get_set_ne by done; apply Hh1.
Qed.

Lemma foldl_appendHistory_get parts h k :
  default [] (Obj.get k (foldl appendHistory h parts))
  = foldl (λ buf e, Js.slice_last 10 (buf ++ [e]))
          (default [] (Obj.get k h))
          (historyEntryOf
             <$> List.filter (λ p, String.eqb (Part.id p) k) parts).
Proof.
  revert h. induction parts as [|p parts IH]; intros h; simpl; [done|].
  rewrite IH, appendHistory_get.
  by destruct (String.eqb (Part.id p) k).
Qed.

Lemma getRobotData_buffer m robotId draws lastCheck robotId' partId :
  bufferOf (fst (getRobotData m robotId draws lastCheck)) robotId' partId
  = if String.eqb robotId robotId'
    then foldl (λ buf e, Js.slice_last 10 (buf ++ [e]))
               (bufferOf m robotId' partId)
               (historyEntryOf
                  <$> List.filter (λ p, String.eqb (Part.id p) partId)
                                  (Simulator.simulateParts draws))
    else bufferOf m robotId' partId.
Proof.
  unfold bufferOf, historyOf, getRobotData.
  cbn [fst historyBuffer set_historyBuffer].
  set (buffer := match historyBuffer m !! robotId with
                 | Some _ => historyBuffer m
                 | None => <[robotId := []]> (historyBuffer m) end).
  assert (Hb : default [] (buffer !! robotId)
               = default [] (historyBuffer m !! robotId)).
  { subst buffer. destruct (historyBuffer m !! robotId) eqn:E.
    - by rewrite E.
    - by rewrite lookup_insert_eq. }
  destruct (String.eqb robotId robotId') eqn:Er.
  - apply String.eqb_eq in Er as <-.
    rewrite lookup_insert_eq.
    change (default [] (Some ?x)) with x.
    by rewrite foldl_appendHistory_get, Hb.
  - apply String.eqb_neq in Er. rewrite lookup_insert_ne by done.
    subst buffer. destruct (historyBuffer m !! robotId); [done|].
    by rewrite lookup_insert_ne.
Qed.

Lemma runCalls_snoc m calls c :
  runCalls m (calls ++ [c])
  = fst (getRobotData (runCalls m calls) (callRobot c) (callDraws c)
                      (callTime c)).
Proof. unfold runCalls. by rewrite foldl_app. Qed.

Lemma appended_snoc calls c robotId partId :
  appended (calls ++ [c]) robotId partId
  = appended calls robotId partId ++ appendedBy c robotId partId.
Proof.
  unfold appended. rewrite fmap_app, concat_app. simpl. by rewrite app_nil_r.
Qed.

Lemma runCalls_buffer m calls robotId partId :
  historyBuffer m = ∅ →
  bufferOf (runCalls m calls) robotId partId
  = Js.slice_last 10 (appended calls robotId partId).
Proof.
  intros Hempty. induction calls as [|c calls IH] using rev_ind.
  - unfold bufferOf, historyOf. simpl. rewrite Hempty, lookup_empty. done.
  - rewrite runCalls_snoc, appended_snoc, getRobotData_buffer.
    unfold appendedBy. destruct (String.eqb (callRobot c) robotId).
    + rewrite IH. apply push_capped.
    + by rewrite app_nil_r.
Qed.

(** C3: starting from an empty history, after any sequence of
    [getRobotData] calls the buffer of a (robotId, partId) key has at most
    ten entries and holds exactly the last min(n, 10) of the n readings
    appended for the key, in insertion order. *)
Theorem history_buffer_fifo m calls robotId partId :
  historyBuffer m = ∅ →
  let buffer := bufferOf (runCalls m calls) robotId partId in
  let log := appended calls robotId partId in
  length buffer ≤ 10
  ∧ length buffer = length log `min` 10
  ∧ buffer = Js.slice_last 10 log.
Proof.
  intros Hempty. simpl. rewrite (runCalls_buffer m calls robotId partId Hempty).
  rewrite slice_last_length. repeat split; lia.
Qed.

Lemma history_buffer_fifo_witness :
  length (bufferOf (runCalls (monitor Sample.fresh) Sample.calls12)
                   "ROBOT_001" "head") = 10.
Proof.
  pose proof (history_buffer_fifo (monitor Sample.fresh) Sample.calls12
                "ROBOT_001" "head" eq_refl) as (_ & H & _).
  rewrite H. reflexivity.
Defined.

(** C9: every reading of the simulator has status normal, warning or
    critical, never emergency, so the critical partition of a simulated
    snapshot is the set of parts whose status is critical. *)
Theorem simulated_status_range m robotId draws lastCheck :
  let robotData := snd (getRobotData m robotId draws lastCheck) in
  Forall (λ p, Part.status p = "normal" ∨ Part.status p = "warning"
               ∨ Part.status p = "critical") (RobotData.parts robotData)
  ∧ Forall (λ p, Part.status p ≠ "emergency") (RobotData.parts robotData)
  ∧ criticalPartsOf robotData
    = List.filter (λ p, String.eqb (Part.status p) "critical")
                  (RobotData.parts robotData).
Proof.
  cbn zeta. unfold criticalPartsOf, getRobotData. cbn [snd RobotData.parts].
  assert (Hall : Forall (λ p, Part.status p = "normal"
                              ∨ Part.status p = "warning"
                              ∨ Part.status p = "critical")
                        (Simulator.simulateParts draws)).
  { apply Forall_lookup. intros i p (part & _ & ->)%simulateParts_lookup.
    cbn [Simulator.simulatePart Part.status].
    pose proof (classify_cases
      (Simulator.temperature (Simulator.seed (draws i)))
      (Simulator.vibration (Simulator.seed (draws i)))
      (Simulator.humidity (Simulator.seed (draws i)))
      (Simulator.operatingHours (Simulator.seed (draws i)))
      (Simulator.voltage (Simulator.seed (draws i)))
      (Simulator.cpuLoad (Simulator.seed (draws i)))
      (Simulator.abnormalNoise (Simulator.seed (draws i)))
      (Simulator.vibSpike (Simulator.seed (draws i)))
      (Simulator.humidSpike (Simulator.seed (draws i)))
      (Simulator.tempSpike (Simulator.seed (draws i)))) as H.
    cbn zeta in H. tauto. }
  assert (Hne : Forall (λ p, Part.status p ≠ "emergency")
                       (Simulator.simulateParts draws)).
  { eapply Forall_impl; [exact Hall|]. intros p [->|[->| ->]]; discriminate. }
  split; [exact Hall|]. split; [exact Hne|].
  apply filter_ext_in. intros p Hin.
  rewrite Forall_forall in Hne. specialize (Hne p).
  unfold isCriticalStatus.
  destruct (String.eqb (Part.status p) "emergency") eqn:E.
  - apply String.eqb_eq in E. exfalso. apply Hne; [|exact E].
    by apply list_elem_of_In.
  - apply orb_false_r.
Qed.

(** ** Rendering *)

Lemma pieces_cons x l :
  pieces (x :: l) = s ← x; r ← pieces l; Some (s +:+ r).
Proof. reflexivity. Qed.

Lemma pieces_Some l : Forall is_Some l → is_Some (pieces l).
Proof.
  induction 1 as [|x l [s ->] _ [r IH]]; [by eexists|].
  rewrite pieces_cons, IH. by eexists.
Qed.

Lemma pieces_None l : (∃ i, l !! i = Some None) → pieces l = None.
Proof.
  intros [i Hi]. revert i Hi. induction l as [|x l IH]; intros i Hi.
  - by rewrite lookup_nil in Hi.
  - destruct i as [|i]; simpl in Hi.
    + by injection Hi as ->.
    + rewrite pieces_cons, (IH i Hi). by destruct x.
Qed.

Section Rendering.

Variable aiAgent : RobotDiagnosticAI.
Variable toFixed : Q → nat → string.
Variable numberToString : Q → string.

Local Abbreviation emit := (generateEmergencyReport aiAgent toFixed numberToString).
Local Abbreviation render :=
  (generateReportContent aiAgent toFixed numberToString).

Lemma performAIAnalysis_length m robotData parts :
  length (performAIAnalysis aiAgent m robotData parts) = length parts.
Proof. unfold performAIAnalysis. apply length_map. Qed.

Lemma partDetail_Some aiAnalysis index part :
  metricsDefined part → index < length aiAnalysis →
  is_Some (partDetail toFixed numberToString aiAnalysis index part).
Proof.
  intros [[t Ht] [v Hv]] [a Ha]%lookup_lt_is_Some.
  unfold partDetail, fixed. rewrite Ht, Hv, Ha. simpl. by eexists.
Qed.

Lemma errorDetails_Some robotData parts env :
  Forall metricsDefined parts →
  is_Some (errorDetails toFixed robotData parts env).
Proof.
  intros Hall. unfold errorDetails.
  match goal with |- is_Some (mbind _ (mapM ?f parts)) =>
    assert (is_Some (mapM f parts)) as [d ->] end.
  { apply mapM_is_Some. eapply Forall_impl; [exact Hall|].
    intros p [[t Ht] [v Hv]]. unfold fixed. simpl. rewrite Ht, Hv. simpl.
    by eexists. }
  simpl. by eexists.
Qed.

Lemma render_Some robotData parts aiAnalysis timestamp isCritical env :
  Forall metricsDefined parts → length aiAnalysis = length parts →
  is_Some (render robotData parts aiAnalysis timestamp isCritical env).
Proof.
  intros Hall Hlen. unfold generateReportContent.
  assert (is_Some (reportHead aiAgent toFixed numberToString robotData parts
                              aiAnalysis timestamp isCritical env))
    as [head ->]; [|simpl; by eexists].
  unfold reportHead. apply pieces_Some.
  repeat first [apply Forall_nil | apply Forall_cons; split];
    try (by eexists).
  - destruct isCritical; [by apply errorDetails_Some | by eexists].
  - apply pieces_Some. apply Forall_lookup. intros i x.
    rewrite list_lookup_imap.
    destruct (parts !! i) as [p|] eqn:Hp; simpl; [|discriminate].
    intros [= <-]. apply partDetail_Some.
    + by eapply Forall_lookup_1.
    + rewrite Hlen. by eapply lookup_lt_Some.
Qed.

(** Rendering throws as soon as one part lacks its temperature or its
    vibration. *)
Lemma render_None robotData parts aiAnalysis timestamp isCritical env i p :
  parts !! i = Some p → ¬ metricsDefined p →
  render robotData parts aiAnalysis timestamp isCritical env = None.
Proof.
  intros Hi Hp. unfold generateReportContent.
  assert (reportHead aiAgent toFixed numberToString robotData parts
                     aiAnalysis timestamp isCritical env = None) as ->; [|done].
  unfold reportHead. apply pieces_None. exists 6. simpl.
  f_equal. apply pieces_None.
  exists i.
  rewrite list_lookup_imap, Hi. simpl. f_equal.
  unfold partDetail, fixed, metricsDefined in *.
  destruct (Part.temperature p); simpl.
  - destruct (Part.vibration p); simpl; [|done].
    exfalso. apply Hp. split; by eexists.
  - done.
Qed.

(** ** Report emission *)

Lemma emit_suppressed s robotId robotData parts env :
  withinWindow (monitor s) (reportKeyOf robotId (now env)) (now env) = true →
  emit s robotId robotData parts env = (s, Suppressed).
Proof. intros H. unfold generateEmergencyReport. by rewrite H. Qed.

(** The state and outcome of a call that is not suppressed, renders and
    writes its file. *)
Lemma emit_written s robotId robotData parts env content written :
  let isCritical := existsb isCriticalStatus parts in
  let filename := reportFilename isCritical robotId (now env) in
  let s1 := on_host (say (if isCritical
                    then "🚨 CRITICAL レポート生成: " +:+ robotId +:+ " - "
                         +:+ pretty (length parts)
                         +:+ "個の部位でCRITICAL状況検知"
                    else "🚨 緊急レポート生成: " +:+ robotId +:+ " - "
                         +:+ pretty (length parts)
                         +:+ "個の部位で異常検知")) s in
  withinWindow (monitor s) (reportKeyOf robotId (now env)) (now env) = false →
  render robotData parts (performAIAnalysis aiAgent (monitor s) robotData parts)
         (now env) isCritical env = Some content →
  fsLoaded (host s) = true →
  writeFileSync filename content (writeThrows env) (host s1) = Some written →
  emit s robotId robotData parts env
  = (logToSystemLog
       (mkSystem
          (set_lastReportTimes
             (<[reportKeyOf robotId (now env) := now env]>
                (lastReportTimes (monitor s))) (monitor s))
          (say ("📄 緊急レポート生成完了: " +:+ filename)
               (say ("✅ ファイル書き込み成功: "
                     +:+ path_join (reportsDir (monitor s)) filename)
                    written)))
       robotId parts filename isCritical env,
     Emitted filename content).
Proof.
  intros isCritical filename s1 Hw Hr Hfs Hwrite.
  unfold generateEmergencyReport. rewrite Hw.
  fold isCritical. fold filename. fold s1.
  change (monitor s1) with (monitor s). rewrite Hr.
  change (fsLoaded (host s1)) with (fsLoaded (host s)). rewrite Hfs.
  rewrite Hwrite. reflexivity.
Qed.

(** What each outcome says about the final state. *)
Lemma emit_cases s robotId robotData parts env :
  let isCritical := existsb isCriticalStatus parts in
  let filename := reportFilename isCritical robotId (now env) in
  let result := emit s robotId robotData parts env in
  match snd result with
  | Suppressed =>
      fst result = s
      ∧ withinWindow (monitor s) (reportKeyOf robotId (now env)) (now env)
        = true
  | Threw | FsMissing | WriteFailed =>
      monitor (fst result) = monitor s
      ∧ reports (host (fst result)) = reports (host s)
      ∧ withinWindow (monitor s) (reportKeyOf robotId (now env)) (now env)
        = false
  | Emitted f content =>
      f = filename
      ∧ render robotData parts
               (performAIAnalysis aiAgent (monitor s) robotData parts)
               (now env) isCritical env = Some content
      ∧ withinWindow (monitor s) (reportKeyOf robotId (now env)) (now env)
        = false
      ∧ fsLoaded (host s) = true
      ∧ lastReportTimes (monitor (fst result))
        = <[reportKeyOf robotId (now env) := now env]>
            (lastReportTimes (monitor s))
  end.
Proof.
  cbn zeta. unfold generateEmergencyReport.
  destruct (withinWindow _ _ _) eqn:Hw; [done|].
  set (isCritical := existsb isCriticalStatus parts).
  set (filename := reportFilename isCritical robotId (now env)).
  match goal with |- context [on_host (say ?line) s] =>
    set (s1 := on_host (say line) s) end.
  change (monitor s1) with (monitor s).
  change (fsLoaded (host s1)) with (fsLoaded (host s)).
  destruct (fsLoaded (host s)) eqn:Hfs; [|done]. cbn [negb].
  destruct (generateReportContent _ _ _ _ _ _ _ _ _) as [content|] eqn:Hr;
    [|done].
  destruct (writeFileSync _ _ _ _) as [written|] eqn:Hwr; [|done].
  cbn [snd fst]. repeat split; try done.
  unfold logToSystemLog.
  destruct (negb _); [done|].
  destruct (appendFileSync _ _ _ _); done.
Qed.

End Rendering.

Lemma withinWindow_true m key t :
  withinWindow m key t = true
  ↔ ∃ t', lastReportTimes m !! key = Some t' ∧ (t - t' < 300000)%Z.
Proof.
  unfold withinWindow. destruct (lastReportTimes m !! key) as [t'|].
  - rewrite Z.ltb_lt. split; [eauto | by intros (? & [= <-] & ?)].
  - split; [discriminate | by intros (? & [=] & _)].
Qed.

Lemma withinWindow_false m key t :
  withinWindow m key t = false
  ↔ lastReportTimes m !! key = None
    ∨ ∃ t', lastReportTimes m !! key = Some t' ∧ (300000 ≤ t - t')%Z.
Proof.
  unfold withinWindow. destruct (lastReportTimes m !! key) as [t'|].
  - rewrite Z.ltb_ge. split.
    + eauto.
    + intros [[=]|(? & [= <-] & ?)]. done.
  - split; [by left | done].
Qed.

Lemma startsWith_append p s : Js.startsWith p (p +:+ s) = true.
Proof.
  unfold Js.startsWith. induction p as [|a p IH].
  - destruct s; reflexivity.
  - simpl. destruct (ascii_dec a a); [exact IH | done].
Qed.

Lemma reportFilename_prefix (isCritical : bool) robotId t :
  Js.startsWith (if isCritical then "CRITICAL_report_"
                 else "emergency_report_")
                (reportFilename isCritical robotId t) = true.
Proof.
  unfold reportFilename. destruct isCritical.
  - apply (startsWith_append "CRITICAL_report_").
  - apply (startsWith_append "emergency_report_").
Qed.

Lemma reportFilename_not_log isCritical robotId t :
  reportFilename isCritical robotId t ≠ "system_monitor.log".
Proof. unfold reportFilename. by destruct isCritical. Qed.

Lemma logToSystemLog_monitor s robotId parts filename isCritical env :
  monitor (logToSystemLog s robotId parts filename isCritical env) = monitor s.
Proof.
  unfold logToSystemLog. destruct (negb _); [done|].
  by destruct (appendFileSync _ _ _ _).
Qed.

(** The log step leaves every other file of the directory as it is. *)
Lemma logToSystemLog_other s robotId parts filename isCritical env dir f :
  reports (host s) = Some dir → f ≠ "system_monitor.log" →
  ∃ dir', reports (host (logToSystemLog s robotId parts filename isCritical env))
          = Some dir' ∧ dir' !! f = dir !! f.
Proof.
  intros Hdir Hf. unfold logToSystemLog. destruct (negb _); [eauto|].
  unfold appendFileSync. destruct (appendThrows env); [eauto|].
  rewrite Hdir.
  destruct (dir !! "system_monitor.log") as [[old|]|]; simpl; eauto;
    eexists; (split; [reflexivity|]); by rewrite lookup_insert_ne.
Qed.

Section Emission.

Variable aiAgent : RobotDiagnosticAI.
Variable toFixed : Q → nat → string.
Variable numberToString : Q → string.

Local Abbreviation emit := (generateEmergencyReport aiAgent toFixed numberToString).
Local Abbreviation render :=
  (generateReportContent aiAgent toFixed numberToString).

(** A call outside the window emits when it can render and write. *)
Lemma emit_clear s robotId robotData parts env dir :
  let isCritical := existsb isCriticalStatus parts in
  let filename := reportFilename isCritical robotId (now env) in
  let result := emit s robotId robotData parts env in
  withinWindow (monitor s) (reportKeyOf robotId (now env)) (now env) = false →
  Forall metricsDefined parts →
  fsLoaded (host s) = true →
  writeThrows env = false →
  reports (host s) = Some dir →
  dir !! filename ≠ Some Directory →
  ∃ content dir',
    snd result = Emitted filename content
    ∧ reports (host (fst result)) = Some dir'
    ∧ dir' !! filename = Some (File content)
    ∧ lastReportTimes (monitor (fst result))
      = <[reportKeyOf robotId (now env) := now env]>
          (lastReportTimes (monitor s)).
Proof.
  intros isCritical filename result Hw Hall Hfs Hthrows Hdir Hnode.
  destruct (render_Some aiAgent toFixed numberToString robotData parts
              (performAIAnalysis aiAgent (monitor s) robotData parts)
              (now env) isCritical env Hall
              (performAIAnalysis_length aiAgent _ _ _)) as [content Hr].
  subst result.
  erewrite emit_written; [|exact Hw|exact Hr|exact Hfs|].
  2:{ unfold writeFileSync. rewrite Hthrows. cbn [on_host host say reports].
      rewrite Hdir. fold isCritical. fold filename.
      destruct (dir !! filename) as [[|]|]; [reflexivity|done|reflexivity]. }
  cbn [fst snd]. fold isCritical. fold filename.
  edestruct (logToSystemLog_other) as (dir' & Hdir' & Hlook);
    [| apply (reportFilename_not_log isCritical robotId (now env)) |].
  2:{ exists content, dir'. split; [reflexivity|]. split; [exact Hdir'|].
      split; [|by rewrite logToSystemLog_monitor].
      fold filename in Hlook. rewrite Hlook. apply lookup_insert_eq. }
  reflexivity.
Qed.

(** C2, as amended: within five minutes of the time recorded for the key
    the call returns the state it was given (no file, no log line, no change
    of the dedup map); with no time recorded, or one at least five minutes
    old, the call is not suppressed, and it emits the report, writes it to
    the reports directory and records the time when the report renders and
    the file can be written. *)
Theorem suppression_window s robotId robotData parts env :
  let t := now env in
  let key := reportKeyOf robotId t in
  let filename :=
    reportFilename (existsb isCriticalStatus parts) robotId t in
  let result := emit s robotId robotData parts env in
  (∀ t', lastReportTimes (monitor s) !! key = Some t' →
         (t - t' < 300000)%Z → result = (s, Suppressed))
  ∧ (lastReportTimes (monitor s) !! key = None
     ∨ (∃ t', lastReportTimes (monitor s) !! key = Some t'
              ∧ (300000 ≤ t - t')%Z) →
     snd result ≠ Suppressed
     ∧ ∀ dir, Forall metricsDefined parts →
              fsLoaded (host s) = true →
              writeThrows env = false →
              reports (host s) = Some dir →
              dir !! filename ≠ Some Directory →
              ∃ content dir',
                snd result = Emitted filename content
                ∧ reports (host (fst result)) = Some dir'
                ∧ dir' !! filename = Some (File content)
                ∧ lastReportTimes (monitor (fst result)) !! key = Some t).
Proof.
  cbn zeta. split.
  - intros t' Ht' Hlt. apply emit_suppressed. apply withinWindow_true. eauto.
  - intros Hclear%withinWindow_false. split.
    + pose proof (emit_cases aiAgent toFixed numberToString s robotId
                    robotData parts env) as H. cbn zeta in H.
      intros Hs. rewrite Hs in H. destruct H as [_ H]. congruence.
    + intros dir Hall Hfs Hthrows Hdir Hnode.
      destruct (emit_clear s robotId robotData parts env dir Hclear Hall Hfs
                  Hthrows Hdir Hnode) as (content & dir' & H1 & H2 & H3 & H4).
      exists content, dir'. repeat split; try done.
      rewrite H4. apply lookup_insert_eq.
Qed.

(** C5: when the write of the report file fails, the monitor object, and
    with it the dedup map, is as before the call, and so is the reports
    directory, log file included. *)
Theorem write_failure_keeps_state s robotId robotData parts env :
  snd (emit s robotId robotData parts env) = WriteFailed →
  let s' := fst (emit s robotId robotData parts env) in
  lastReportTimes (monitor s') = lastReportTimes (monitor s)
  ∧ monitor s' = monitor s
  ∧ reports (host s') = reports (host s).
Proof.
  intros H. pose proof (emit_cases aiAgent toFixed numberToString s robotId
                          robotData parts env) as Hc.
  cbn zeta in *. rewrite H in Hc. destruct Hc as (Hm & Hr & _).
  by rewrite Hm.
Qed.

(** C6: an emitted report is rendered at critical severity exactly when an
    affected part has status critical or emergency; then its file name
    starts with CRITICAL_report_ and its action procedure has six numbered
    steps, otherwise the name starts with emergency_report_ and the
    procedure has five. *)
Theorem severity_of_emitted_report s robotId robotData parts env s' filename
                                   content :
  emit s robotId robotData parts env = (s', Emitted filename content) →
  let isCritical := existsb isCriticalStatus parts in
  (isCritical = true
   ↔ ∃ p, p ∈ parts ∧ (Part.status p = "critical"
                        ∨ Part.status p = "emergency"))
  ∧ render robotData parts
           (performAIAnalysis aiAgent (monitor s) robotData parts)
           (now env) isCritical env = Some content
  ∧ (∃ head, content
             = head +:+ actionProcedure isCritical +:+ reportTail isCritical)
  ∧ (if isCritical
     then Js.startsWith "CRITICAL_report_" filename = true
          ∧ numberedSteps (actionProcedure isCritical) = Some 6
     else Js.startsWith "emergency_report_" filename = true
          ∧ numberedSteps (actionProcedure isCritical) = Some 5).
Proof.
  intros H. pose proof (emit_cases aiAgent toFixed numberToString s robotId
                          robotData parts env) as Hc.
  cbn zeta in *. rewrite H in Hc. cbn [fst snd] in Hc.
  destruct Hc as (-> & Hr & _).
  split; [|split; [exact Hr|split]].
  - rewrite existsb_exists. unfold isCriticalStatus.
    split; intros (p & Hin & Hp); exists p.
    + apply list_elem_of_In in Hin. apply orb_true_iff in Hp.
      rewrite !String.eqb_eq in Hp. done.
    + apply list_elem_of_In in Hin. rewrite orb_true_iff, !String.eqb_eq.
      done.
  - unfold generateReportContent in Hr.
    destruct (reportHead _ _ _ _ _ _ _ _ _) as [head|]; [|discriminate].
    injection Hr as <-. by exists head.
  - pose proof (reportFilename_prefix (existsb isCriticalStatus parts)
                  robotId (now env)) as Hp.
    destruct (existsb isCriticalStatus parts); (split; [exact Hp|]);
      by vm_compute.
Qed.


End Emission.

Section Evaluation.

Variable aiAgent : RobotDiagnosticAI.
Variable toFixed : Q → nat → string.
Variable numberToString : Q → string.

Local Abbreviation emit := (generateEmergencyReport aiAgent toFixed numberToString).

Lemma emit_keeps_monitor s robotId robotData parts env :
  let m' := monitor (fst (emit s robotId robotData parts env)) in
  isRunning m' = isRunning (monitor s)
  ∧ monitoringInterval m' = monitoringInterval (monitor s)
  ∧ reportsDir m' = reportsDir (monitor s)
  ∧ historyBuffer m' = historyBuffer (monitor s).
Proof.
  cbn zeta. unfold generateEmergencyReport.
  destruct (withinWindow _ _ _); [done|].
  cbn [on_host host say fsLoaded].
  destruct (fsLoaded (host s)); [|done]. cbn [negb].
  destruct (generateReportContent _ _ _ _ _ _ _ _ _); [|done].
  destruct (writeFileSync _ _ _ _); [|done].
  cbn [fst]. by rewrite logToSystemLog_monitor.
Qed.

Lemma emit_not_threw s robotId robotData parts env :
  fsLoaded (host s) = true →
  Forall metricsDefined parts →
  snd (emit s robotId robotData parts env) ≠ Threw.
Proof.
  intros Hfs Hall. unfold generateEmergencyReport.
  destruct (withinWindow _ _ _); [done|].
  cbn [on_host monitor host say fsLoaded]. rewrite Hfs. cbn [negb].
  destruct (render_Some aiAgent toFixed numberToString robotData parts
              (performAIAnalysis aiAgent (monitor s) robotData parts)
              (now env) (existsb isCriticalStatus parts) env Hall
              (performAIAnalysis_length aiAgent _ _ _)) as [content ->].
  destruct (writeFileSync _ _ _ _); cbn [snd]; congruence.
Qed.

Lemma filter_metricsDefined (f : Part.t → bool) parts :
  Forall metricsDefined parts → Forall metricsDefined (List.filter f parts).
Proof.
  rewrite !Forall_forall. intros H p Hin%list_elem_of_In%filter_In.
  apply H, list_elem_of_In, Hin.
Qed.

Lemma primaryReport_monitor s robotId robotData env :
  let m' := monitor (fst (primaryReport aiAgent toFixed numberToString s
                            robotId robotData env)) in
  isRunning m' = isRunning (monitor s)
  ∧ historyBuffer m' = historyBuffer (monitor s).
Proof.
  cbn zeta. unfold primaryReport.
  destruct (0 <? length (criticalPartsOf robotData)).
  - match goal with |- context [emit ?a ?b ?c ?d ?e] =>
      pose proof (emit_keeps_monitor a b c d e) as H;
      destruct (emit a b c d e) end.
    cbn zeta in H. cbn [fst] in *. tauto.
  - destruct (0 <? length (warningPartsOf robotData)); [|done].
    match goal with |- context [emit ?a ?b ?c ?d ?e] =>
      pose proof (emit_keeps_monitor a b c d e) as H;
      destruct (emit a b c d e) end.
    cbn zeta in H. cbn [fst] in *. tauto.
Qed.

Lemma primaryReport_not_threw s robotId robotData env :
  fsLoaded (host s) = true →
  Forall metricsDefined (RobotData.parts robotData) →
  snd (primaryReport aiAgent toFixed numberToString s robotId robotData env)
  ≠ Some Threw.
Proof.
  intros Hfs Hall. unfold primaryReport.
  destruct (0 <? length (criticalPartsOf robotData)).
  - match goal with |- context [emit ?a ?b ?c ?d ?e] =>
      pose proof (emit_not_threw a b c d e Hfs
                    (filter_metricsDefined _ _ Hall)) as H;
      destruct (emit a b c d e) end.
    cbn [snd] in *. congruence.
  - destruct (0 <? length (warningPartsOf robotData)); [|done].
    match goal with |- context [emit ?a ?b ?c ?d ?e] =>
      pose proof (emit_not_threw a b c d e Hfs
                    (filter_metricsDefined _ _ Hall)) as H;
      destruct (emit a b c d e) end.
    cbn [snd] in *. congruence.
Qed.

End Evaluation.

(** ** The fallback rule *)

Lemma suspiciousPartsOf_filter history robotData :
  suspiciousPartsOf history robotData
  = synthesize robotData
      <$> List.filter (sustained history) (Obj.keys history).
Proof.
  unfold suspiciousPartsOf.
  enough (∀ keys acc,
            foldl (λ suspiciousParts partId,
                     if sustained history partId
                     then suspiciousParts ++ [synthesize robotData partId]
                     else suspiciousParts) acc keys
            = acc ++ (synthesize robotData
                        <$> List.filter (sustained history) keys)) as H.
  { by rewrite H. }
  induction keys as [|k keys IH]; intros acc; simpl.
  - by rewrite app_nil_r.
  - rewrite IH. destruct (sustained history k); simpl; [|done].
    by rewrite <- app_assoc.
Qed.

Lemma sustained_true history partId :
  sustained history partId = true ↔ SustainedAnomaly history partId.
Proof.
  unfold sustained, SustainedAnomaly.
  rewrite andb_true_iff, Nat.eqb_eq, forallb_forall.
  destruct (Obj.get partId history) as [entries|]; simpl.
  - rewrite slice_last_length. split.
    + intros [Hlen Hall]. exists entries. split; [done|]. split; [lia|].
      apply Forall_forall. intros h Hin%list_elem_of_In.
      by apply abnormalEntry_true, Hall.
    + intros (? & [= <-] & Hlen & Hall). split; [lia|].
      intros h Hin%list_elem_of_In. apply abnormalEntry_true.
      rewrite Forall_forall in Hall. by apply Hall.
  - split; [intros [[=] _] | intros (? & [=] & _)].
Qed.

Lemma synthesized_status robotData partId :
  Part.status (synthesize robotData partId) = "critical".
Proof. reflexivity. Qed.

Lemma fallbackFires_true s robotData :
  fallbackFires s robotData = true
  ↔ isRunning (monitor s) = false
    ∧ criticalPartsOf robotData = []
    ∧ ∃ partId,
        SustainedAnomaly
          (historyOf (monitor s) (RobotData.robotId robotData)) partId.
Proof.
  unfold fallbackFires.
  rewrite !andb_true_iff, negb_true_iff, Nat.eqb_eq, Nat.ltb_lt.
  rewrite suspiciousPartsOf_filter, length_fmap.
  set (history := historyOf (monitor s) (RobotData.robotId robotData)).
  assert ((0 < length (List.filter (sustained history) (Obj.keys history)))
          ↔ ∃ partId, SustainedAnomaly history partId) as ->.
  { split.
    - destruct (List.filter _ _) as [|k ks] eqn:E; simpl; [lia|]. intros _.
      exists k. apply sustained_true.
      assert (In k (List.filter (sustained history) (Obj.keys history)))
        as Hin by (rewrite E; by left).
      by apply filter_In in Hin as [_ ?].
    - intros [k Hk]. assert (In k (List.filter (sustained history)
                                               (Obj.keys history))) as Hin.
      { apply filter_In. split; [|by apply sustained_true].
        apply list_elem_of_In, get_Some_keys.
        destruct Hk as (entries & -> & _). by eexists. }
      destruct (List.filter _ _); [destruct Hin | simpl; lia]. }
  rewrite length_zero_iff_nil. tauto.
Qed.

Lemma synthesize_id robotData partId :
  Part.id (synthesize robotData partId) = partId.
Proof.
  unfold synthesize. cbn [Part.with_status Part.id].
  destruct (List.find _ _) as [p|] eqn:E; simpl; [|done].
  apply find_some in E as [_ E]. by apply String.eqb_eq in E.
Qed.

Section Fallback.

Variable aiAgent : RobotDiagnosticAI.
Variable toFixed : Q → nat → string.
Variable numberToString : Q → string.

Local Abbreviation emit := (generateEmergencyReport aiAgent toFixed numberToString).

(** X23, stated of the body of [checkRobotStatus] for whatever state and
    snapshot it is handed: the fallback block is entered exactly when the
    monitor is not running, the snapshot has no critical part and some part
    has three or more history entries of which the last three are all
    abnormal.  The parts it then collects are those of exactly these ids;
    each has status critical and otherwise the fields of the first part of
    the snapshot with its id, or no reading and its id for a name when the
    snapshot has none.  The block calls the report emission once, on these
    parts and at critical severity; when it is not entered, the check makes
    no call beyond the first. *)
Theorem fallback_rule s robotId robotData primaryEnv fallbackEnv :
  fsLoaded (host s) = true →
  Forall metricsDefined (RobotData.parts robotData) →
  let history := historyOf (monitor s) (RobotData.robotId robotData) in
  let entered :=
    isRunning (monitor s) = false
    ∧ criticalPartsOf robotData = []
    ∧ ∃ partId, SustainedAnomaly history partId in
  let suspicious := suspiciousPartsOf history robotData in
  let first :=
    primaryReport aiAgent toFixed numberToString s robotId robotData
                  primaryEnv in
  let result :=
    evaluateSnapshot aiAgent toFixed numberToString s robotId robotData
                     primaryEnv fallbackEnv in
  (entered →
     (∀ partId, SustainedAnomaly history partId
                ↔ ∃ p, p ∈ suspicious ∧ Part.id p = partId)
     ∧ Forall (λ p, Part.status p = "critical"
                    ∧ match List.find (λ q, String.eqb (Part.id q) (Part.id p))
                                      (RobotData.parts robotData) with
                      | Some q => sameButStatus p q
                      | None => bare p
                      end) suspicious
     ∧ existsb isCriticalStatus suspicious = true
     ∧ let call :=
         emit (on_host (say fallbackMessage) (fst first))
              (RobotData.robotId robotData) robotData suspicious
              fallbackEnv in
       snd result = option_list (snd first) ++ [snd call]
       ∧ fst result = match snd call with
                      | Threw => caught robotId (fst call)
                      | _ => fst call
                      end)
  ∧ (¬ entered → result = (fst first, option_list (snd first))).
Proof.
  intros Hfs Hall. cbn zeta.
  set (history := historyOf (monitor s) (RobotData.robotId robotData)).
  pose proof (primaryReport_monitor aiAgent toFixed numberToString s robotId
                robotData primaryEnv) as [Hrun Hbuf].
  pose proof (primaryReport_not_threw aiAgent toFixed numberToString s robotId
                robotData primaryEnv Hfs Hall) as Hnot.
  cbn zeta in Hrun.
  unfold evaluateSnapshot.
  destruct (primaryReport aiAgent toFixed numberToString s robotId robotData
                          primaryEnv) as [s1 first] eqn:Hfirst.
  cbn [fst snd] in *.
  assert (Hfires : fallbackFires s1 robotData = fallbackFires s robotData).
  { unfold fallbackFires, historyOf. by rewrite Hrun, Hbuf. }
  assert (Hhist : historyOf (monitor s1) (RobotData.robotId robotData)
                  = history).
  { unfold history, historyOf. by rewrite Hbuf. }
  assert (Hskip : ∀ (X : Type) (a b : X),
             match first with Some Threw => a | _ => b end = b).
  { intros X a b. destruct first as [[]|]; done. }
  rewrite Hskip. unfold fallbackReport. rewrite Hfires, Hhist.
  split.
  - intros Hentered. pose proof Hentered as Hf.
    apply fallbackFires_true in Hf. rewrite Hf.
    assert (Hparts : Forall (λ p, Part.status p = "critical"
                    ∧ match List.find (λ q, String.eqb (Part.id q) (Part.id p))
                                      (RobotData.parts robotData) with
                      | Some q => sameButStatus p q
                      | None => bare p
                      end) (suspiciousPartsOf history robotData)).
    { rewrite suspiciousPartsOf_filter. apply Forall_fmap, Forall_true.
      intros k. split; [apply synthesized_status|].
      rewrite synthesize_id. unfold synthesize.
      destruct (List.find _ _) as [q|]; cbn [default];
        repeat split; reflexivity. }
    split; [|split; [exact Hparts|split]].
    + intros k. setoid_rewrite suspiciousPartsOf_filter.
      setoid_rewrite list_elem_of_fmap. split.
      * intros Hk. exists (synthesize robotData k).
        split; [|apply synthesize_id]. exists k. split; [done|].
        apply list_elem_of_In, filter_In. split; [|by apply sustained_true].
        apply list_elem_of_In, get_Some_keys.
        destruct Hk as (entries & -> & _). by eexists.
      * intros (p & (k' & -> & Hk%list_elem_of_In%filter_In) & <-).
        rewrite synthesize_id. apply sustained_true, Hk.
    + unfold fallbackFires in Hf.
      apply andb_true_iff in Hf as [_ Hlen%Nat.ltb_lt].
      fold history in Hlen.
      destruct (suspiciousPartsOf history robotData) as [|p ps];
        [simpl in Hlen; lia|].
      apply Forall_cons in Hparts as [[Hp _] _]. simpl.
      unfold isCriticalStatus at 1. by rewrite Hp.
    + destruct (emit _ _ _ _ _) as [s2 o]. cbn [fst snd].
      by destruct o.
  - intros Hnot'.
    destruct (fallbackFires s robotData) eqn:Hf.
    + exfalso. by apply Hnot', fallbackFires_true.
    + cbn [option_list]. by rewrite app_nil_r.
Qed.

End Fallback.

Lemma fallback_rule_witness :
  fsLoaded (host Sample.stopped) = true
  ∧ Forall metricsDefined (RobotData.parts Sample.calmSnapshot)
  ∧ (∃ p, p ∈ suspiciousPartsOf (historyOf (monitor Sample.stopped) "ROBOT_001")
                                Sample.calmSnapshot
          ∧ Part.id p = "head")
  ∧ length (snd (evaluateSnapshot Sample.agent Sample.toFixed
                   Sample.numberToString Sample.stopped "ROBOT_001"
                   Sample.calmSnapshot (Sample.env Sample.t2358 false)
                   (Sample.env Sample.t2358 false))) = 1.
Proof.
  assert (H : Forall metricsDefined (RobotData.parts Sample.calmSnapshot)).
  { apply Forall_cons; split; [split; by eexists | constructor]. }
  assert (Hhead : SustainedAnomaly
                    (historyOf (monitor Sample.stopped) "ROBOT_001") "head").
  { apply sustained_true. by vm_compute. }
  split; [reflexivity|]. split; [exact H|].
  destruct (fallback_rule Sample.agent Sample.toFixed Sample.numberToString
              Sample.stopped "ROBOT_001" Sample.calmSnapshot
              (Sample.env Sample.t2358 false) (Sample.env Sample.t2358 false)
              eq_refl H) as [Hyes _].
  destruct Hyes as (Hids & _ & _ & Hresult & _).
  - split; [reflexivity|]. split; [reflexivity|]. by exists "head".
  - split; [exact (proj1 (Hids "head") Hhead)|].
    rewrite Hresult. reflexivity.
Defined.

(** ** Witnesses and counterexamples of the emission claims *)

Lemma sample_emission :
  ∃ f c, snd (Sample.emit Sample.fresh "ROBOT_001" Sample.snapshot
                [Sample.hot] (Sample.env Sample.t2358 false))
         = Emitted f c.
Proof. vm_compute. eauto. Qed.

Lemma suppression_window_witness :
  lastReportTimes (monitor Sample.fresh)
    !! reportKeyOf "ROBOT_001" Sample.t2358 = None
  ∧ snd (Sample.emit Sample.fresh "ROBOT_001" Sample.snapshot
           [Sample.hot] (Sample.env Sample.t2358 false)) ≠ Suppressed.
Proof.
  assert (H : lastReportTimes (monitor Sample.fresh)
                !! reportKeyOf "ROBOT_001" Sample.t2358 = None)
    by apply lookup_empty.
  split; [exact H|].
  destruct (suppression_window Sample.agent Sample.toFixed
              Sample.numberToString Sample.fresh "ROBOT_001" Sample.snapshot
              [Sample.hot] (Sample.env Sample.t2358 false)) as [_ Hclear].
  exact (proj1 (Hclear (or_introl H))).
Defined.

(** C2 as stated fails: no time is recorded for the key, yet the call emits
    no report, because the write of the file throws. *)
Lemma unrecorded_key_write_failure :
  let result := Sample.emit Sample.fresh "ROBOT_001" Sample.snapshot
                  [Sample.hot] (Sample.env Sample.t2358 true) in
  lastReportTimes (monitor Sample.fresh)
    !! reportKeyOf "ROBOT_001" Sample.t2358 = None
  ∧ snd result = WriteFailed
  ∧ reports (host (fst result)) = Some ∅
  ∧ ¬ ∃ f c, snd result = Emitted f c.
Proof.
  cbn zeta. split; [apply lookup_empty|].
  assert (H : snd (Sample.emit Sample.fresh "ROBOT_001" Sample.snapshot
                     [Sample.hot] (Sample.env Sample.t2358 true))
              = WriteFailed) by (by vm_compute).
  split; [exact H|]. split; [by vm_compute|].
  rewrite H. by intros (f & c & ?).
Qed.

Lemma write_failure_keeps_state_witness :
  snd (Sample.emit Sample.fresh "ROBOT_001" Sample.snapshot [Sample.hot]
         (Sample.env Sample.t2358 true)) = WriteFailed
  ∧ lastReportTimes
      (monitor (fst (Sample.emit Sample.fresh "ROBOT_001" Sample.snapshot
                       [Sample.hot] (Sample.env Sample.t2358 true)))) = ∅.
Proof.
  assert (H : snd (Sample.emit Sample.fresh "ROBOT_001" Sample.snapshot
                     [Sample.hot] (Sample.env Sample.t2358 true))
              = WriteFailed) by (by vm_compute).
  split; [exact H|].
  exact (proj1 (write_failure_keeps_state Sample.agent Sample.toFixed
                  Sample.numberToString Sample.fresh "ROBOT_001"
                  Sample.snapshot [Sample.hot]
                  (Sample.env Sample.t2358 true) H)).
Defined.

Lemma severity_of_emitted_report_witness :
  ∃ s' f c,
    Sample.emit Sample.fresh "ROBOT_001" Sample.snapshot [Sample.hot]
                (Sample.env Sample.t2358 false) = (s', Emitted f c)
    ∧ Js.startsWith "CRITICAL_report_" f = true.
Proof.
  destruct sample_emission as (f & c & H).
  exists (fst (Sample.emit Sample.fresh "ROBOT_001" Sample.snapshot
                 [Sample.hot] (Sample.env Sample.t2358 false))), f, c.
  assert (Hr : Sample.emit Sample.fresh "ROBOT_001" Sample.snapshot
                 [Sample.hot] (Sample.env Sample.t2358 false)
               = (fst (Sample.emit Sample.fresh "ROBOT_001" Sample.snapshot
                         [Sample.hot] (Sample.env Sample.t2358 false)),
                  Emitted f c)).
  { rewrite <- H. apply surjective_pairing. }
  split; [exact Hr|].
  exact (proj1 (proj2 (proj2 (proj2
           (severity_of_emitted_report Sample.agent Sample.toFixed
              Sample.numberToString _ _ _ _ _ _ _ _ Hr))))).
Defined.

(** C7, at the failing input: two reports for the same robot on the same
    Tokyo date, eight minutes apart, are both emitted and both files are in
    the reports directory, yet [reportsGenerated] is 1. *)
Theorem reportsGenerated_counts_keys :
  let first := Sample.emit Sample.fresh "ROBOT_001" Sample.snapshot
                 [Sample.hot] (Sample.env Sample.t2350 false) in
  let second := Sample.emit (fst first) "ROBOT_001" Sample.snapshot
                  [Sample.hot] (Sample.env Sample.t2358 false) in
  (∃ f c, snd first = Emitted f c)
  ∧ (∃ f c, snd second = Emitted f c)
  ∧ length (reportFiles (host (fst second))) = 2
  ∧ Status.reportsGenerated (getStatus (monitor (fst second))) = 1.
Proof. cbn zeta. repeat split; vm_compute; eauto. Qed.

(** C10: [startMonitoring] on a running monitor and [stopMonitoring] on a
    stopped one return the state they were given, so starting twice is
    starting once and stopping twice is stopping once. *)
Theorem start_stop_idempotent s env env' :
  (isRunning (monitor s) = true → startMonitoring s env = s)
  ∧ (isRunning (monitor s) = false → stopMonitoring s = s)
  ∧ startMonitoring (startMonitoring s env) env' = startMonitoring s env
  ∧ stopMonitoring (stopMonitoring s) = stopMonitoring s.
Proof.
  split; [|split; [|split]].
  - intros H. unfold startMonitoring. by rewrite H.
  - intros H. unfold stopMonitoring. by rewrite H.
  - unfold startMonitoring at 1.
    assert (isRunning (monitor (startMonitoring s env)) = true) as ->; [|done].
    unfold startMonitoring. by destruct (isRunning (monitor s)) eqn:E.
  - unfold stopMonitoring at 1.
    assert (isRunning (monitor (stopMonitoring s)) = false) as ->; [|done].
    unfold stopMonitoring. destruct (isRunning (monitor s)) eqn:E; [|done].
    cbn [negb]. cbn [on_monitor monitor set_isRunning monitoringInterval].
    by destruct (monitoringInterval (monitor s)).
Qed.

Lemma start_stop_idempotent_witness :
  startMonitoring (startMonitoring Sample.fresh Sample.startEnv)
                  Sample.startEnv
  = startMonitoring Sample.fresh Sample.startEnv
  ∧ stopMonitoring Sample.fresh = Sample.fresh.
Proof.
  destruct (start_stop_idempotent
              (startMonitoring Sample.fresh Sample.startEnv)
              Sample.startEnv Sample.startEnv) as (Hstart & _).
  destruct (start_stop_idempotent Sample.fresh Sample.startEnv
              Sample.startEnv) as (_ & Hstop & _).
  split; [apply Hstart | apply Hstop]; reflexivity.
Defined.

(** ** Ranges of the simulator *)

Lemma rem_bounds x m :
  (0 <= x)%Q → (0 < m)%Q → (0 <= Js.rem x m)%Q ∧ (Js.rem x m < m)%Q.
Proof.
  intros Hx Hm. unfold Js.rem, Js.Qtrunc.
  assert (Hq : (0 <= x / m)%Q).
  { apply Qle_shift_div_l; [exact Hm|]. lra. }
  apply Qle_bool_iff in Hq as Hb. rewrite Hb.
  pose proof (Qfloor_le (x / m)) as Hlo.
  pose proof (Qlt_floor (x / m)) as Hhi.
  set (f := Qfloor (x / m)) in *.
  assert (Hxm : (x == (x / m) * m)%Q).
  { field. intros E. rewrite E in Hm. by apply Qlt_irrefl in Hm. }
  assert (H1 : (inject_Z f * m <= x / m * m)%Q).
  { apply Qmult_le_compat_r; [exact Hlo | lra]. }
  assert (H2 : (x / m * m < inject_Z (f + 1) * m)%Q).
  { apply Qmult_lt_compat_r; [exact Hm | exact Hhi]. }
  rewrite inject_Z_plus in H2. rewrite <- Hxm in H1, H2.
  change (inject_Z 1) with 1%Q in H2.
  split; nra.
Qed.

Lemma tempSpike_false_temperature seed :
  (0 <= seed)%Q → Simulator.tempSpike seed = false →
  (Simulator.temperature seed <= 55)%Q.
Proof.
  intros Hs Hf. unfold Simulator.temperature. rewrite Hf.
  pose proof (rem_bounds seed 20 Hs eq_refl) as [_ H]. lra.
Qed.

Lemma ranges_of_seed seed :
  (0 <= seed)%Q →
  (0.1 <= Simulator.vibration seed ∧ Simulator.vibration seed <= 0.25)%Q
  ∧ (40 <= Simulator.humidity seed ∧ Simulator.humidity seed <= 70)%Q
  ∧ (23 <= Simulator.voltage seed ∧ Simulator.voltage seed <= 24)%Q
  ∧ (1 <= Simulator.operatingHours seed
     ∧ Simulator.operatingHours seed <= 49)%Q
  ∧ (30 <= Simulator.cpuLoad seed ∧ Simulator.cpuLoad seed <= 100)%Q
  ∧ (35 <= Simulator.temperature seed ∧ Simulator.temperature seed <= 75)%Q
  ∧ (Simulator.tempSpike seed = false →
     (Simulator.temperature seed <= 55)%Q)
  ∧ ((60 < Simulator.temperature seed)%Q → Simulator.tempSpike seed = true).
Proof.
  intros Hs.
  pose proof (rem_bounds seed 30 Hs eq_refl) as [H30 H30'].
  pose proof (rem_bounds seed 8 Hs eq_refl) as [H8 H8'].
  pose proof (rem_bounds seed 48 Hs eq_refl) as [H48 H48'].
  pose proof (rem_bounds seed 70 Hs eq_refl) as [H70 H70'].
  pose proof (rem_bounds seed 20 Hs eq_refl) as [H20 H20'].
  unfold Simulator.vibration, Simulator.humidity, Simulator.voltage,
    Simulator.operatingHours, Simulator.cpuLoad, Qdiv.
  change (/ 200)%Q with (1 # 200)%Q. change (/ 10)%Q with (1 # 10)%Q.
  repeat split; try lra.
  - unfold Simulator.temperature. destruct (Simulator.tempSpike seed); lra.
  - unfold Simulator.temperature. destruct (Simulator.tempSpike seed); lra.
  - apply (tempSpike_false_temperature seed Hs).
  - intros Hhot. destruct (Simulator.tempSpike seed) eqn:E; [done|].
    pose proof (tempSpike_false_temperature seed Hs E). lra.
Qed.

(** X1: For a non-negative seed, as [Math.random() * 1000] is, the simulated
    vibration is at most 0.25, the humidity at most 70 and the voltage at
    least 23, so none of them crosses a threshold; the other metrics stay in
    their ranges; the temperature is at most 55 without the temperature
    spike, so it exceeds 60 only with it.  The bounds are the closed ones,
    which the rounded values of the source meet as well. *)
Theorem simulated_ranges seed :
  (0 <= seed)%Q →
  (0.1 <= Simulator.vibration seed ∧ Simulator.vibration seed <= 0.25)%Q
  ∧ (40 <= Simulator.humidity seed ∧ Simulator.humidity seed <= 70)%Q
  ∧ (23 <= Simulator.voltage seed ∧ Simulator.voltage seed <= 24)%Q
  ∧ (1 <= Simulator.operatingHours seed
     ∧ Simulator.operatingHours seed <= 49)%Q
  ∧ (30 <= Simulator.cpuLoad seed ∧ Simulator.cpuLoad seed <= 100)%Q
  ∧ (35 <= Simulator.temperature seed ∧ Simulator.temperature seed <= 75)%Q
  ∧ (Simulator.tempSpike seed = false →
     (Simulator.temperature seed <= 55)%Q)
  ∧ ((60 < Simulator.temperature seed)%Q → Simulator.tempSpike seed = true).
Proof. exact (ranges_of_seed seed). Qed.

Lemma simulated_ranges_witness :
  (0 <= 130)%Q
  ∧ (Simulator.vibration 130 <= 0.25)%Q
  ∧ (23 <= Simulator.voltage 130)%Q
  ∧ (35 <= Simulator.temperature 130)%Q.
Proof.
  assert (H : (0 <= 130)%Q) by done.
  split; [exact H|].
  destruct (simulated_ranges 130 H) as ([_ Hv] & _ & [Hvo _] & _ & _
                                        & [Ht _] & _).
  split; [exact Hv|]. split; [exact Hvo|exact Ht].
Defined.

(** X2: For a non-negative seed the status depends on the operating hours, the
    CPU load, the temperature and the four flags only. *)
Theorem simulated_status_drivers part d :
  (0 <= Simulator.seed d)%Q →
  let seed := Simulator.seed d in
  let p := Simulator.simulatePart part d in
  let drivers :=
    (40 < Simulator.operatingHours seed)%Q ∨ (85 < Simulator.cpuLoad seed)%Q
    ∨ Simulator.abnormalNoise seed = true ∨ Simulator.vibSpike seed = true
    ∨ Simulator.humidSpike seed = true ∨ Simulator.tempSpike seed = true in
  (Part.status p = "critical" ↔ drivers)
  ∧ (Part.status p = "warning"
     ↔ ¬ drivers
       ∧ ((50 < Simulator.temperature seed)%Q
          ∨ (30 < Simulator.operatingHours seed)%Q
          ∨ (75 < Simulator.cpuLoad seed)%Q)).
Proof.
  intros Hs. cbn zeta. cbn [Simulator.simulatePart Part.status].
  pose proof (ranges_of_seed _ Hs)
    as ([_ Hv] & [_ Hh] & [Hvo _] & _ & _ & _ & _ & Hspike).
  rewrite classify_critical, classify_warning. split.
  - split; [|tauto].
    intros [H|[H|[H|[H|[H|[H|[H|[H|[H|H]]]]]]]]]; try tauto; lra.
  - split.
    + intros [Hno [H|[H|[H|[H|[H|H]]]]]]; (split; [tauto|]);
        try tauto; lra.
    + intros [Hno Hyes]. split; [|tauto].
      intros [H|[H|[H|[H|[H|[H|[H|[H|[H|H]]]]]]]]]; try tauto; lra.
Qed.

Lemma simulated_status_drivers_witness :
  (0 <= 130)%Q ∧ Part.status Sample.hot = "critical".
Proof.
  assert (H : (0 <= Simulator.seed (Sample.draws 0))%Q) by done.
  split; [exact H|].
  apply (simulated_status_drivers ("head", "頭部") (Sample.draws 0) H).
  repeat right. reflexivity.
Defined.

(** ** The snapshot and the history after [getRobotData] *)

Lemma simulateParts_ids draws :
  Part.id <$> Simulator.simulateParts draws = rosterIds.
Proof. reflexivity. Qed.

Lemma simulateParts_metricsDefined draws :
  Forall metricsDefined (Simulator.simulateParts draws).
Proof.
  apply Forall_lookup. intros i p (part & _ & ->)%simulateParts_lookup.
  split; by eexists.
Qed.

Lemma keys_appendHistory h p :
  Obj.keys (appendHistory h p)
  = match Obj.get (Part.id p) h with
    | Some _ => Obj.keys h
    | None => Obj.keys h ++ [Part.id p]
    end.
Proof.
  unfold appendHistory.
  set (h1 := match Obj.get (Part.id p) h with
             | Some _ => h | None => Obj.set (Part.id p) [] h end).
  assert (Hk1 : Obj.keys h1 = match Obj.get (Part.id p) h with
                              | Some _ => Obj.keys h
                              | None => Obj.keys h ++ [Part.id p]
                              end).
  { subst h1. destruct (Obj.get (Part.id p) h) eqn:E; [done|].
    by rewrite keys_set, E. }
  assert (Hg1 : is_Some (Obj.get (Part.id p) h1)).
  { subst h1. destruct (Obj.get (Part.id p) h) eqn:E; [by rewrite E|].
    rewrite get_set_eq. by eexists. }
  rewrite <- Hk1.
  assert (Hset : ∀ v, Obj.keys (Obj.set (Part.id p) v h1) = Obj.keys h1).
  { intros v. rewrite keys_set. by destruct Hg1 as [? ->]. }
  destruct (10 <? _).
  - rewrite keys_set, get_set_eq. apply Hset.
  - apply Hset.
Qed.

Lemma keys_foldl_appendHistory parts h k :
  k ∈ Obj.keys (foldl appendHistory h parts) →
  k ∈ Obj.keys h ∨ k ∈ Part.id <$> parts.
Proof.
  revert h. induction parts as [|p parts IH]; intros h; simpl; [by left|].
  intros [Hk|Hk]%IH.
  - rewrite keys_appendHistory in Hk.
    destruct (Obj.get (Part.id p) h); [by left|].
    apply elem_of_app in Hk as [Hk|Hk%list_elem_of_singleton]; [by left|].
    right. subst. apply elem_of_cons. by left.
  - right. apply elem_of_cons. by right.
Qed.

Lemma filter_roster draws i part :
  Simulator.robotParts !! i = Some part →
  List.filter (λ p, String.eqb (Part.id p) (fst part))
              (Simulator.simulateParts draws)
  = [Simulator.simulatePart part (draws i)].
Proof.
  do 7 (destruct i as [|i]; [intros [= <-]; reflexivity|]).
  intros [=].
Qed.

Lemma slice_last_snoc {A} n (l : list A) e :
  0 < n → Js.slice_last n (l ++ [e]) = Js.slice_last (n - 1) l ++ [e].
Proof.
  intros Hn. unfold Js.slice_last. rewrite length_app. simpl.
  replace (length l + 1 - n) with (length l - (n - 1)) by lia.
  apply drop_app_le. lia.
Qed.

Lemma getRobotData_monitor m robotId draws lastCheck :
  let m' := fst (getRobotData m robotId draws lastCheck) in
  isRunning m' = isRunning m
  ∧ monitoringInterval m' = monitoringInterval m
  ∧ reportsDir m' = reportsDir m
  ∧ lastReportTimes m' = lastReportTimes m.
Proof. done. Qed.

Lemma getRobotData_other m robotId draws lastCheck robotId' :
  robotId ≠ robotId' →
  historyBuffer (fst (getRobotData m robotId draws lastCheck)) !! robotId'
  = historyBuffer m !! robotId'.
Proof.
  intros Hne. unfold getRobotData. cbn [fst historyBuffer set_historyBuffer].
  rewrite lookup_insert_ne by done.
  destruct (historyBuffer m !! robotId); [done|].
  by rewrite lookup_insert_ne.
Qed.

Lemma getRobotData_history m robotId draws lastCheck :
  historyBuffer (fst (getRobotData m robotId draws lastCheck)) !! robotId
  = Some (foldl appendHistory (historyOf m robotId)
                (Simulator.simulateParts draws)).
Proof.
  unfold getRobotData, historyOf. cbn [fst historyBuffer set_historyBuffer].
  rewrite lookup_insert_eq. f_equal. f_equal.
  destruct (historyBuffer m !! robotId) eqn:E; [by rewrite E|].
  by rewrite lookup_insert_eq.
Qed.

(** The buffer of a roster part after a call: the reading of the call is
    pushed and the last ten entries are kept. *)
Lemma getRobotData_pushes m robotId draws lastCheck i part :
  Simulator.robotParts !! i = Some part →
  bufferOf (fst (getRobotData m robotId draws lastCheck)) robotId (fst part)
  = Js.slice_last 10
      (bufferOf m robotId (fst part)
       ++ [historyEntryOf (Simulator.simulatePart part (draws i))]).
Proof.
  intros Hi. rewrite getRobotData_buffer, String.eqb_refl.
  by rewrite (filter_roster draws i part Hi).
Qed.

Lemma not_critical_not_abnormal part d :
  Part.status (Simulator.simulatePart part d) ≠ "critical" →
  abnormalEntry (historyEntryOf (Simulator.simulatePart part d)) = false.
Proof.
  intros Hst. apply not_true_iff_false. intros Hab%abnormalEntry_true.
  apply Hst. cbn [Simulator.simulatePart Part.status].
  apply classify_critical.
  unfold Abnormal in Hab.
  cbn [historyEntryOf Simulator.simulatePart HistoryEntry.temperature
       HistoryEntry.vibration HistoryEntry.humidity
       HistoryEntry.operatingHours Part.temperature Part.vibration
       Part.humidity Part.operatingHours above] in Hab.
  tauto.
Qed.

Lemma rosterIds_lookup k :
  k ∈ rosterIds → ∃ i part, Simulator.robotParts !! i = Some part ∧ fst part = k.
Proof.
  unfold rosterIds. intros (part & -> & Hin)%list_elem_of_fmap.
  apply list_elem_of_lookup in Hin as [i Hi]. eauto.
Qed.

Lemma getRobotData_keys m robotId draws lastCheck history :
  Forall (λ k, k ∈ rosterIds) (Obj.keys (historyOf m robotId)) →
  historyBuffer (fst (getRobotData m robotId draws lastCheck)) !! robotId
  = Some history →
  Forall (λ k, k ∈ rosterIds) (Obj.keys history).
Proof.
  intros Hold Hh. rewrite getRobotData_history in Hh.
  apply (inj Some) in Hh. subst history.
  apply Forall_forall. intros k [Hk|Hk]%keys_foldl_appendHistory.
  - rewrite Forall_forall in Hold. by apply Hold.
  - rewrite simulateParts_ids in Hk. exact Hk.
Qed.

(** After [getRobotData], a snapshot without critical parts leaves no part
    with three abnormal entries at the end of its buffer: the newest entry
    is the reading just taken. *)
Lemma fetched_not_sustained m robotId draws lastCheck k :
  k ∈ rosterIds →
  criticalPartsOf (snd (getRobotData m robotId draws lastCheck)) = [] →
  sustained (historyOf (fst (getRobotData m robotId draws lastCheck)) robotId)
            k = false.
Proof.
  intros (i & part & Hi & <-)%rosterIds_lookup Hnone.
  unfold sustained.
  change (default [] (Obj.get (fst part) (historyOf ?m robotId)))
    with (bufferOf m robotId (fst part)).
  rewrite (getRobotData_pushes m robotId draws lastCheck i part Hi).
  rewrite slice_last_snoc by lia.
  rewrite slice_last_snoc by lia.
  rewrite forallb_app. cbn [forallb].
  assert (abnormalEntry
            (historyEntryOf (Simulator.simulatePart part (draws i))) = false)
    as ->.
  { apply not_critical_not_abnormal. intros Hst.
    assert (Hin : In (Simulator.simulatePart part (draws i))
                     (criticalPartsOf
                        (snd (getRobotData m robotId draws lastCheck)))).
    { apply filter_In. split.
      - apply list_elem_of_In, list_elem_of_lookup. exists i.
        unfold getRobotData. cbn [snd RobotData.parts].
        unfold Simulator.simulateParts. by rewrite list_lookup_imap, Hi.
      - unfold isCriticalStatus. by rewrite Hst. }
    by rewrite Hnone in Hin. }
  by rewrite andb_false_r, andb_false_r.
Qed.

Lemma fetched_fallback_silent m h robotId draws lastCheck :
  Forall (λ k, k ∈ rosterIds) (Obj.keys (historyOf m robotId)) →
  fallbackFires (mkSystem (fst (getRobotData m robotId draws lastCheck)) h)
                (snd (getRobotData m robotId draws lastCheck)) = false.
Proof.
  intros Hkeys. unfold fallbackFires.
  destruct (length (criticalPartsOf _) =? 0) eqn:Hc;
    [|by rewrite andb_false_r].
  apply Nat.eqb_eq, length_zero_iff_nil in Hc.
  rewrite suspiciousPartsOf_filter, length_fmap.
  cbn [monitor]. change (RobotData.robotId (snd (getRobotData _ _ _ _)))
    with robotId.
  set (history := historyOf (fst (getRobotData m robotId draws lastCheck))
                            robotId).
  assert (List.filter (sustained history) (Obj.keys history) = []) as ->;
    [|by rewrite andb_false_r].
  assert (Hk : Forall (λ k, k ∈ rosterIds) (Obj.keys history)).
  { subst history. unfold historyOf at 1.
    pose proof (getRobotData_history m robotId draws lastCheck) as Hh.
    rewrite Hh. cbn [default from_option id].
    eapply getRobotData_keys; [exact Hkeys | exact Hh]. }
  induction (Obj.keys history) as [|k ks IH]; [done|].
  apply Forall_cons in Hk as [Hk Hks]. cbn [List.filter].
  subst history.
  rewrite (fetched_not_sustained m robotId draws lastCheck k Hk Hc).
  by apply IH.
Qed.

(** ** What the methods leave alone *)

Ltac core_eq :=
  unfold sameCore;
  cbn [fst snd on_host on_monitor host monitor say isRunning
       monitoringInterval reportsDir historyBuffer fsLoaded timers nextTimer
       set_lastReportTimes set_reports];
  done.

Lemma sameCore_refl s : sameCore s s.
Proof. by unfold sameCore. Qed.

Lemma sameCore_trans s1 s2 s3 : sameCore s1 s2 → sameCore s2 s3 → sameCore s1 s3.
Proof.
  unfold sameCore. intros (?&?&?&?&?&?&?) (?&?&?&?&?&?&?).
  repeat split; congruence.
Qed.

Lemma sameCore_say line s : sameCore s (on_host (say line) s).
Proof. core_eq. Qed.

Lemma logToSystemLog_sameCore s robotId parts filename isCritical env :
  sameCore s (logToSystemLog s robotId parts filename isCritical env).
Proof.
  unfold logToSystemLog. destruct (negb _); [apply sameCore_refl|].
  unfold appendFileSync. destruct (appendThrows env); [core_eq|].
  destruct (reports (host s)) as [dir|]; [|core_eq].
  destruct (dir !! "system_monitor.log") as [[old|]|]; core_eq.
Qed.

Lemma consistent_sameCore s s' : Consistent s → sameCore s s' → Consistent s'.
Proof.
  unfold Consistent, sameCore, bufferOf, historyOf.
  intros (H1 & H2 & H3 & H4) (E1 & E2 & _ & E4 & E5 & _).
  rewrite E1, E2, E4, E5. done.
Qed.

Section Invariants.

Variable aiAgent : RobotDiagnosticAI.
Variable toFixed : Q → nat → string.
Variable numberToString : Q → string.

Local Abbreviation emit := (generateEmergencyReport aiAgent toFixed numberToString).
Local Abbreviation check := (checkRobotStatus aiAgent toFixed numberToString).
Local Abbreviation tick := (checkAllRobots aiAgent toFixed numberToString).
Local Abbreviation reachable := (Reachable aiAgent toFixed numberToString).

Lemma emit_sameCore s robotId robotData parts env :
  sameCore s (fst (emit s robotId robotData parts env)).
Proof.
  unfold generateEmergencyReport.
  destruct (withinWindow _ _ _); [apply sameCore_refl|].
  cbn [on_host host say fsLoaded].
  destruct (fsLoaded (host s)) eqn:Hfs; [|core_eq]. cbn [negb].
  destruct (generateReportContent _ _ _ _ _ _ _ _ _); [|core_eq].
  unfold writeFileSync. destruct (writeThrows env); [core_eq|].
  cbn [reports say].
  destruct (reports (host s)) as [dir|]; [|core_eq].
  destruct (dir !! _) as [[content|]|]; cbn [fst];
    try (core_eq);
    (eapply sameCore_trans; [|apply logToSystemLog_sameCore]);
    core_eq.
Qed.

Lemma primaryReport_sameCore s robotId robotData env :
  sameCore s (fst (primaryReport aiAgent toFixed numberToString s robotId
                     robotData env)).
Proof.
  unfold primaryReport.
  destruct (0 <? length (criticalPartsOf robotData)).
  - match goal with |- context [emit ?a ?b ?c ?d ?e] =>
      pose proof (emit_sameCore a b c d e) as H;
      destruct (emit a b c d e) end.
    cbn [fst] in *. eapply sameCore_trans; [|exact H].
    eapply sameCore_trans; apply sameCore_say.
  - destruct (0 <? length (warningPartsOf robotData));
      [|apply sameCore_say].
    match goal with |- context [emit ?a ?b ?c ?d ?e] =>
      pose proof (emit_sameCore a b c d e) as H;
      destruct (emit a b c d e) end.
    cbn [fst] in *. eapply sameCore_trans; [|exact H].
    eapply sameCore_trans; apply sameCore_say.
Qed.

Lemma fallbackReport_sameCore s robotData env :
  sameCore s (fst (fallbackReport aiAgent toFixed numberToString s robotData
                     env)).
Proof.
  unfold fallbackReport. destruct (fallbackFires s robotData);
    [|apply sameCore_refl].
  match goal with |- context [emit ?a ?b ?c ?d ?e] =>
    pose proof (emit_sameCore a b c d e) as H;
    destruct (emit a b c d e) end.
  cbn [fst] in *. eapply sameCore_trans; [apply sameCore_say|exact H].
Qed.

Lemma evaluateSnapshot_sameCore s robotId robotData primaryEnv fallbackEnv :
  sameCore s (fst (evaluateSnapshot aiAgent toFixed numberToString s robotId
                     robotData primaryEnv fallbackEnv)).
Proof.
  unfold evaluateSnapshot.
  pose proof (primaryReport_sameCore s robotId robotData primaryEnv) as H1.
  destruct (primaryReport _ _ _ s robotId robotData primaryEnv)
    as [s1 first]. cbn [fst] in H1.
  pose proof (fallbackReport_sameCore s1 robotData fallbackEnv) as H2.
  destruct (fallbackReport _ _ _ s1 robotData fallbackEnv) as [s2 second].
  cbn [fst] in H2.
  assert (H12 : sameCore s s2) by (by eapply sameCore_trans).
  assert (H1c : sameCore s (caught robotId s1)).
  { eapply sameCore_trans; [exact H1|apply sameCore_say]. }
  assert (H2c : sameCore s (caught robotId s2)).
  { eapply sameCore_trans; [exact H12|apply sameCore_say]. }
  destruct first as [[]|]; try done; destruct second as [[]|]; done.
Qed.

Lemma check_sameCore s robotId env :
  sameCore (mkSystem (fst (getRobotData (monitor s) robotId (draws env)
                             (lastCheckNow env))) (host s))
           (fst (check s robotId env)).
Proof.
  unfold checkRobotStatus.
  destruct (getRobotData _ _ _ _) as [m robotData]. cbn [fst].
  apply evaluateSnapshot_sameCore.
Qed.

(** ** Invariants of the reachable states *)

Lemma consistent_fetch s robotId draws lastCheck :
  Consistent s →
  Consistent (mkSystem (fst (getRobotData (monitor s) robotId draws
                               lastCheck)) (host s)).
Proof.
  intros (H1 & H2 & H3 & H4). unfold Consistent. cbn [monitor host].
  split; [exact H1|]. split; [exact H2|]. split.
  - intros r history Hh.
    destruct (decide (robotId = r)) as [<-|Hne].
    + eapply getRobotData_keys; [|exact Hh].
      unfold historyOf.
      destruct (historyBuffer (monitor s) !! robotId) as [h|] eqn:E;
        [by eapply H3 | constructor].
    + rewrite getRobotData_other in Hh by done. by eapply H3.
  - intros r k. rewrite getRobotData_buffer.
    destruct (String.eqb robotId r); [|apply H4].
    generalize (historyEntryOf
                  <$> List.filter (λ p, String.eqb (Part.id p) k)
                                  (Simulator.simulateParts draws)).
    intros es. specialize (H4 r k). revert H4.
    generalize (bufferOf (monitor s) r k). clear.
    induction es as [|e es IH]; intros buf Hbuf; simpl; [exact Hbuf|].
    apply IH. rewrite slice_last_length. lia.
Qed.

Lemma consistent_check s robotId env :
  Consistent s → Consistent (fst (check s robotId env)).
Proof.
  intros H. eapply consistent_sameCore; [|apply check_sameCore].
  by apply consistent_fetch.
Qed.

Lemma purge_entries_keep env entries h :
  let h' := foldl (λ acc entry,
                     if removeThrows env entry
                     then say "reports フォルダ内ファイル削除中にエラー:" acc
                     else set_reports (delete entry <$> reports acc) acc)
                  h entries in
  fsLoaded h' = fsLoaded h ∧ timers h' = timers h
  ∧ nextTimer h' = nextTimer h.
Proof.
  cbn zeta. revert h.
  induction entries as [|entry entries IH]; intros h; simpl; [done|].
  destruct (IH (if removeThrows env entry
                then say "reports フォルダ内ファイル削除中にエラー:" h
                else set_reports (delete entry <$> reports h) h))
    as (-> & -> & ->).
  by destruct (removeThrows env entry).
Qed.

Lemma purge_keeps env h :
  fsLoaded (purge env h) = fsLoaded h ∧ timers (purge env h) = timers h
  ∧ nextTimer (purge env h) = nextTimer h.
Proof.
  unfold purge. destruct (fsLoaded h) eqn:E; [|done].
  destruct (reports h) as [dir|]; [|done].
  destruct (readdirThrows env); [done|].
  cbn [say fsLoaded timers nextTimer].
  pose proof (purge_entries_keep env (fst <$> map_to_list dir) h)
    as (H1 & H2 & H3).
  cbn zeta in H1, H2, H3. rewrite H1, H2, H3. by split.
Qed.

Lemma consistent_start s env : Consistent s → Consistent (startMonitoring s env).
Proof.
  intros H. unfold startMonitoring.
  destruct (isRunning (monitor s)) eqn:E; [exact H|].
  destruct H as (H1 & H2 & H3 & H4). unfold Consistent.
  cbn [monitor host on_monitor on_host set_isRunning set_monitoringInterval
       isRunning monitoringInterval historyBuffer set_timers fsLoaded].
  split; [split; [by eexists | done]|].
  split.
  - pose proof (purge_keeps env (say "🏭 工場監視システム: バックグラウンド監視を開始しました"
                                     (host s))) as [-> _]. exact H2.
  - split; [exact H3 | exact H4].
Qed.

Lemma consistent_stop s : Consistent s → Consistent (stopMonitoring s).
Proof.
  intros H. unfold stopMonitoring.
  destruct (isRunning (monitor s)) eqn:E; cbn [negb]; [|exact H].
  destruct H as (H1 & H2 & H3 & H4).
  cbn [on_monitor monitor host set_isRunning monitoringInterval].
  destruct (monitoringInterval (monitor s)) as [timer|] eqn:Ei.
  - unfold Consistent. cbn. split; [split; [done|by intros [? [=]]]|].
    split; [exact H2 | split; [exact H3 | exact H4]].
  - unfold Consistent. cbn. rewrite Ei.
    split; [split; [done|by intros [? [=]]]|].
    split; [exact H2 | split; [exact H3 | exact H4]].
Qed.

Lemma consistent_step s s' :
  Consistent s → Step aiAgent toFixed numberToString s s' → Consistent s'.
Proof.
  intros H. destruct 1.
  - by apply consistent_start.
  - by apply consistent_stop.
  - by apply consistent_fetch.
  - eapply consistent_sameCore; [exact H|apply emit_sameCore].
  - by apply consistent_check.
  - unfold checkAllRobots. generalize robotIds. intros ids. revert s H.
    induction ids as [|r ids IH]; intros s H; cbn [foldl]; [exact H|].
    apply IH. by apply consistent_check.
Qed.

Lemma consistent_new cwd h s :
  new_BackgroundMonitor cwd h = Some s → Consistent s.
Proof.
  unfold new_BackgroundMonitor. destruct (fsLoaded h) eqn:E; [|done].
  intros [= <-]. unfold Consistent, bufferOf, historyOf. cbn.
  split; [split; [done|by intros [? [=]]]|].
  split; [by destruct (reports h)|].
  split; [intros r history; by rewrite lookup_empty|].
  intros r k. rewrite lookup_empty. simpl. lia.
Qed.

Lemma reachable_consistent s : reachable s → Consistent s.
Proof.
  intros (cwd & h & s0 & Hnew & Hrun).
  apply consistent_new in Hnew. induction Hrun as [|s1 s2 s3 Hstep _ IH].
  - exact Hnew.
  - apply IH. by eapply consistent_step.
Qed.

End Invariants.

Lemma sample_reachable :
  Reachable Sample.agent Sample.toFixed Sample.numberToString Sample.fresh.
Proof. exists "/app", Sample.host, Sample.fresh. split; [reflexivity|apply rtc_refl]. Qed.

Section ReachableStates.

Variable aiAgent : RobotDiagnosticAI.
Variable toFixed : Q → nat → string.
Variable numberToString : Q → string.

Local Abbreviation emit := (generateEmergencyReport aiAgent toFixed numberToString).
Local Abbreviation check := (checkRobotStatus aiAgent toFixed numberToString).
Local Abbreviation reachable := (Reachable aiAgent toFixed numberToString).

(** X3: Whatever methods were called since construction, and in whatever order,
    no buffer holds more than ten entries, and only roster parts have a
    buffer. *)
Theorem reachable_history_bounded s robotId partId :
  reachable s →
  length (bufferOf (monitor s) robotId partId) ≤ 10
  ∧ (partId ∉ rosterIds → bufferOf (monitor s) robotId partId = []).
Proof.
  intros (_ & _ & Hkeys & Hlen)%reachable_consistent.
  split; [apply Hlen|].
  intros Hnot. unfold bufferOf, historyOf.
  destruct (historyBuffer (monitor s) !! robotId) as [history|] eqn:E;
    [|done].
  cbn [default from_option id].
  destruct (Obj.get partId history) as [entries|] eqn:Eg; [|done].
  exfalso. apply Hnot. specialize (Hkeys robotId history E).
  rewrite Forall_forall in Hkeys. apply Hkeys, get_Some_keys.
  rewrite Eg. by eexists.
Qed.

(** X4: In a reachable state the timer handle is set exactly when the monitor
    runs, so [getStatus] describes the interval as 5 seconds exactly
    then. *)
Theorem reachable_status_interval s :
  reachable s →
  Status.monitoringInterval (getStatus (monitor s))
  = if isRunning (monitor s) then "5 seconds" else "stopped".
Proof.
  intros ([Hrun Hint] & _)%reachable_consistent.
  unfold getStatus. cbn [Status.monitoringInterval].
  destruct (isRunning (monitor s)).
  - destruct Hrun as [t ->]; done.
  - destruct (monitoringInterval (monitor s)) as [t|]; [|done].
    assert (false = true) by (apply Hint; by eexists). done.
Qed.

Lemma check_skips_fallback s robotId env :
  reachable s →
  let fetched :=
    getRobotData (monitor s) robotId (draws env) (lastCheckNow env) in
  let first :=
    primaryReport aiAgent toFixed numberToString
                  (mkSystem (fst fetched) (host s)) robotId (snd fetched)
                  (primaryEnv env) in
  fallbackFires (fst first) (snd fetched) = false
  ∧ check s robotId env = (fst first, option_list (snd first))
  ∧ Threw ∉ snd (check s robotId env).
Proof.
  intros (_ & Hfs & Hkeys & _)%reachable_consistent. cbn zeta.
  unfold checkRobotStatus.
  assert (Hroster : Forall (λ k, k ∈ rosterIds)
                           (Obj.keys (historyOf (monitor s) robotId))).
  { unfold historyOf.
    destruct (historyBuffer (monitor s) !! robotId) as [h|] eqn:E;
      [by eapply Hkeys | constructor]. }
  pose proof (fetched_fallback_silent (monitor s) (host s) robotId
                (draws env) (lastCheckNow env) Hroster) as Hsilent.
  destruct (getRobotData (monitor s) robotId (draws env) (lastCheckNow env))
    as [m robotData] eqn:Hfetch.
  cbn [fst snd] in *.
  assert (Hparts : Forall metricsDefined (RobotData.parts robotData)).
  { replace robotData
      with (snd (getRobotData (monitor s) robotId (draws env)
                   (lastCheckNow env))) by (by rewrite Hfetch).
    apply simulateParts_metricsDefined. }
  pose proof (primaryReport_monitor aiAgent toFixed numberToString
                (mkSystem m (host s)) robotId robotData (primaryEnv env))
    as [Hrun Hbuf].
  pose proof (primaryReport_not_threw aiAgent toFixed numberToString
                (mkSystem m (host s)) robotId robotData (primaryEnv env)
                Hfs Hparts) as Hnot.
  cbn zeta in Hrun. unfold evaluateSnapshot.
  destruct (primaryReport aiAgent toFixed numberToString
              (mkSystem m (host s)) robotId robotData (primaryEnv env))
    as [s1 first].
  cbn [fst snd] in *.
  assert (Hf : fallbackFires s1 robotData = false).
  { rewrite <- Hsilent. unfold fallbackFires, historyOf.
    by rewrite Hrun, Hbuf. }
  split; [exact Hf|].
  unfold fallbackReport. rewrite Hf.
  destruct first as [o|]; cbn [option_list app snd].
  - assert (o ≠ Threw) by congruence.
    destruct o; try done; (split; [done|]); cbn [snd];
      intros Hin%list_elem_of_singleton; done.
  - split; [done|]. cbn [snd]. apply not_elem_of_nil.
Qed.

(** X5: In a reachable state, [checkRobotStatus] never enters its fallback
    block and never reaches its [catch]: the call is the fetch followed by
    the first report decision. *)
Theorem reachable_check_no_fallback s robotId env :
  reachable s →
  let fetched :=
    getRobotData (monitor s) robotId (draws env) (lastCheckNow env) in
  let first :=
    primaryReport aiAgent toFixed numberToString
                  (mkSystem (fst fetched) (host s)) robotId (snd fetched)
                  (primaryEnv env) in
  fallbackFires (fst first) (snd fetched) = false
  ∧ check s robotId env = (fst first, option_list (snd first))
  ∧ Threw ∉ snd (check s robotId env).
Proof. exact (check_skips_fallback s robotId env). Qed.

(** X6: A reachable monitor has the [fs] module: an emission never ends in the
    branch that reports it missing. *)
Theorem reachable_never_missing_fs s robotId robotData parts env :
  reachable s →
  fsLoaded (host s) = true
  ∧ snd (emit s robotId robotData parts env) ≠ FsMissing.
Proof.
  intros (_ & Hfs & _)%reachable_consistent. split; [exact Hfs|].
  unfold generateEmergencyReport.
  destruct (withinWindow _ _ _); [done|].
  cbn [on_host host say fsLoaded]. rewrite Hfs. cbn [negb].
  destruct (generateReportContent _ _ _ _ _ _ _ _ _); [|done].
  destruct (writeFileSync _ _ _ _); cbn [snd]; congruence.
Qed.

End ReachableStates.

Lemma runCalls_reachable aiAgent toFixed numberToString s calls :
  Reachable aiAgent toFixed numberToString s →
  Reachable aiAgent toFixed numberToString
            (mkSystem (runCalls (monitor s) calls) (host s)).
Proof.
  intros (cwd & h & s0 & Hnew & Hrun). exists cwd, h, s0.
  split; [exact Hnew|]. etrans; [exact Hrun|]. clear.
  revert s. induction calls as [|c calls IH]; intros s.
  - destruct s. apply rtc_refl.
  - eapply rtc_l.
    + exact (step_fetch aiAgent toFixed numberToString s (callRobot c)
               (callDraws c) (callTime c)).
    + exact (IH (mkSystem (fst (getRobotData (monitor s) (callRobot c)
                                  (callDraws c) (callTime c))) (host s))).
Qed.

Lemma sampleRestarted_reachable :
  Reachable Sample.agent Sample.toFixed Sample.numberToString sampleRestarted.
Proof.
  destruct sample_reachable as (cwd & h & s0 & Hnew & Hrun).
  exists cwd, h, s0. split; [exact Hnew|].
  etrans; [exact Hrun|].
  eapply rtc_l.
  { exact (step_start Sample.agent Sample.toFixed Sample.numberToString
             Sample.fresh Sample.startEnv). }
  eapply rtc_l.
  { exact (step_stop Sample.agent Sample.toFixed Sample.numberToString
             (startMonitoring Sample.fresh Sample.startEnv)). }
  apply rtc_once.
  exact (step_start Sample.agent Sample.toFixed Sample.numberToString
           (stopMonitoring (startMonitoring Sample.fresh Sample.startEnv))
           Sample.startEnv).
Qed.

Lemma reachable_history_bounded_witness :
  Reachable Sample.agent Sample.toFixed Sample.numberToString samplePolled
  ∧ length (appended Sample.calls12 "ROBOT_001" "head") = 12
  ∧ length (bufferOf (monitor samplePolled) "ROBOT_001" "head") = 10
  ∧ length (bufferOf (monitor samplePolled) "ROBOT_001" "head") ≤ 10.
Proof.
  assert (H : Reachable Sample.agent Sample.toFixed Sample.numberToString
                        samplePolled).
  { exact (runCalls_reachable Sample.agent Sample.toFixed
             Sample.numberToString Sample.fresh Sample.calls12
             sample_reachable). }
  split; [exact H|]. split; [vm_compute; reflexivity|].
  split; [vm_compute; reflexivity|].
  exact (proj1 (reachable_history_bounded Sample.agent Sample.toFixed
                  Sample.numberToString samplePolled "ROBOT_001" "head" H)).
Defined.

Lemma reachable_status_interval_witness :
  Reachable Sample.agent Sample.toFixed Sample.numberToString sampleRestarted
  ∧ isRunning (monitor sampleRestarted) = true
  ∧ Status.monitoringInterval (getStatus (monitor sampleRestarted))
    = "5 seconds".
Proof.
  split; [exact sampleRestarted_reachable|].
  assert (Hrun : isRunning (monitor sampleRestarted) = true)
    by (vm_compute; reflexivity).
  split; [exact Hrun|].
  rewrite (reachable_status_interval Sample.agent Sample.toFixed
             Sample.numberToString sampleRestarted
             sampleRestarted_reachable).
  rewrite Hrun. reflexivity.
Defined.

Lemma reachable_check_no_fallback_witness :
  Reachable Sample.agent Sample.toFixed Sample.numberToString Sample.fresh
  ∧ Threw ∉ snd (checkRobotStatus Sample.agent Sample.toFixed
                   Sample.numberToString Sample.fresh "ROBOT_001"
                   (mkCheckEnv Sample.draws Sample.t2358
                      (Sample.env Sample.t2358 false)
                      (Sample.env Sample.t2358 false))).
Proof.
  split; [exact sample_reachable|].
  exact (proj2 (proj2 (reachable_check_no_fallback Sample.agent
                         Sample.toFixed Sample.numberToString Sample.fresh
                         "ROBOT_001" _ sample_reachable))).
Defined.

Lemma reachable_never_missing_fs_witness :
  Reachable Sample.agent Sample.toFixed Sample.numberToString Sample.fresh
  ∧ snd (Sample.emit Sample.fresh "ROBOT_001" Sample.snapshot [Sample.hot]
           (Sample.env Sample.t2358 false)) ≠ FsMissing.
Proof.
  split; [exact sample_reachable|].
  exact (proj2 (reachable_never_missing_fs Sample.agent Sample.toFixed
                  Sample.numberToString Sample.fresh "ROBOT_001"
                  Sample.snapshot [Sample.hot]
                  (Sample.env Sample.t2358 false) sample_reachable)).
Defined.

(** ** The fallback rule in a run *)



(** X7: [getRobotData] pushes each reading it returns as the newest entry of
    the buffer of its part, which grows by one up to ten, and changes
    nothing else in the monitor. *)
Theorem getRobotData_newest_entry m robotId draws lastCheck i p :
  RobotData.parts (snd (getRobotData m robotId draws lastCheck)) !! i
    = Some p →
  let m' := fst (getRobotData m robotId draws lastCheck) in
  last (bufferOf m' robotId (Part.id p)) = Some (historyEntryOf p)
  ∧ length (bufferOf m' robotId (Part.id p))
    = (length (bufferOf m robotId (Part.id p)) + 1) `min` 10
  ∧ (∀ other, other ≠ robotId →
              historyBuffer m' !! other = historyBuffer m !! other)
  ∧ lastReportTimes m' = lastReportTimes m
  ∧ isRunning m' = isRunning m.
Proof.
  intros (part & Hi & ->)%simulateParts_lookup. cbn zeta.
  change (Part.id (Simulator.simulatePart part (draws i))) with (fst part).
  rewrite (getRobotData_pushes m robotId draws lastCheck i part Hi).
  split; [|split; [|split]].
  - rewrite slice_last_snoc by lia. apply last_snoc.
  - rewrite slice_last_length, length_app. reflexivity.
  - intros other Hne. by apply getRobotData_other.
  - split; reflexivity.
Qed.

Lemma getRobotData_newest_entry_witness :
  bufferOf (fst (getRobotData (monitor Sample.fresh) "ROBOT_001"
                   Sample.draws Sample.t2358)) "ROBOT_001" "head"
  = [historyEntryOf Sample.hot].
Proof.
  pose proof (getRobotData_newest_entry (monitor Sample.fresh) "ROBOT_001"
                Sample.draws Sample.t2358 0 Sample.hot eq_refl)
    as (Hlast & Hlen & _).
  cbn zeta in Hlast, Hlen.
  change (Part.id Sample.hot) with "head" in Hlast, Hlen.
  destruct (bufferOf _ _ _) as [|e [|e' es]]; [discriminate Hlast| |].
  - by injection Hlast as ->.
  - discriminate Hlen.
Defined.

Section EmissionFacts.

Variable aiAgent : RobotDiagnosticAI.
Variable toFixed : Q → nat → string.
Variable numberToString : Q → string.

Local Abbreviation emit := (generateEmergencyReport aiAgent toFixed numberToString).

Lemma emit_Suppressed_iff s robotId robotData parts env :
  snd (emit s robotId robotData parts env) = Suppressed
  ↔ withinWindow (monitor s) (reportKeyOf robotId (now env)) (now env) = true.
Proof.
  pose proof (emit_cases aiAgent toFixed numberToString s robotId robotData
                parts env) as H. cbn zeta in H.
  split.
  - intros Hs. rewrite Hs in H. tauto.
  - intros Hw. destruct (snd (emit s robotId robotData parts env));
      [done|..]; destruct H as (_ & H); try destruct H as (_ & H);
      try destruct H as (H & _); congruence.
Qed.

(** X8: After a report was emitted at time t, a further call for the same robot
    on the same Tokyo date is suppressed exactly when less than 300000 ms
    have passed since t, whatever parts it is called with. *)
Theorem emitted_then_window s robotId robotData parts env s' f c
                            robotData' parts' env' :
  emit s robotId robotData parts env = (s', Emitted f c) →
  Clock.jpDateKey (now env') = Clock.jpDateKey (now env) →
  (snd (emit s' robotId robotData' parts' env') = Suppressed
   ↔ (now env' - now env < 300000)%Z)
  ∧ ((now env' - now env < 300000)%Z →
     emit s' robotId robotData' parts' env' = (s', Suppressed)).
Proof.
  intros He Hdate.
  pose proof (emit_cases aiAgent toFixed numberToString s robotId robotData
                parts env) as H. cbn zeta in H. rewrite He in H.
  cbn [fst snd] in H. destruct H as (_ & _ & _ & _ & Hmap).
  assert (Hkey : reportKeyOf robotId (now env')
                 = reportKeyOf robotId (now env)).
  { unfold reportKeyOf. by rewrite Hdate. }
  assert (Hw : withinWindow (monitor s') (reportKeyOf robotId (now env'))
                            (now env') = true
               ↔ (now env' - now env < 300000)%Z).
  { unfold withinWindow. rewrite Hmap, Hkey, lookup_insert_eq.
    apply Z.ltb_lt. }
  split.
  - by rewrite emit_Suppressed_iff.
  - intros Hlt. apply emit_suppressed. by apply Hw.
Qed.

(** X9: A part without temperature or vibration makes the rendering throw: a
    call that is not suppressed ends in the exception, with nothing written
    and the monitor as it was. *)
Theorem missing_metrics_throw s robotId robotData parts env i p :
  parts !! i = Some p → ¬ metricsDefined p →
  withinWindow (monitor s) (reportKeyOf robotId (now env)) (now env) = false →
  let result := emit s robotId robotData parts env in
  snd result = Threw
  ∧ monitor (fst result) = monitor s
  ∧ reports (host (fst result)) = reports (host s).
Proof.
  intros Hi Hp Hw. cbn zeta. unfold generateEmergencyReport. rewrite Hw.
  rewrite (render_None aiAgent toFixed numberToString robotData parts _
             _ _ env i p Hi Hp).
  by destruct (negb _).
Qed.

(** X10: The count that [getStatus] returns grows by one with a report for a key
    that had no entry, and stays as it is with a report for a key that had
    one. *)
Theorem emitted_count s robotId robotData parts env s' f c :
  emit s robotId robotData parts env = (s', Emitted f c) →
  Status.reportsGenerated (getStatus (monitor s'))
  = match lastReportTimes (monitor s) !! reportKeyOf robotId (now env) with
    | Some _ => Status.reportsGenerated (getStatus (monitor s))
    | None => S (Status.reportsGenerated (getStatus (monitor s)))
    end.
Proof.
  intros He.
  pose proof (emit_cases aiAgent toFixed numberToString s robotId robotData
                parts env) as H. cbn zeta in H. rewrite He in H.
  cbn [fst snd] in H. destruct H as (_ & _ & _ & _ & Hmap).
  unfold getStatus. cbn [Status.reportsGenerated]. rewrite Hmap.
  destruct (lastReportTimes (monitor s) !! _) eqn:E.
  - by rewrite map_size_insert_Some.
  - by rewrite map_size_insert_None.
Qed.

End EmissionFacts.

Lemma sample_emission_2350 :
  ∃ f c, Sample.emit Sample.fresh "ROBOT_001" Sample.snapshot [Sample.hot]
                     (Sample.env Sample.t2350 false)
         = (fst (Sample.emit Sample.fresh "ROBOT_001" Sample.snapshot
                   [Sample.hot] (Sample.env Sample.t2350 false)),
            Emitted f c).
Proof.
  assert (∃ f c, snd (Sample.emit Sample.fresh "ROBOT_001" Sample.snapshot
                        [Sample.hot] (Sample.env Sample.t2350 false))
                 = Emitted f c) as (f & c & H) by (vm_compute; eauto).
  exists f, c. rewrite <- H. apply surjective_pairing.
Qed.

Lemma emitted_then_window_witness :
  let s' := fst (Sample.emit Sample.fresh "ROBOT_001" Sample.snapshot
                   [Sample.hot] (Sample.env Sample.t2350 false)) in
  Sample.emit s' "ROBOT_001" Sample.snapshot [Sample.hot]
              (Sample.env (Sample.t2350 + 60000) false)
  = (s', Suppressed).
Proof.
  cbn zeta. destruct sample_emission_2350 as (f & c & He).
  refine (proj2 (emitted_then_window Sample.agent Sample.toFixed
                   Sample.numberToString _ _ _ _ _ _ f c Sample.snapshot
                   [Sample.hot] (Sample.env (Sample.t2350 + 60000) false)
                   He _) _); by vm_compute.
Defined.

Lemma missing_metrics_throw_witness :
  snd (Sample.emit Sample.fresh "ROBOT_001" Sample.calmSnapshot
         [Part.with_status "critical" (Part.stub "torso")]
         (Sample.env Sample.t2358 false)) = Threw.
Proof.
  refine (proj1 (missing_metrics_throw Sample.agent Sample.toFixed
                   Sample.numberToString Sample.fresh "ROBOT_001"
                   Sample.calmSnapshot
                   [Part.with_status "critical" (Part.stub "torso")]
                   (Sample.env Sample.t2358 false) 0
                   (Part.with_status "critical" (Part.stub "torso"))
                   eq_refl _ _)).
  - intros [[t Ht] _]. discriminate Ht.
  - reflexivity.
Defined.

Lemma emitted_count_witness :
  Status.reportsGenerated
    (getStatus (monitor (fst (Sample.emit Sample.fresh "ROBOT_001"
                                Sample.snapshot [Sample.hot]
                                (Sample.env Sample.t2350 false))))) = 1.
Proof.
  destruct sample_emission_2350 as (f & c & He).
  exact (emitted_count Sample.agent Sample.toFixed Sample.numberToString
           _ _ _ _ _ _ f c He).
Defined.

(** ** Start and stop *)

Lemma purge_entries_reports env entries h dir :
  reports h = Some dir →
  ∃ dir',
    reports (foldl (λ acc entry,
                      if removeThrows env entry
                      then say "reports フォルダ内ファイル削除中にエラー:" acc
                      else set_reports (delete entry <$> reports acc) acc)
                   h entries) = Some dir'
    ∧ ∀ name, dir' !! name
              = if bool_decide (name ∈ entries) && negb (removeThrows env name)
                then None else dir !! name.
Proof.
  revert h dir. induction entries as [|entry entries IH]; intros h dir Hdir.
  - exists dir. split; [done|]. intros name.
    rewrite bool_decide_eq_false_2; [done|apply not_elem_of_nil].
  - cbn [foldl]. destruct (removeThrows env entry) eqn:Hthrows.
    + destruct (IH (say "reports フォルダ内ファイル削除中にエラー:" h) dir Hdir)
        as (dir' & Hdir' & Hlook).
      exists dir'. split; [exact Hdir'|]. intros name. rewrite Hlook.
      destruct (decide (name = entry)) as [->|Hne].
      * rewrite Hthrows. by rewrite !andb_false_r.
      * destruct (removeThrows env name); [by rewrite !andb_false_r|].
        rewrite !andb_true_r.
        destruct (decide (name ∈ entries)) as [Hin|Hnin].
        -- rewrite !bool_decide_eq_true_2; [done| |done].
           apply elem_of_cons. by right.
        -- rewrite !bool_decide_eq_false_2; [done| |done].
           intros [?|?]%elem_of_cons; done.
    + destruct (IH (set_reports (delete entry <$> reports h) h)
                   (delete entry dir)) as (dir' & Hdir' & Hlook).
      { cbn [set_reports reports]. by rewrite Hdir. }
      exists dir'. split; [exact Hdir'|]. intros name. rewrite Hlook.
      destruct (decide (name = entry)) as [->|Hne].
      * rewrite Hthrows, lookup_delete_eq. cbn [negb].
        rewrite andb_true_r.
        rewrite (bool_decide_eq_true_2 (entry ∈ entry :: entries));
          [|apply elem_of_cons; by left].
        by destruct (bool_decide _).
      * rewrite lookup_delete_ne by done.
        destruct (decide (name ∈ entries)) as [Hin|Hnin].
        -- rewrite !bool_decide_eq_true_2; [done| |done].
           apply elem_of_cons. by right.
        -- rewrite !bool_decide_eq_false_2; [done| |done].
           intros [?|?]%elem_of_cons; done.
Qed.

(** X11: Starting a stopped monitor registers one timer, whose handle it keeps,
    and removes from the reports directory every entry whose removal does
    not throw; the dedup map and the history survive the cleanup. *)
Theorem start_effects s env dir :
  isRunning (monitor s) = false →
  fsLoaded (host s) = true →
  reports (host s) = Some dir →
  readdirThrows env = false →
  let s' := startMonitoring s env in
  isRunning (monitor s') = true
  ∧ monitoringInterval (monitor s') = Some (nextTimer (host s))
  ∧ timers (host s') = timers (host s) ++ [nextTimer (host s)]
  ∧ lastReportTimes (monitor s') = lastReportTimes (monitor s)
  ∧ historyBuffer (monitor s') = historyBuffer (monitor s)
  ∧ ∃ dir', reports (host s') = Some dir'
            ∧ ∀ name, dir' !! name
                      = if removeThrows env name then dir !! name else None.
Proof.
  intros Hrun Hfs Hdir Hread. cbn zeta. unfold startMonitoring. rewrite Hrun.
  cbn [monitor host on_monitor on_host set_isRunning set_monitoringInterval
       isRunning monitoringInterval lastReportTimes historyBuffer set_timers
       timers reports].
  pose proof (purge_keeps env (say "🏭 工場監視システム: バックグラウンド監視を開始しました"
                                   (host s))) as (_ & Ht & Hn).
  rewrite Ht, Hn. cbn [say timers nextTimer].
  repeat (split; [reflexivity|]).
  unfold purge. cbn [say fsLoaded reports]. rewrite Hfs, Hdir, Hread.
  cbn [say reports].
  destruct (purge_entries_reports env (fst <$> map_to_list dir)
              (say "🏭 工場監視システム: バックグラウンド監視を開始しました" (host s))
              dir Hdir) as (dir' & Hdir' & Hlook).
  exists dir'. split; [exact Hdir'|]. intros name. rewrite Hlook.
  destruct (removeThrows env name); [by rewrite andb_false_r|].
  rewrite andb_true_r.
  destruct (dir !! name) as [node|] eqn:E.
  - rewrite bool_decide_eq_true_2; [done|].
    apply list_elem_of_fmap. exists (name, node). split; [done|].
    by apply elem_of_map_to_list.
  - by destruct (bool_decide _).
Qed.

(** X12: Stopping after a start gives back the timers the host had, provided the
    handle the host hands out is a new one. *)
Theorem stop_after_start s env :
  isRunning (monitor s) = false →
  nextTimer (host s) ∉ timers (host s) →
  let s' := stopMonitoring (startMonitoring s env) in
  isRunning (monitor s') = false
  ∧ monitoringInterval (monitor s') = None
  ∧ timers (host s') = timers (host s)
  ∧ lastReportTimes (monitor s') = lastReportTimes (monitor s)
  ∧ historyBuffer (monitor s') = historyBuffer (monitor s).
Proof.
  intros Hrun Hfresh. cbn zeta. unfold startMonitoring. rewrite Hrun.
  unfold stopMonitoring.
  cbn [monitor host on_monitor on_host set_isRunning set_monitoringInterval
       isRunning monitoringInterval lastReportTimes historyBuffer set_timers
       timers reports negb say].
  pose proof (purge_keeps env (say "🏭 工場監視システム: バックグラウンド監視を開始しました"
                                   (host s))) as (_ & Ht & Hn).
  rewrite Ht, Hn. cbn [say timers nextTimer].
  repeat (split; [reflexivity|]). split; [|done].
  rewrite List.filter_app. cbn [List.filter]. rewrite Nat.eqb_refl. cbn [negb].
  rewrite app_nil_r.
  generalize dependent (timers (host s)). intros ts Hts.
  induction ts as [|t ts IH]; [done|]. cbn [List.filter].
  apply not_elem_of_cons in Hts as [Hne Hts].
  assert ((t =? nextTimer (host s)) = false) as ->
    by (apply Nat.eqb_neq; congruence).
  cbn [negb]. by rewrite IH.
Qed.

Lemma start_effects_witness :
  monitoringInterval (monitor (startMonitoring Sample.fresh Sample.startEnv))
  = Some 0.
Proof.
  exact (proj1 (proj2 (start_effects Sample.fresh Sample.startEnv ∅
                         eq_refl eq_refl eq_refl eq_refl))).
Defined.

Lemma stop_after_start_witness :
  timers (host (stopMonitoring
                  (startMonitoring Sample.fresh Sample.startEnv))) = [].
Proof.
  refine (proj1 (proj2 (proj2 (stop_after_start Sample.fresh Sample.startEnv
                                 eq_refl _)))).
  apply not_elem_of_nil.
Defined.

Section Ticks.

Variable aiAgent : RobotDiagnosticAI.
Variable toFixed : Q → nat → string.
Variable numberToString : Q → string.

Local Abbreviation emit := (generateEmergencyReport aiAgent toFixed numberToString).
Local Abbreviation check := (checkRobotStatus aiAgent toFixed numberToString).
Local Abbreviation tick := (checkAllRobots aiAgent toFixed numberToString).

Lemma check_buffer s robotId env r k :
  bufferOf (monitor (fst (check s robotId env))) r k
  = bufferOf (fst (getRobotData (monitor s) robotId (draws env)
                     (lastCheckNow env))) r k.
Proof.
  pose proof (check_sameCore aiAgent toFixed numberToString s robotId env)
    as (_ & _ & _ & H & _).
  unfold bufferOf, historyOf. by rewrite H.
Qed.

(** X13: One tick pushes one reading onto the buffer of every roster part of
    each of the three robots, and touches the buffers of no other robot. *)
Theorem tick_pushes_once s envs robotId i part :
  Simulator.robotParts !! i = Some part →
  bufferOf (monitor (tick s envs)) robotId (fst part)
  = if bool_decide (robotId ∈ robotIds)
    then Js.slice_last 10
           (bufferOf (monitor s) robotId (fst part)
            ++ [historyEntryOf
                  (Simulator.simulatePart part (draws (envs robotId) i))])
    else bufferOf (monitor s) robotId (fst part).
Proof.
  intros Hi. unfold checkAllRobots, robotIds. cbn [foldl].
  rewrite !check_buffer, !getRobotData_buffer, !check_buffer,
    !getRobotData_buffer, !check_buffer, !getRobotData_buffer.
  rewrite !(filter_roster _ i part Hi). cbn [fmap list_fmap foldl].
  destruct (String.eqb_spec "ROBOT_001" robotId) as [<-|H1];
    [reflexivity|].
  destruct (String.eqb_spec "ROBOT_002" robotId) as [<-|H2];
    [reflexivity|].
  destruct (String.eqb_spec "ROBOT_003" robotId) as [<-|H3];
    [reflexivity|].
  rewrite bool_decide_eq_false_2; [done|].
  intros [?|[?|[?|[]%elem_of_nil]%elem_of_cons]%elem_of_cons]%elem_of_cons;
    congruence.
Qed.

Lemma criticalParts_severity robotData :
  criticalPartsOf robotData ≠ [] →
  existsb isCriticalStatus (criticalPartsOf robotData) = true.
Proof.
  unfold criticalPartsOf.
  destruct (List.filter _ _) as [|p ps] eqn:E; [done|]. intros _.
  assert (In p (List.filter isCriticalStatus (RobotData.parts robotData)))
    as [_ Hp]%filter_In by (rewrite E; by left).
  simpl. by rewrite Hp.
Qed.

Lemma warningParts_severity robotData :
  criticalPartsOf robotData = [] →
  existsb isCriticalStatus (warningPartsOf robotData) = false.
Proof.
  intros Hnone. apply not_true_iff_false.
  intros (p & [Hin _]%filter_In & Hp)%existsb_exists.
  assert (In p (criticalPartsOf robotData)) as Hc
    by (apply filter_In; by split).
  by rewrite Hnone in Hc.
Qed.

(** X14: The first report of a check is for the critical parts, at critical
    severity, when there are any; otherwise it is for the warning parts at
    the lower severity; with neither, no report is attempted. *)
Theorem primary_report_severity s robotId robotData env :
  let first :=
    primaryReport aiAgent toFixed numberToString s robotId robotData env in
  (criticalPartsOf robotData = [] → warningPartsOf robotData = [] →
   snd first = None)
  ∧ ∀ f c, snd first = Some (Emitted f c) →
           if decide (criticalPartsOf robotData = [])
           then f = reportFilename false robotId (now env)
                ∧ Js.startsWith "emergency_report_" f = true
           else f = reportFilename true robotId (now env)
                ∧ Js.startsWith "CRITICAL_report_" f = true.
Proof.
  cbn zeta. unfold primaryReport. split.
  - intros -> ->. reflexivity.
  - intros f c. destruct (decide (criticalPartsOf robotData = [])) as [Hc|Hc].
    + destruct (0 <? length (criticalPartsOf robotData)) eqn:El.
      { rewrite Hc in El. discriminate El. }
      destruct (0 <? length (warningPartsOf robotData));
        [|cbn [snd]; intros [=]].
      match goal with |- context [emit ?a ?b ?c ?d ?e] =>
        pose proof (emit_cases aiAgent toFixed numberToString a b c d e)
          as H;
        destruct (emit a b c d e) as [s3 o] end.
      cbn zeta in H. cbn [fst snd] in *. intros [= ->].
      destruct H as (-> & _). rewrite (warningParts_severity _ Hc).
      split; [done|]. apply (reportFilename_prefix false).
    + destruct (0 <? length (criticalPartsOf robotData)) eqn:El.
      * match goal with |- context [emit ?a ?b ?c ?d ?e] =>
          pose proof (emit_cases aiAgent toFixed numberToString a b c d e)
            as H;
          destruct (emit a b c d e) as [s3 o] end.
        cbn zeta in H. cbn [fst snd] in *. intros [= ->].
        destruct H as (-> & _). rewrite (criticalParts_severity _ Hc).
        split; [done|]. apply (reportFilename_prefix true).
      * apply Nat.ltb_ge in El.
        destruct (criticalPartsOf robotData); [done|simpl in El; lia].
Qed.

(** X15: An emitted report is in the reports directory under its file name, and
    when the append succeeds the log file has grown by one line naming the
    severity, the robot, the number of parts and the file; every other entry
    of the directory is as before. *)
Theorem emitted_files s robotId robotData parts env s' f c dir :
  emit s robotId robotData parts env = (s', Emitted f c) →
  reports (host s) = Some dir →
  appendThrows env = false →
  dir !! "system_monitor.log" ≠ Some Directory →
  let old := match dir !! "system_monitor.log" with
             | Some (File content) => content
             | _ => EmptyString
             end in
  let line :=
    "[" +:+ Clock.toISOString (logNow env) +:+ "] "
    +:+ (if existsb isCriticalStatus parts then "CRITICAL" else "EMERGENCY")
    +:+ ": " +:+ robotId +:+ " - " +:+ pretty (length parts)
    +:+ " critical parts - Report: " +:+ f +:+ nl in
  ∃ dir',
    reports (host s') = Some dir'
    ∧ dir' !! f = Some (File c)
    ∧ dir' !! "system_monitor.log" = Some (File (old +:+ line))
    ∧ ∀ name, name ≠ f → name ≠ "system_monitor.log" →
              dir' !! name = dir !! name.
Proof.
  intros He Hdir Happend Hlog. cbn zeta.
  unfold generateEmergencyReport in He.
  destruct (withinWindow _ _ _); [discriminate He|].
  cbn [on_host host say fsLoaded] in He.
  destruct (fsLoaded (host s)) eqn:Hfs; [|discriminate He]. cbn [negb] in He.
  destruct (generateReportContent _ _ _ _ _ _ _ _ _) as [content|];
    [|discriminate He].
  unfold writeFileSync in He. cbn [reports say] in He. rewrite Hdir in He.
  pose proof (reportFilename_not_log (existsb isCriticalStatus parts) robotId
                (now env)) as Hne.
  set (filename := reportFilename (existsb isCriticalStatus parts) robotId
                                  (now env)) in *.
  assert (Hwritten : ∀ h0 : Host,
    reports h0 = Some (<[filename := File content]> dir) →
    fsLoaded h0 = true →
    ∀ m0,
    ∃ dir',
      reports (host (logToSystemLog (mkSystem m0 h0) robotId parts filename
                       (existsb isCriticalStatus parts) env)) = Some dir'
      ∧ dir' !! filename = Some (File content)
      ∧ dir' !! "system_monitor.log"
        = Some (File (match dir !! "system_monitor.log" with
                      | Some (File content0) => content0
                      | _ => EmptyString
                      end
                      +:+ ("[" +:+ Clock.toISOString (logNow env) +:+ "] "
                           +:+ (if existsb isCriticalStatus parts
                                then "CRITICAL" else "EMERGENCY")
                           +:+ ": " +:+ robotId +:+ " - "
                           +:+ pretty (length parts)
                           +:+ " critical parts - Report: " +:+ filename
                           +:+ nl)))
      ∧ ∀ name, name ≠ filename → name ≠ "system_monitor.log" →
                dir' !! name = dir !! name).
  { intros h0 Hr0 Hfs0 m0. unfold logToSystemLog, appendFileSync.
    cbn [host]. rewrite Hfs0, Happend, Hr0. cbn [negb].
    rewrite lookup_insert_ne by done.
    destruct (dir !! "system_monitor.log") as [[old|]|] eqn:El; [|done|];
      cbn [host set_reports reports]; eexists; (split; [reflexivity|]);
      (split; [by rewrite lookup_insert_ne, lookup_insert_eq by done|]);
      (split; [by rewrite lookup_insert_eq|]);
      intros name H1 H2; by rewrite !lookup_insert_ne by done. }
  destruct (writeThrows env); [discriminate He|].
  destruct (dir !! filename) as [[oldReport|]|] eqn:Ef;
    [|discriminate He|];
    injection He as <- <- <-; apply Hwritten; reflexivity || exact Hfs.
Qed.

End Ticks.

Lemma tick_pushes_once_witness :
  bufferOf (monitor (checkAllRobots Sample.agent Sample.toFixed
                       Sample.numberToString Sample.fresh
                       (λ _, sampleCheckEnv)))
           "ROBOT_002" "head"
  = [historyEntryOf Sample.hot].
Proof.
  exact (tick_pushes_once Sample.agent Sample.toFixed Sample.numberToString
           Sample.fresh (λ _, sampleCheckEnv) "ROBOT_002" 0
           ("head", "頭部") eq_refl).
Defined.

Lemma primary_report_severity_witness :
  ∃ f c, snd (primaryReport Sample.agent Sample.toFixed Sample.numberToString
                Sample.fresh "ROBOT_001" Sample.snapshot
                (Sample.env Sample.t2358 false)) = Some (Emitted f c)
         ∧ Js.startsWith "CRITICAL_report_" f = true.
Proof.
  assert (∃ f c, snd (primaryReport Sample.agent Sample.toFixed
                        Sample.numberToString Sample.fresh "ROBOT_001"
                        Sample.snapshot (Sample.env Sample.t2358 false))
                 = Some (Emitted f c)) as (f & c & H)
    by (vm_compute; eauto).
  exists f, c. split; [exact H|].
  pose proof (proj2 (primary_report_severity Sample.agent Sample.toFixed
                       Sample.numberToString Sample.fresh "ROBOT_001"
                       Sample.snapshot (Sample.env Sample.t2358 false))
                f c H) as Hsev.
  destruct (decide (criticalPartsOf Sample.snapshot = [])) as [Hnone|_].
  - vm_compute in Hnone. discriminate Hnone.
  - exact (proj2 Hsev).
Defined.

Lemma emitted_files_witness :
  ∃ dir', reports (host (fst (Sample.emit Sample.fresh "ROBOT_001"
                                Sample.snapshot [Sample.hot]
                                (Sample.env Sample.t2350 false))))
          = Some dir'
          ∧ is_Some (dir' !! "system_monitor.log").
Proof.
  destruct sample_emission_2350 as (f & c & He).
  destruct (emitted_files Sample.agent Sample.toFixed Sample.numberToString
              _ _ _ _ _ _ f c ∅ He eq_refl eq_refl)
    as (dir' & Hdir & _ & Hlog & _).
  - by rewrite lookup_empty.
  - exists dir'. split; [exact Hdir|]. rewrite Hlog. by eexists.
Defined.

Section EndToEnd.

Variable aiAgent : RobotDiagnosticAI.
Variable toFixed : Q → nat → string.
Variable numberToString : Q → string.

Local Abbreviation check := (checkRobotStatus aiAgent toFixed numberToString).
Local Abbreviation reachable := (Reachable aiAgent toFixed numberToString).

(** X16: In a reachable state, a check whose snapshot has a critical part, with
    no report for the key in the last five minutes and a file that can be
    written, makes exactly one report call; it emits the CRITICAL report
    and records its time under the key. *)
Theorem check_emits_critical s robotId env dir :
  reachable s →
  let robotData :=
    snd (getRobotData (monitor s) robotId (draws env) (lastCheckNow env)) in
  let t := now (primaryEnv env) in
  let filename := reportFilename true robotId t in
  criticalPartsOf robotData ≠ [] →
  withinWindow (monitor s) (reportKeyOf robotId t) t = false →
  writeThrows (primaryEnv env) = false →
  reports (host s) = Some dir →
  dir !! filename ≠ Some Directory →
  ∃ content dir',
    snd (check s robotId env) = [Emitted filename content]
    ∧ reports (host (fst (check s robotId env))) = Some dir'
    ∧ dir' !! filename = Some (File content)
    ∧ lastReportTimes (monitor (fst (check s robotId env)))
        !! reportKeyOf robotId t = Some t.
Proof.
  intros Hreach. cbn zeta. intros Hcrit Hw Hthrows Hdir Hnode.
  pose proof (check_skips_fallback aiAgent toFixed numberToString s
                robotId env Hreach) as (_ & Hcheck & _).
  cbn zeta in Hcheck. rewrite Hcheck. clear Hcheck.
  apply reachable_consistent in Hreach as (_ & Hfs & _).
  unfold primaryReport.
  destruct (0 <? length (criticalPartsOf _)) eqn:El.
  2:{ apply Nat.ltb_ge in El.
      destruct (criticalPartsOf _); [done|simpl in El; lia]. }
  pose proof (criticalParts_severity _ Hcrit) as Hsev.
  match goal with |- context [generateEmergencyReport _ _ _ ?a ?b ?c ?d ?e] =>
    pose proof (emit_clear aiAgent toFixed numberToString a b c d e dir)
      as Hemit;
    destruct (generateEmergencyReport aiAgent toFixed numberToString
                a b c d e) as [s3 o] end.
  cbn zeta in Hemit. cbn [fst snd] in *.
  rewrite Hsev in Hemit.
  destruct Hemit as (content & dir' & -> & Hdir' & Hfile & Hmap);
    try done.
  - apply filter_metricsDefined, simulateParts_metricsDefined.
  - exists content, dir'. repeat split; try done.
    rewrite Hmap. apply lookup_insert_eq.
Qed.

End EndToEnd.

Lemma check_emits_critical_witness :
  ∃ content,
    snd (checkRobotStatus Sample.agent Sample.toFixed Sample.numberToString
           Sample.fresh "ROBOT_001" sampleCheckEnv)
    = [Emitted (reportFilename true "ROBOT_001" Sample.t2358) content].
Proof.
  assert (H1 : criticalPartsOf
                 (snd (getRobotData (monitor Sample.fresh) "ROBOT_001"
                         (draws sampleCheckEnv)
                         (lastCheckNow sampleCheckEnv))) ≠ []).
  { vm_compute. discriminate. }
  assert (H2 : withinWindow (monitor Sample.fresh)
                 (reportKeyOf "ROBOT_001" (now (primaryEnv sampleCheckEnv)))
                 (now (primaryEnv sampleCheckEnv)) = false).
  { vm_compute. reflexivity. }
  assert (H5 : (∅ : gmap string FsNode)
                 !! reportFilename true "ROBOT_001"
                      (now (primaryEnv sampleCheckEnv)) ≠ Some Directory).
  { rewrite lookup_empty. discriminate. }
  destruct (check_emits_critical Sample.agent Sample.toFixed
              Sample.numberToString Sample.fresh "ROBOT_001" sampleCheckEnv
              ∅ sample_reachable H1 H2 eq_refl eq_refl H5)
    as (content & dir' & H & _).
  exists content. exact H.
Defined.

Lemma roster_keys_differ r1 r2 t1 t2 :
  r1 ∈ robotIds → r2 ∈ robotIds → r1 ≠ r2 →
  reportKeyOf r1 t1 ≠ reportKeyOf r2 t2.
Proof.
  unfold robotIds, reportKeyOf.
  intros [->|[->|[->|[]%elem_of_nil]%elem_of_cons]%elem_of_cons]%elem_of_cons
         [->|[->|[->|[]%elem_of_nil]%elem_of_cons]%elem_of_cons]%elem_of_cons
         Hne; try done; cbn [String.append]; intros [=].
Qed.

Section Independence.

Variable aiAgent : RobotDiagnosticAI.
Variable toFixed : Q → nat → string.
Variable numberToString : Q → string.

Local Abbreviation emit := (generateEmergencyReport aiAgent toFixed numberToString).

Lemma emit_lastReportTimes s robotId robotData parts env :
  lastReportTimes (monitor (fst (emit s robotId robotData parts env)))
  = match snd (emit s robotId robotData parts env) with
    | Emitted _ _ =>
        <[reportKeyOf robotId (now env) := now env]>
          (lastReportTimes (monitor s))
    | _ => lastReportTimes (monitor s)
    end.
Proof.
  pose proof (emit_cases aiAgent toFixed numberToString s robotId robotData
                parts env) as H. cbn zeta in H.
  destruct (snd (emit s robotId robotData parts env)).
  - destruct H as [-> _]. done.
  - destruct H as [-> _]. done.
  - destruct H as [-> _]. done.
  - destruct H as [-> _]. done.
  - tauto.
Qed.

(** X17: A report call for one robot of the roster, however it ends, does not
    change whether a call for another robot of the roster is suppressed. *)
Theorem robots_independent s robotId robotData parts env other t :
  robotId ∈ robotIds → other ∈ robotIds → robotId ≠ other →
  let s' := fst (emit s robotId robotData parts env) in
  lastReportTimes (monitor s') !! reportKeyOf other t
  = lastReportTimes (monitor s) !! reportKeyOf other t
  ∧ withinWindow (monitor s') (reportKeyOf other t) t
    = withinWindow (monitor s) (reportKeyOf other t) t.
Proof.
  intros H1 H2 Hne. cbn zeta.
  assert (Hl : lastReportTimes
                 (monitor (fst (emit s robotId robotData parts env)))
                 !! reportKeyOf other t
               = lastReportTimes (monitor s) !! reportKeyOf other t).
  { rewrite emit_lastReportTimes.
    destruct (snd (emit s robotId robotData parts env)); try done.
    apply lookup_insert_ne. by apply roster_keys_differ. }
  split; [exact Hl|]. unfold withinWindow. by rewrite Hl.
Qed.

(** X18: When the append to the log file throws, the report stays emitted: its
    file is in the directory, its time is recorded, and the rest of the
    directory, the log file included, is as before. *)
Theorem log_failure_keeps_report s robotId robotData parts env s' f c dir :
  emit s robotId robotData parts env = (s', Emitted f c) →
  appendThrows env = true →
  reports (host s) = Some dir →
  reports (host s') = Some (<[f := File c]> dir)
  ∧ lastReportTimes (monitor s') !! reportKeyOf robotId (now env)
    = Some (now env).
Proof.
  intros He Happend Hdir.
  pose proof (emit_lastReportTimes s robotId robotData parts env) as Hmap.
  rewrite He in Hmap. cbn [fst snd] in Hmap.
  split; [|by rewrite Hmap, lookup_insert_eq].
  unfold generateEmergencyReport in He.
  destruct (withinWindow _ _ _); [discriminate He|].
  cbn [on_host host say fsLoaded] in He.
  destruct (fsLoaded (host s)) eqn:Hfs; [|discriminate He]. cbn [negb] in He.
  destruct (generateReportContent _ _ _ _ _ _ _ _ _) as [content|];
    [|discriminate He].
  unfold writeFileSync in He. cbn [reports say] in He. rewrite Hdir in He.
  destruct (writeThrows env); [discriminate He|].
  destruct (dir !! _) as [[old|]|]; [|discriminate He|];
    unfold logToSystemLog, appendFileSync in He;
    cbn [on_host on_monitor host monitor say fsLoaded set_reports] in He;
    rewrite Hfs, Happend in He; cbn [negb] in He;
    by injection He as <- <- <-.
Qed.

End Independence.

Lemma robots_independent_witness :
  withinWindow
    (monitor (fst (Sample.emit Sample.fresh "ROBOT_001" Sample.snapshot
                     [Sample.hot] (Sample.env Sample.t2350 false))))
    (reportKeyOf "ROBOT_002" Sample.t2358) Sample.t2358
  = withinWindow (monitor Sample.fresh)
                 (reportKeyOf "ROBOT_002" Sample.t2358) Sample.t2358.
Proof.
  refine (proj2 (robots_independent Sample.agent Sample.toFixed
                   Sample.numberToString Sample.fresh "ROBOT_001"
                   Sample.snapshot [Sample.hot]
                   (Sample.env Sample.t2350 false) "ROBOT_002"
                   Sample.t2358 _ _ _)).
  - apply elem_of_cons. by left.
  - apply elem_of_cons. right. apply elem_of_cons. by left.
  - discriminate.
Defined.

(** ** The automatic start *)

Lemma start_running s env :
  isRunning (monitor s) = true → startMonitoring s env = s.
Proof. intros H. unfold startMonitoring. by rewrite H. Qed.

Lemma start_isRunning s env :
  isRunning (monitor (startMonitoring s env)) = true.
Proof. unfold startMonitoring. by destruct (isRunning (monitor s)) eqn:E. Qed.

(** X19: Running the start callback again, in whatever directory and whatever
    the cleanup would meet, changes nothing but the console: the instance
    is the same, it keeps running on the one timer, and the reports
    directory is not purged a second time. *)
Theorem autoStart_once cwd p env p1 cwd' env' :
  autoStart cwd p env = Some p1 →
  ∃ m, backgroundMonitor p1 = Some m
       ∧ isRunning m = true
       ∧ autoStart cwd' p1 env'
         = Some (mkProcess (Some m)
                   (say "🏭 工場監視システム: 自動起動完了" (processHost p1))).
Proof.
  assert (Hagain : ∀ s,
    isRunning (monitor s) = true →
    autoStart cwd'
      (mkProcess (Some (monitor s))
                 (say "🏭 工場監視システム: 自動起動完了" (host s))) env'
    = Some (mkProcess (Some (monitor s))
              (say "🏭 工場監視システム: 自動起動完了"
                   (say "🏭 工場監視システム: 自動起動完了" (host s))))).
  { intros s Hrun. unfold autoStart, getBackgroundMonitor.
    cbn [backgroundMonitor processHost mbind option_bind].
    by rewrite start_running. }
  unfold autoStart at 1, getBackgroundMonitor.
  destruct (backgroundMonitor p) as [m0|] eqn:E; cbn [mbind option_bind].
  - rewrite E. cbn [mbind option_bind]. intros [= <-].
    eexists. split; [reflexivity|]. split; [apply start_isRunning|].
    apply Hagain, start_isRunning.
  - destruct (new_BackgroundMonitor cwd (processHost p)) as [s|];
      cbn [mbind option_bind backgroundMonitor processHost];
      [|discriminate].
    intros [= <-]. eexists. split; [reflexivity|].
    split; [apply start_isRunning|].
    apply Hagain, start_isRunning.
Qed.

Lemma autoStart_once_witness :
  ∃ p1 m, autoStart "/app" (mkProcess None Sample.host) Sample.startEnv
          = Some p1
          ∧ backgroundMonitor p1 = Some m ∧ isRunning m = true.
Proof.
  destruct (autoStart "/app" (mkProcess None Sample.host) Sample.startEnv)
    as [p1|] eqn:E; [|discriminate E].
  destruct (autoStart_once _ _ _ _ "/srv" Sample.startEnv E)
    as (m & Hm & Hrun & _).
  exists p1, m. by repeat split.
Defined.

Lemma log_failure_keeps_report_witness :
  ∃ f c, reports (host (fst (Sample.emit Sample.fresh "ROBOT_001"
                               Sample.snapshot [Sample.hot]
                               (mkReportEnv Sample.t2350 0 [] [] false
                                            Sample.t2350 true))))
         = Some (<[f := File c]> ∅).
Proof.
  assert (∃ f c, snd (Sample.emit Sample.fresh "ROBOT_001" Sample.snapshot
                        [Sample.hot]
                        (mkReportEnv Sample.t2350 0 [] [] false
                                     Sample.t2350 true))
                 = Emitted f c) as (f & c & H) by (vm_compute; eauto).
  exists f, c.
  refine (proj1 (log_failure_keeps_report Sample.agent Sample.toFixed
                   Sample.numberToString Sample.fresh "ROBOT_001"
                   Sample.snapshot [Sample.hot]
                   (mkReportEnv Sample.t2350 0 [] [] false Sample.t2350 true)
                   _ f c ∅ _ eq_refl eq_refl)).
  rewrite <- H. apply surjective_pairing.
Defined.



Section Events.

Variable toFixed : Q → nat → string.
Variable numberToString : Q → string.



End Events.


Section Cadence.

Variable aiAgent : RobotDiagnosticAI.
Variable toFixed : Q → nat → string.
Variable numberToString : Q → string.

Local Abbreviation emit := (generateEmergencyReport aiAgent toFixed numberToString).
Local Abbreviation check := (checkRobotStatus aiAgent toFixed numberToString).
Local Abbreviation primary := (primaryReport aiAgent toFixed numberToString).
Local Abbreviation reachable := (Reachable aiAgent toFixed numberToString).

Lemma reachable_step s s' :
  reachable s → Step aiAgent toFixed numberToString s s' → reachable s'.
Proof.
  intros (cwd & h & s0 & Hnew & Hrun) Hstep. exists cwd, h, s0.
  split; [exact Hnew|]. by eapply rtc_r.
Qed.

Lemma primary_emitted_records s robotId robotData env f c :
  snd (primary s robotId robotData env) = Some (Emitted f c) →
  lastReportTimes (monitor (fst (primary s robotId robotData env)))
    !! reportKeyOf robotId (now env) = Some (now env).
Proof.
  unfold primaryReport.
  destruct (0 <? length (criticalPartsOf robotData)).
  - match goal with |- context [emit ?a ?b ?c ?d ?e] =>
      pose proof (emit_lastReportTimes aiAgent toFixed numberToString
                    a b c d e) as H;
      destruct (emit a b c d e) as [s3 o] end.
    cbn [fst snd] in *. intros [= ->]. rewrite H. apply lookup_insert_eq.
  - destruct (0 <? length (warningPartsOf robotData));
      [|cbn [snd]; intros [=]].
    match goal with |- context [emit ?a ?b ?c ?d ?e] =>
      pose proof (emit_lastReportTimes aiAgent toFixed numberToString
                    a b c d e) as H;
      destruct (emit a b c d e) as [s3 o] end.
    cbn [fst snd] in *. intros [= ->]. rewrite H. apply lookup_insert_eq.
Qed.

Lemma primary_within_window s robotId robotData env :
  withinWindow (monitor s) (reportKeyOf robotId (now env)) (now env) = true →
  (snd (primary s robotId robotData env) = None
   ∨ snd (primary s robotId robotData env) = Some Suppressed)
  ∧ monitor (fst (primary s robotId robotData env)) = monitor s
  ∧ reports (host (fst (primary s robotId robotData env)))
    = reports (host s).
Proof.
  intros Hw. unfold primaryReport.
  destruct (0 <? length (criticalPartsOf robotData)).
  - rewrite emit_suppressed by exact Hw. cbn [fst snd]. by split; [right|].
  - destruct (0 <? length (warningPartsOf robotData)).
    + rewrite emit_suppressed by exact Hw. cbn [fst snd].
      by split; [right|].
    + cbn [fst snd]. by split; [left|].
Qed.

(** X21: in a reachable state, once a check has emitted a report, a further
    check of the same robot on the same Tokyo date and less than five
    minutes later emits nothing: its report call, if it makes one, is
    suppressed, and the reports directory and the dedup map stay as the
    first check left them. *)
Theorem next_check_suppressed s robotId env env' f c :
  reachable s →
  snd (check s robotId env) = [Emitted f c] →
  Clock.jpDateKey (now (primaryEnv env'))
  = Clock.jpDateKey (now (primaryEnv env)) →
  (now (primaryEnv env') - now (primaryEnv env) < 300000)%Z →
  let s1 := fst (check s robotId env) in
  let again := check s1 robotId env' in
  (snd again = [] ∨ snd again = [Suppressed])
  ∧ reports (host (fst again)) = reports (host s1)
  ∧ lastReportTimes (monitor (fst again)) = lastReportTimes (monitor s1).
Proof.
  intros Hreach Hout Hdate Hlt. cbn zeta.
  assert (Hreach1 : reachable (fst (check s robotId env))).
  { eapply reachable_step; [exact Hreach|apply step_check]. }
  assert (Hrec : lastReportTimes (monitor (fst (check s robotId env)))
                   !! reportKeyOf robotId (now (primaryEnv env))
                 = Some (now (primaryEnv env))).
  { pose proof (check_skips_fallback aiAgent toFixed numberToString s
                  robotId env Hreach) as (_ & Hcheck & _).
    cbn zeta in Hcheck. rewrite Hcheck in Hout |- *. cbn [fst snd] in *.
    apply (primary_emitted_records _ _ _ _ f c).
    destruct (snd (primary _ _ _ _)) as [o|]; [|discriminate Hout].
    by injection Hout as ->. }
  set (s1 := fst (check s robotId env)) in *.
  pose proof (check_skips_fallback aiAgent toFixed numberToString s1
                robotId env' Hreach1) as (_ & Hcheck & _).
  cbn zeta in Hcheck. rewrite Hcheck. cbn [fst snd]. clear Hcheck.
  assert (Hw : withinWindow
                 (monitor (mkSystem (fst (getRobotData (monitor s1) robotId
                                            (draws env') (lastCheckNow env')))
                                    (host s1)))
                 (reportKeyOf robotId (now (primaryEnv env')))
                 (now (primaryEnv env')) = true).
  { unfold withinWindow. cbn [monitor].
    change (lastReportTimes (fst (getRobotData ?m _ _ _)))
      with (lastReportTimes m).
    unfold reportKeyOf in *. rewrite Hdate, Hrec. by apply Z.ltb_lt. }
  destruct (primary_within_window _ _
              (snd (getRobotData (monitor s1) robotId (draws env')
                      (lastCheckNow env')))
              _ Hw) as (Hsnd & Hmon & Hrep).
  split; [|split].
  - destruct Hsnd as [-> | ->]; [by left | by right].
  - exact Hrep.
  - by rewrite Hmon.
Qed.

End Cadence.

Section FallbackDedup.

Variable aiAgent : RobotDiagnosticAI.
Variable toFixed : Q → nat → string.
Variable numberToString : Q → string.

Local Abbreviation primary := (primaryReport aiAgent toFixed numberToString).

(** X22: when the first report of a check was emitted, a fallback report of
    the same check, on the same Tokyo date and less than five minutes
    later, is suppressed: the check writes the one file of the first
    report whether or not the fallback block is entered. *)
Theorem fallback_after_report_suppressed s robotData primaryEnv fallbackEnv
                                         f c :
  let robotId := RobotData.robotId robotData in
  let first := primary s robotId robotData primaryEnv in
  snd first = Some (Emitted f c) →
  Clock.jpDateKey (now fallbackEnv) = Clock.jpDateKey (now primaryEnv) →
  (now fallbackEnv - now primaryEnv < 300000)%Z →
  evaluateSnapshot aiAgent toFixed numberToString s robotId robotData
                   primaryEnv fallbackEnv
  = if fallbackFires (fst first) robotData
    then (on_host (say fallbackMessage) (fst first),
          [Emitted f c; Suppressed])
    else (fst first, [Emitted f c]).
Proof.
  cbn zeta. intros Hfirst Hdate Hlt.
  pose proof (primary_emitted_records aiAgent toFixed numberToString s
                (RobotData.robotId robotData) robotData primaryEnv f c
                Hfirst) as Hrec.
  unfold evaluateSnapshot.
  destruct (primary s (RobotData.robotId robotData) robotData primaryEnv)
    as [s1 first]. cbn [fst snd] in *. subst first.
  unfold fallbackReport.
  destruct (fallbackFires s1 robotData); [|reflexivity].
  rewrite emit_suppressed; [reflexivity|].
  unfold withinWindow. cbn [on_host monitor].
  unfold reportKeyOf in *. rewrite Hdate, Hrec. by apply Z.ltb_lt.
Qed.

End FallbackDedup.

Lemma fallback_after_report_suppressed_witness :
  last (snd (evaluateSnapshot Sample.agent Sample.toFixed
               Sample.numberToString Sample.stopped "ROBOT_001"
               sampleWarmSnapshot (Sample.env Sample.t2358 false)
               (Sample.env (Sample.t2358 + 5000) false)))
  = Some Suppressed.
Proof.
  assert (∃ f c, snd (primaryReport Sample.agent Sample.toFixed
                        Sample.numberToString Sample.stopped "ROBOT_001"
                        sampleWarmSnapshot (Sample.env Sample.t2358 false))
                 = Some (Emitted f c)) as (f & c & H)
    by (vm_compute; eauto).
  pose proof (fallback_after_report_suppressed Sample.agent Sample.toFixed
                Sample.numberToString Sample.stopped sampleWarmSnapshot
                (Sample.env Sample.t2358 false)
                (Sample.env (Sample.t2358 + 5000) false) f c H) as Hthm.
  cbn zeta in Hthm.
  change (RobotData.robotId sampleWarmSnapshot) with "ROBOT_001" in Hthm.
  rewrite Hthm; [|by vm_compute|by vm_compute].
  assert (fallbackFires
            (fst (primaryReport Sample.agent Sample.toFixed
                    Sample.numberToString Sample.stopped "ROBOT_001"
                    sampleWarmSnapshot (Sample.env Sample.t2358 false)))
            sampleWarmSnapshot = true) as -> by (vm_compute; reflexivity).
  reflexivity.
Defined.

Lemma next_check_suppressed_witness :
  let s1 := fst (checkRobotStatus Sample.agent Sample.toFixed
                   Sample.numberToString Sample.fresh "ROBOT_001"
                   sampleCheckEnv) in
  reports (host (fst (checkRobotStatus Sample.agent Sample.toFixed
                        Sample.numberToString s1 "ROBOT_001"
                        sampleNextCheckEnv)))
  = reports (host s1).
Proof.
  cbn zeta.
  assert (∃ f c, snd (checkRobotStatus Sample.agent Sample.toFixed
                        Sample.numberToString Sample.fresh "ROBOT_001"
                        sampleCheckEnv) = [Emitted f c]) as (f & c & H)
    by (vm_compute; eauto).
  refine (proj1 (proj2 (next_check_suppressed Sample.agent Sample.toFixed
                          Sample.numberToString Sample.fresh "ROBOT_001"
                          sampleCheckEnv sampleNextCheckEnv f c
                          sample_reachable H _ _))); by vm_compute.
Defined.
